(** * A shallow embedding of [main.py], the Perplexity command-line client

    The development follows the layout of the script:

    - [Py]       : the Python values the script manipulates (strings as
                   sequences of code points, JSON-like values, insertion-ordered
                   dicts), exceptions with their class hierarchy, and the
                   built-in operations the script calls on them;
    - [Json]     : [json.dumps] (compact and indented) and [json.loads];
    - [Requests] : responses, [raise_for_status] and [Response.json];
    - [Client]   : [PerplexityClient.chat_completion] and [ask];
    - [Cli]      : the argument namespace and [main];
    - [Samples]  : a runtime, command lines and servers for closed examples;
    - the notions the statements use, then the lemmas and theorems: the
      payload, rendering, failures, saving, and the round trip through
      [json.dumps] and [json.loads]; then the run as a whole: the API
      key, the request of a command line, exit status, output and saved
      file, the reports of a failed request, the two output modes, and
      the keyword arguments of [ask]. *)

From Stdlib Require Import ZArith NArith List Bool Lia String Ascii.
From Stdlib Require Import Floats DecimalPos DecimalN DecimalZ.
From Stdlib Require DecimalFacts.
Import ListNotations.

#[local] Set Warnings "-register-all,-inexact-float".
Local Open Scope Z_scope.

(* ================================================================== *)
(** ** Python values *)

Module Py.

(** A Python [str] is a sequence of Unicode code points. *)
Definition pystr := list N.

(** The str denoted by an ASCII literal of the script. *)
Definition u (s : string) : pystr :=
  List.map N_of_ascii (list_ascii_of_string s).

Fixpoint str_eqb (a b : pystr) : bool :=
  match a, b with
  | [], [] => true
  | x :: a', y :: b' => N.eqb x y && str_eqb a' b'
  | _, _ => false
  end.

(** The values that flow through the script: what a JSON document decodes
    to, which is also what the request payload is made of. A [dict] keeps
    its insertion order; its keys are strs. *)
Inductive pyval :=
| PNone
| PBool (b : bool)
| PInt (z : Z)
| PFloat (f : float)
| PStr (s : pystr)
| PList (l : list pyval)
| PDict (d : list (pystr * pyval)).

Definition dict := list (pystr * pyval).

(** [bool(v)]: the truth value of [v] in an [if]. *)
Definition truthy (v : pyval) : bool :=
  match v with
  | PNone => false
  | PBool b => b
  | PInt z => negb (Z.eqb z 0)
  | PFloat f => negb (PrimFloat.eqb f 0%float)
  | PStr s => match s with [] => false | _ => true end
  | PList l => match l with [] => false | _ => true end
  | PDict d => match d with [] => false | _ => true end
  end.

(** [v is None] *)
Definition is_None (v : pyval) : bool :=
  match v with PNone => true | _ => false end.

(** *** dict operations *)

(** [d.get(k)] as an option *)
Fixpoint dict_get (d : dict) (k : pystr) : option pyval :=
  match d with
  | [] => None
  | (k', v) :: d' => if str_eqb k' k then Some v else dict_get d' k
  end.

(** [k in d] *)
Definition dict_mem (d : dict) (k : pystr) : bool :=
  match dict_get d k with Some _ => true | None => false end.

(** [d[k] = v]: an existing key keeps its place, a new key goes last. *)
Fixpoint dict_set (d : dict) (k : pystr) (v : pyval) : dict :=
  match d with
  | [] => [(k, v)]
  | (k', v') :: d' =>
      if str_eqb k' k then (k', v) :: d' else (k', v') :: dict_set d' k v
  end.

(** [{k: v for k, v in d.items() if keep(v)}] *)
Definition dict_filter (keep : pyval -> bool) (d : dict) : dict :=
  List.filter (fun kv => keep (snd kv)) d.

Definition dict_keys (d : dict) : list pystr := List.map fst d.

(** *** Decimal text of an int: [str(n)] *)

Definition digit (n : N) : N := 48 + n.

Fixpoint uint_digits (d : Decimal.uint) : pystr :=
  match d with
  | Decimal.Nil => []
  | Decimal.D0 d => digit 0 :: uint_digits d
  | Decimal.D1 d => digit 1 :: uint_digits d
  | Decimal.D2 d => digit 2 :: uint_digits d
  | Decimal.D3 d => digit 3 :: uint_digits d
  | Decimal.D4 d => digit 4 :: uint_digits d
  | Decimal.D5 d => digit 5 :: uint_digits d
  | Decimal.D6 d => digit 6 :: uint_digits d
  | Decimal.D7 d => digit 7 :: uint_digits d
  | Decimal.D8 d => digit 8 :: uint_digits d
  | Decimal.D9 d => digit 9 :: uint_digits d
  end.

Definition minus_sign : N := 45.

Definition int_str (z : Z) : pystr :=
  match Z.to_int z with
  | Decimal.Pos d => uint_digits d
  | Decimal.Neg d => minus_sign :: uint_digits d
  end.

(** [sep.join(parts)] on strs *)
Fixpoint join (sep : pystr) (parts : list pystr) : pystr :=
  match parts with
  | [] => []
  | [p] => p
  | p :: rest => p ++ sep ++ join sep rest
  end.

(** [needle in hay] on strs: substring test *)
Fixpoint is_prefix (a b : pystr) : bool :=
  match a, b with
  | [], _ => true
  | x :: a', y :: b' => N.eqb x y && is_prefix a' b'
  | _ :: _, [] => false
  end.

Fixpoint is_infix (needle hay : pystr) : bool :=
  is_prefix needle hay ||
  match hay with
  | [] => false
  | _ :: hay' => is_infix needle hay'
  end.

End Py.

(* ================================================================== *)
(** ** Exceptions, and computations that may raise or exit *)

Module Exn.
Import Py.

(** What the script reads of a [requests.Response]. *)
Record Response := {
  status_code : Z;
  reason : pystr;
  url : pystr;
  text : pystr
}.

(** The exception classes that can reach the script's [except] clauses:
    Python's built-in ones, [json]'s, and those of [requests.exceptions]. *)
Inductive exc_class :=
| BaseException | KeyboardInterrupt | Exception
| LookupError | KeyError | IndexError
| TypeError | AttributeError
| ValueError | UnicodeError | UnicodeEncodeError | JsonDecodeError
| OSError | FileNotFoundError | PermissionError | IsADirectoryError
| RequestException | HTTPError | ConnectionError | ProxyError | SSLError
| Timeout | ConnectTimeout | ReadTimeout | TooManyRedirects
| InvalidURL | InvalidHeader | ChunkedEncodingError
| InvalidJSONError | JSONDecodeError.

(** The direct base classes of each class. *)
Definition bases (c : exc_class) : list exc_class :=
  match c with
  | BaseException => []
  | KeyboardInterrupt => [BaseException]
  | Exception => [BaseException]
  | LookupError => [Exception]
  | KeyError => [LookupError]
  | IndexError => [LookupError]
  | TypeError => [Exception]
  | AttributeError => [Exception]
  | ValueError => [Exception]
  | UnicodeError => [ValueError]
  | UnicodeEncodeError => [UnicodeError]
  | JsonDecodeError => [ValueError]
  | OSError => [Exception]
  | FileNotFoundError => [OSError]
  | PermissionError => [OSError]
  | IsADirectoryError => [OSError]
  | RequestException => [OSError]
  | HTTPError => [RequestException]
  | ConnectionError => [RequestException]
  | ProxyError => [ConnectionError]
  | SSLError => [ConnectionError]
  | Timeout => [RequestException]
  | ConnectTimeout => [ConnectionError; Timeout]
  | ReadTimeout => [Timeout]
  | TooManyRedirects => [RequestException]
  | InvalidURL => [RequestException; ValueError]
  | InvalidHeader => [RequestException; ValueError]
  | ChunkedEncodingError => [RequestException]
  | InvalidJSONError => [RequestException]
  | JSONDecodeError => [InvalidJSONError; JsonDecodeError]
  end.

Definition exc_class_eqb (a b : exc_class) : bool :=
  match a, b with
  | BaseException, BaseException | KeyboardInterrupt, KeyboardInterrupt
  | Exception, Exception | LookupError, LookupError | KeyError, KeyError
  | IndexError, IndexError | TypeError, TypeError
  | AttributeError, AttributeError | ValueError, ValueError
  | UnicodeError, UnicodeError | UnicodeEncodeError, UnicodeEncodeError
  | JsonDecodeError, JsonDecodeError | OSError, OSError
  | FileNotFoundError, FileNotFoundError | PermissionError, PermissionError
  | IsADirectoryError, IsADirectoryError
  | RequestException, RequestException | HTTPError, HTTPError
  | ConnectionError, ConnectionError | ProxyError, ProxyError
  | SSLError, SSLError | Timeout, Timeout | ConnectTimeout, ConnectTimeout
  | ReadTimeout, ReadTimeout | TooManyRedirects, TooManyRedirects
  | InvalidURL, InvalidURL | InvalidHeader, InvalidHeader
  | ChunkedEncodingError, ChunkedEncodingError
  | InvalidJSONError, InvalidJSONError | JSONDecodeError, JSONDecodeError => true
  | _, _ => false
  end.

(** [issubclass(c, d)]; the hierarchy above is at most six levels deep. *)
Fixpoint issubclass_upto (fuel : nat) (c d : exc_class) : bool :=
  exc_class_eqb c d ||
  match fuel with
  | O => false
  | S fuel' => existsb (fun b => issubclass_upto fuel' b d) (bases c)
  end.

Definition issubclass : exc_class -> exc_class -> bool := issubclass_upto 6.

(** An exception object: its class, [str(e)], and for the exceptions of
    [requests] the [response] attribute ([None] when no response came). *)
Record exception := {
  exc_type : exc_class;
  exc_str : pystr;
  exc_response : option Response
}.

Definition isinstance (e : exception) (c : exc_class) : bool :=
  issubclass (exc_type e) c.

Definition new_exc (c : exc_class) (msg : pystr) : exception :=
  {| exc_type := c; exc_str := msg; exc_response := None |}.

(** How a computation ends: with a value, with a raised exception, or
    with [sys.exit(code)] (SystemExit, which no handler of the script
    intercepts). *)
Inductive outcome (A : Type) :=
| Ok (a : A)
| Raise (e : exception)
| Exit (code : Z).
Arguments Ok {A} a.
Arguments Raise {A} e.
Arguments Exit {A} code.

Definition obind {A B} (m : outcome A) (k : A -> outcome B) : outcome B :=
  match m with
  | Ok a => k a
  | Raise e => Raise e
  | Exit c => Exit c
  end.

End Exn.

(* ================================================================== *)
(** ** The built-in operations the script applies to its values *)

Module Builtins.
Import Py Exn.

(** Text conversions of the interpreter that the script calls and that
    are kept abstract: [repr] of a float (the shortest decimal text that
    reads back as the same float), [float] of a JSON number token, [repr]
    of a str, and the message of the decoder's error on a text that is
    not JSON. *)
Class PyRuntime := {
  float_repr : float -> pystr;
  float_of_literal : pystr -> float;
  str_repr : pystr -> pystr;
  json_error_text : pystr -> pystr
}.

Definition type_name (v : pyval) : pystr :=
  match v with
  | PNone => u "NoneType"
  | PBool _ => u "bool"
  | PInt _ => u "int"
  | PFloat _ => u "float"
  | PStr _ => u "str"
  | PList _ => u "list"
  | PDict _ => u "dict"
  end.

Definition apostrophe : N := 39.

(** [repr(k)] for a key that is a plain identifier, as every key the
    script subscripts with is. *)
Definition quoted (k : pystr) : pystr := apostrophe :: k ++ [apostrophe].

Section WithRuntime.
Context {R : PyRuntime}.

(** [repr(v)] *)
Fixpoint py_repr (v : pyval) : pystr :=
  match v with
  | PNone => u "None"
  | PBool true => u "True"
  | PBool false => u "False"
  | PInt z => int_str z
  | PFloat f => float_repr f
  | PStr s => str_repr s
  | PList l => u "[" ++ join (u ", ") (List.map py_repr l) ++ u "]"
  | PDict d =>
      u "{" ++
      join (u ", ")
        (List.map (fun kv => str_repr (fst kv) ++ u ": " ++ py_repr (snd kv)) d)
      ++ u "}"
  end.

(** [str(v)], which is also what [f"{v}"] inserts *)
Definition py_str (v : pyval) : pystr :=
  match v with
  | PStr s => s
  | _ => py_repr v
  end.

End WithRuntime.

Definition not_subscriptable (v : pyval) : exception :=
  new_exc TypeError
    (apostrophe :: type_name v ++ u "' object is not subscriptable").

(** [v[k]] for a str key [k] *)
Definition getitem_key (v : pyval) (k : pystr) : outcome pyval :=
  match v with
  | PDict d =>
      match dict_get d k with
      | Some x => Ok x
      | None => Raise (new_exc KeyError (quoted k))
      end
  | PList _ =>
      Raise (new_exc TypeError
               (u "list indices must be integers or slices, not str"))
  | PStr _ =>
      Raise (new_exc TypeError (u "string indices must be integers, not 'str'"))
  | _ => Raise (not_subscriptable v)
  end.

(** Position of index [i] in a sequence of length [len]; a negative index
    counts from the end. *)
Definition seq_position (len i : Z) : option nat :=
  if (0 <=? i) && (i <? len) then Some (Z.to_nat i)
  else if (- len <=? i) && (i <? 0) then Some (Z.to_nat (len + i))
  else None.

(** [v[i]] for an int index [i] *)
Definition getitem_index (v : pyval) (i : Z) : outcome pyval :=
  match v with
  | PDict _ => Raise (new_exc KeyError (int_str i))
  | PList l =>
      match seq_position (Z.of_nat (List.length l)) i with
      | Some n =>
          match nth_error l n with
          | Some x => Ok x
          | None => Raise (new_exc IndexError (u "list index out of range"))
          end
      | None => Raise (new_exc IndexError (u "list index out of range"))
      end
  | PStr s =>
      match seq_position (Z.of_nat (List.length s)) i with
      | Some n =>
          match nth_error s n with
          | Some c => Ok (PStr [c])
          | None => Raise (new_exc IndexError (u "string index out of range"))
          end
      | None => Raise (new_exc IndexError (u "string index out of range"))
      end
  | _ => Raise (not_subscriptable v)
  end.

(** [v == k] for a str [k] *)
Definition eq_str (v : pyval) (k : pystr) : bool :=
  match v with PStr s => str_eqb s k | _ => false end.

(** [k in v] for a str [k] *)
Definition py_contains (k : pystr) (v : pyval) : outcome bool :=
  match v with
  | PDict d => Ok (dict_mem d k)
  | PList l => Ok (existsb (fun x => eq_str x k) l)
  | PStr s => Ok (is_infix k s)
  | _ =>
      Raise (new_exc TypeError
               (u "argument of type '" ++ type_name v ++ u "' is not iterable"))
  end.

(** [v.get(k)] *)
Definition py_get (v : pyval) (k : pystr) : outcome pyval :=
  match v with
  | PDict d =>
      match dict_get d k with
      | Some x => Ok x
      | None => Ok PNone
      end
  | _ =>
      Raise (new_exc AttributeError
               (apostrophe :: type_name v ++ u "' object has no attribute 'get'"))
  end.

(** The items a [for] loop over [v] visits. *)
Definition py_iter (v : pyval) : outcome (list pyval) :=
  match v with
  | PList l => Ok l
  | PStr s => Ok (List.map (fun c => PStr [c]) s)
  | PDict d => Ok (List.map (fun kv => PStr (fst kv)) d)
  | _ =>
      Raise (new_exc TypeError
               (apostrophe :: type_name v ++ u "' object is not iterable"))
  end.

(** [sep.join(parts)]: every part has to be a str. *)
Fixpoint strs_from (i : Z) (parts : list pyval) : outcome (list pystr) :=
  match parts with
  | [] => Ok []
  | PStr s :: rest => obind (strs_from (i + 1) rest) (fun l => Ok (s :: l))
  | v :: _ =>
      Raise (new_exc TypeError
               (u "sequence item " ++ int_str i ++ u ": expected str instance, "
                  ++ type_name v ++ u " found"))
  end.

Definition str_join (sep : pystr) (parts : list pyval) : outcome pystr :=
  obind (strs_from 0 parts) (fun l => Ok (join sep l)).

End Builtins.

(* ================================================================== *)
(** ** [json.dumps] and [json.loads] *)

Module Json.
Import Py Exn Builtins.
Local Open Scope N_scope.

(** *** Encoding: [json.dumps(obj, indent=...)], with [ensure_ascii] left
    at its default *)

Definition quote_mark : N := 34.
Definition backslash : N := 92.
Definition letter_u : N := 117.

(** One digit of ['{0:04x}'.format(n)] *)
Definition hex_digit (d : N) : N := if d <? 10 then 48 + d else 87 + d.

Definition hex4 (n : N) : pystr :=
  [hex_digit (n / 4096 mod 16); hex_digit (n / 256 mod 16);
   hex_digit (n / 16 mod 16); hex_digit (n mod 16)].

Definition u_escape (n : N) : pystr := backslash :: letter_u :: hex4 n.

(** What [encode_basestring_ascii] writes for one code point: the short
    escapes of [ESCAPE_DCT], the printable ASCII characters as they are,
    and a [\uXXXX] escape (a surrogate pair above the basic plane) for the
    rest. *)
Definition escape_char (c : N) : pystr :=
  if c =? 34 then [backslash; 34]
  else if c =? 92 then [backslash; 92]
  else if c =? 10 then [backslash; 110]
  else if c =? 13 then [backslash; 114]
  else if c =? 9 then [backslash; 116]
  else if c =? 8 then [backslash; 98]
  else if c =? 12 then [backslash; 102]
  else if (32 <=? c) && (c <=? 126) then [c]
  else if c <? 65536 then u_escape c
  else
    let n := c - 65536 in
    let s1 := N.lor 55296 (N.land (N.shiftr n 10) 1023) in
    let s2 := N.lor 56320 (N.land n 1023) in
    u_escape s1 ++ u_escape s2.

Definition encode_basestring_ascii (s : pystr) : pystr :=
  quote_mark :: List.flat_map escape_char s ++ [quote_mark].

Section WithRuntime.
Context {R : PyRuntime}.

(** [floatstr]: the three non-finite floats have names of their own. *)
Definition floatstr (f : float) : pystr :=
  if negb (PrimFloat.eqb f f) then u "NaN"
  else if PrimFloat.eqb f infinity then u "Infinity"
  else if PrimFloat.eqb f neg_infinity then u "-Infinity"
  else float_repr f.

(** ['\n' + ' ' * (indent * level)] when an indent is given, nothing
    otherwise *)
Definition newline_indent (indent : option nat) (level : nat) : pystr :=
  match indent with
  | Some n => 10 :: List.repeat 32 (n * level)
  | None => []
  end.

(** The item separator is [","] when an indent is given and [", "]
    otherwise; the key separator is [": "] in both cases. *)
Definition item_separator (indent : option nat) : pystr :=
  match indent with
  | Some _ => u ","
  | None => u ", "
  end.

Definition key_separator : pystr := u ": ".

Fixpoint encode (indent : option nat) (level : nat) (v : pyval) : pystr :=
  match v with
  | PNone => u "null"
  | PBool true => u "true"
  | PBool false => u "false"
  | PInt z => int_str z
  | PFloat f => floatstr f
  | PStr s => encode_basestring_ascii s
  | PList [] => u "[]"
  | PList l =>
      u "[" ++ newline_indent indent (S level) ++
      join (item_separator indent ++ newline_indent indent (S level))
           (List.map (encode indent (S level)) l) ++
      newline_indent indent level ++ u "]"
  | PDict [] => u "{}"
  | PDict d =>
      u "{" ++ newline_indent indent (S level) ++
      join (item_separator indent ++ newline_indent indent (S level))
           (List.map (fun kv => encode_basestring_ascii (fst kv) ++ key_separator
                                  ++ encode indent (S level) (snd kv)) d) ++
      newline_indent indent level ++ u "}"
  end.

(** [json.dumps(v, indent=indent)] *)
Definition dumps (indent : option nat) (v : pyval) : pystr :=
  encode indent 0 v.

End WithRuntime.

(** *** Decoding: [json.loads(text)] *)

(** [WHITESPACE]: blanks, tabs, line feeds and carriage returns *)
Definition is_ws (c : N) : bool :=
  (c =? 32) || (c =? 9) || (c =? 10) || (c =? 13).

Fixpoint skip_ws (s : pystr) : pystr :=
  match s with
  | c :: r => if is_ws c then skip_ws r else s
  | [] => []
  end.

Definition hex_value (c : N) : option N :=
  if (48 <=? c) && (c <=? 57) then Some (c - 48)
  else if (97 <=? c) && (c <=? 102) then Some (c - 87)
  else if (65 <=? c) && (c <=? 70) then Some (c - 55)
  else None.

(** The number written by four hexadecimal digits *)
Definition decode_hex4 (a b c d : N) : option N :=
  match hex_value a, hex_value b, hex_value c, hex_value d with
  | Some x, Some y, Some z, Some w => Some (((x * 16 + y) * 16 + z) * 16 + w)
  | _, _, _, _ => None
  end.

Definition is_high_surrogate (n : N) : bool := (55296 <=? n) && (n <=? 56319).
Definition is_low_surrogate (n : N) : bool := (56320 <=? n) && (n <=? 57343).

(** The character a one-letter escape stands for ([BACKSLASH]) *)
Definition short_escape (e : N) : option N :=
  if e =? 34 then Some 34
  else if e =? 92 then Some 92
  else if e =? 47 then Some 47
  else if e =? 98 then Some 8
  else if e =? 102 then Some 12
  else if e =? 110 then Some 10
  else if e =? 114 then Some 13
  else if e =? 116 then Some 9
  else None.

Definition push (c : N) (k : option (pystr * pystr)) : option (pystr * pystr) :=
  match k with
  | Some (str, rest) => Some (c :: str, rest)
  | None => None
  end.

(** [scanstring], entered after the opening quote: the decoded str and
    the text after the closing quote. A [\uXXXX] escape of a high
    surrogate that is followed by the escape of a low surrogate is read
    with it as one code point; a raw control character is refused. *)
Fixpoint scanstring (s : pystr) : option (pystr * pystr) :=
  match s with
  | [] => None
  | c :: r =>
      if c =? quote_mark then Some ([], r)
      else if c =? backslash then
        match r with
        | [] => None
        | e :: r1 =>
            if e =? letter_u then
              match r1 with
              | h1 :: h2 :: h3 :: h4 :: r2 =>
                  match decode_hex4 h1 h2 h3 h4 with
                  | None => None
                  | Some uni =>
                      match r2 with
                      | b :: l :: g1 :: g2 :: g3 :: g4 :: r3 =>
                          if is_high_surrogate uni && (b =? backslash)
                             && (l =? letter_u)
                          then
                            match decode_hex4 g1 g2 g3 g4 with
                            | None => None
                            | Some uni2 =>
                                if is_low_surrogate uni2 then
                                  push (65536 +
                                        N.lor (N.shiftl (uni - 55296) 10)
                                              (uni2 - 56320))
                                       (scanstring r3)
                                else push uni (scanstring r2)
                            end
                          else push uni (scanstring r2)
                      | _ => push uni (scanstring r2)
                      end
                  end
              | _ => None
              end
            else
              match short_escape e with
              | Some x => push x (scanstring r1)
              | None => None
              end
        end
      else if c <? 32 then None
      else push c (scanstring r)
  end.

Definition is_digit (c : N) : bool := (48 <=? c) && (c <=? 57).

(** The longest run of digits at the head of [s], and what follows it *)
Fixpoint take_digits (s : pystr) : pystr * pystr :=
  match s with
  | c :: r =>
      if is_digit c then let (d, r') := take_digits r in (c :: d, r')
      else ([], s)
  | [] => ([], [])
  end.

(** The three groups of [NUMBER_RE]: an integer part (an optional minus
    sign, then either a lone zero or a digit from 1 to 9 followed by any
    digits), an optional fraction (a dot and at least one digit) and an
    optional exponent (e or E, an optional sign, at least one digit). An
    optional group that does not match is the empty text. *)
Definition match_int (s : pystr) : option (pystr * pystr) :=
  let (sign, s1) :=
    match s with
    | c :: r => if c =? 45 then ([c], r) else ([], s)
    | [] => ([], [])
    end in
  match s1 with
  | c :: r =>
      if c =? 48 then Some (sign ++ [c], r)
      else if is_digit c then
        let (d, r') := take_digits r in Some (sign ++ c :: d, r')
      else None
  | [] => None
  end.

Definition match_frac (s : pystr) : pystr * pystr :=
  match s with
  | c :: r =>
      if c =? 46 then
        match take_digits r with
        | ([], _) => ([], s)
        | (d, r') => (c :: d, r')
        end
      else ([], s)
  | [] => ([], [])
  end.

Definition match_exp (s : pystr) : pystr * pystr :=
  match s with
  | c :: r =>
      if (c =? 101) || (c =? 69) then
        let (sign, r1) :=
          match r with
          | x :: r' => if (x =? 45) || (x =? 43) then ([x], r') else ([], r)
          | [] => ([], [])
          end in
        match take_digits r1 with
        | ([], _) => ([], s)
        | (d, r') => (c :: sign ++ d, r')
        end
      else ([], s)
  | [] => ([], [])
  end.

Definition match_number (s : pystr) : option (pystr * pystr * pystr * pystr) :=
  match match_int s with
  | None => None
  | Some (i, r) =>
      let (fr, r1) := match_frac r in
      let (ex, r2) := match_exp r1 in
      Some (i, fr, ex, r2)
  end.

(** [int(text)] on the integer group *)
Fixpoint digits_uint (s : pystr) : Decimal.uint :=
  match s with
  | [] => Decimal.Nil
  | c :: r =>
      let d := digits_uint r in
      if c =? 48 then Decimal.D0 d
      else if c =? 49 then Decimal.D1 d
      else if c =? 50 then Decimal.D2 d
      else if c =? 51 then Decimal.D3 d
      else if c =? 52 then Decimal.D4 d
      else if c =? 53 then Decimal.D5 d
      else if c =? 54 then Decimal.D6 d
      else if c =? 55 then Decimal.D7 d
      else if c =? 56 then Decimal.D8 d
      else Decimal.D9 d
  end.

Definition int_of_text (s : pystr) : Z :=
  match s with
  | c :: r =>
      if c =? 45 then Z.of_int (Decimal.Neg (digits_uint r))
      else Z.of_int (Decimal.Pos (digits_uint s))
  | [] => 0%Z
  end.

(** [dict(pairs)]: a later pair with the same key replaces the value of
    the earlier one. *)
Definition dict_of_pairs (pairs : list (pystr * pyval)) : dict :=
  List.fold_left (fun d kv => dict_set d (fst kv) (snd kv)) pairs [].

Section WithRuntime.
Context {R : PyRuntime}.

(** The scalar tokens of [scan_once]: the three names, a number, and the
    three names of non-finite floats, tried in this order. *)
Definition scan_literal (s : pystr) : option (pyval * pystr) :=
  if is_prefix (u "null") s then Some (PNone, skipn 4 s)
  else if is_prefix (u "true") s then Some (PBool true, skipn 4 s)
  else if is_prefix (u "false") s then Some (PBool false, skipn 5 s)
  else
    match match_number s with
    | Some (i, fr, ex, r) =>
        match fr, ex with
        | [], [] => Some (PInt (int_of_text i), r)
        | _, _ => Some (PFloat (float_of_literal (i ++ fr ++ ex)), r)
        end
    | None =>
        if is_prefix (u "NaN") s then Some (PFloat nan, skipn 3 s)
        else if is_prefix (u "Infinity") s then Some (PFloat infinity, skipn 8 s)
        else if is_prefix (u "-Infinity") s
        then Some (PFloat neg_infinity, skipn 9 s)
        else None
    end.

(** [scan_once], with [JSONArray] and [JSONObject]: the value at the head
    of the text and the text after it. [fuel] bounds the nesting of the
    calls; [loads] provides more than a text of its length can use. *)
Fixpoint scan_once (fuel : nat) (s : pystr) : option (pyval * pystr) :=
  match fuel with
  | O => None
  | S fuel' =>
      match s with
      | [] => None
      | c :: r =>
          if c =? quote_mark then
            match scanstring r with
            | Some (str, r') => Some (PStr str, r')
            | None => None
            end
          else if c =? 123 then
            match skip_ws r with
            | c0 :: r1 =>
                if c0 =? 125 then Some (PDict [], r1)
                else if c0 =? quote_mark then
                  match scan_pairs fuel' r1 with
                  | Some (pairs, r2) => Some (PDict (dict_of_pairs pairs), r2)
                  | None => None
                  end
                else None
            | [] => None
            end
          else if c =? 91 then
            match skip_ws r with
            | c0 :: r1 =>
                if c0 =? 93 then Some (PList [], r1)
                else
                  match scan_items fuel' (c0 :: r1) with
                  | Some (items, r2) => Some (PList items, r2)
                  | None => None
                  end
            | [] => None
            end
          else scan_literal s
      end
  end

with scan_items (fuel : nat) (s : pystr) : option (list pyval * pystr) :=
  match fuel with
  | O => None
  | S fuel' =>
      match scan_once fuel' s with
      | None => None
      | Some (v, r) =>
          match skip_ws r with
          | c :: r1 =>
              if c =? 93 then Some ([v], r1)
              else if c =? 44 then
                match scan_items fuel' (skip_ws r1) with
                | Some (vs, r2) => Some (v :: vs, r2)
                | None => None
                end
              else None
          | [] => None
          end
      end
  end

with scan_pairs (fuel : nat) (s : pystr)
  : option (list (pystr * pyval) * pystr) :=
  match fuel with
  | O => None
  | S fuel' =>
      match scanstring s with
      | None => None
      | Some (key, r) =>
          match skip_ws r with
          | c :: r1 =>
              if c =? 58 then
                match scan_once fuel' (skip_ws r1) with
                | None => None
                | Some (v, r2) =>
                    match skip_ws r2 with
                    | c2 :: r3 =>
                        if c2 =? 125 then Some ([(key, v)], r3)
                        else if c2 =? 44 then
                          match skip_ws r3 with
                          | q :: r4 =>
                              if q =? quote_mark then
                                match scan_pairs fuel' r4 with
                                | Some (ps, r5) => Some ((key, v) :: ps, r5)
                                | None => None
                                end
                              else None
                          | [] => None
                          end
                        else None
                    | [] => None
                    end
                end
              else None
          | [] => None
          end
      end
  end.

(** [JSONDecoder.decode]: one value, with nothing but whitespace around
    it. *)
Definition decode (s : pystr) : option pyval :=
  match scan_once (S (List.length s)) (skip_ws s) with
  | Some (v, r) =>
      match skip_ws r with
      | [] => Some v
      | _ :: _ => None
      end
  | None => None
  end.

(** [json.loads(s)] for a str [s]; [None] stands for a raised
    [JSONDecodeError]. A text that starts with a byte order mark is
    refused. *)
Definition loads (s : pystr) : option pyval :=
  match s with
  | c :: _ => if c =? 65279 then None else decode s
  | [] => decode s
  end.

End WithRuntime.

End Json.

(* ================================================================== *)
(** ** The part of [requests] the client relies on *)

Module Requests.
Import Py Exn Builtins Json.

(** The arguments of [requests.post(url, headers=..., json=...)] *)
Record Request := {
  req_url : pystr;
  req_headers : list (pystr * pystr);
  req_json : dict
}.

(** What the call does: it raises, or it returns a response. *)
Inductive post_outcome :=
| PostRaises (e : exception)
| PostReturns (r : Response).

(** [Response.raise_for_status]: an [HTTPError] that carries the response
    when the status is a client error (4xx) or a server error (5xx),
    nothing for any other status. *)
Definition raise_for_status (r : Response) : option exception :=
  let code := status_code r in
  let describe kind :=
    {| exc_type := HTTPError;
       exc_str := int_str code ++ kind ++ reason r ++ u " for url: " ++ url r;
       exc_response := Some r |} in
  if (400 <=? code) && (code <? 500) then Some (describe (u " Client Error: "))
  else if (500 <=? code) && (code <? 600) then Some (describe (u " Server Error: "))
  else None.

(** [Response.json]: the decoded body, or a [JSONDecodeError] of
    [requests.exceptions], which carries no response. The limits of the
    interpreter (the digits of an int, the depth of the nesting) are not
    part of the model: a body beyond them makes the decoder raise a
    [ValueError] or a [RecursionError], and no statement says that the
    call returns for every body. *)
Definition response_json {R : PyRuntime} (r : Response) : outcome pyval :=
  match loads (text r) with
  | Some v => Ok v
  | None => Raise (new_exc JSONDecodeError (json_error_text (text r)))
  end.

End Requests.

(* ================================================================== *)
(** ** Effects of the script: what it prints, posts and writes *)

Module Effects.
Import Py Exn Requests.

Inductive output_stream := Stdout | Stderr.

Inductive event :=
| EvPrint (to : output_stream) (line : pystr)
| EvPost (rq : Request)
| EvWrite (path content : pystr).

(** The surroundings of one run: the API key of the environment, the
    remote end of the HTTP exchange, and the file system's answer to
    writing a file ([None]: written; [Some e]: [e] was raised). *)
Record World := {
  environ_api_key : option pystr;
  post : Request -> post_outcome;
  write_file : pystr -> pystr -> option exception
}.

(** A computation with effects: the events it caused, in order, and how
    it ended. *)
Definition io (A : Type) : Type := list event * outcome A.

Definition ret {A} (a : A) : io A := ([], Ok a).

Definition bind {A B} (m : io A) (k : A -> io B) : io B :=
  match snd m with
  | Ok a => (fst m ++ fst (k a), snd (k a))
  | Raise e => (fst m, Raise e)
  | Exit c => (fst m, Exit c)
  end.

Definition lift {A} (o : outcome A) : io A := ([], o).

(** [print(line, file=...)], once the line is written. The error stream
    writes every text (it replaces what it cannot encode); the output
    stream raises a [UnicodeEncodeError] for a text that it cannot
    encode, a lone surrogate for one. The statements about what follows
    the display of the output are about runs in which the output has been
    displayed. *)
Definition print (to : output_stream) (line : pystr) : io unit :=
  ([EvPrint to line], Ok tt).

(** [sys.exit(code)] *)
Definition sys_exit {A} (code : Z) : io A := ([], Exit code).

(** [try: body except classes as e: handler(e)] *)
Definition try_except {A} (body : io A) (classes : list exc_class)
    (handler : exception -> io A) : io A :=
  match snd body with
  | Raise e =>
      if existsb (isinstance e) classes
      then (fst body ++ fst (handler e), snd (handler e))
      else body
  | _ => body
  end.


Definition printed (to : output_stream) (trace : list event) : list pystr :=
  List.flat_map
    (fun ev =>
       match ev, to with
       | EvPrint Stdout l, Stdout => [l]
       | EvPrint Stderr l, Stderr => [l]
       | _, _ => []
       end) trace.

End Effects.

Declare Scope io_scope.
Delimit Scope io_scope with io.
Notation "x <- m ;; k" := (Effects.bind m (fun x => k))
  (at level 61, m at next level, right associativity) : io_scope.
Notation "m ;;; k" := (Effects.bind m (fun _ => k))
  (at level 61, right associativity) : io_scope.

(* ================================================================== *)
(** ** [class PerplexityClient] *)

Module Client.
Import Py Exn Builtins Json Requests Effects.
Local Open Scope io_scope.

Record PerplexityClient := {
  api_key : pystr;
  base_url : pystr;
  headers : list (pystr * pystr)
}.

(** [PerplexityClient.__init__] *)
Definition new_client (key : pystr) : PerplexityClient :=
  {| api_key := key;
     base_url := u "https://api.perplexity.ai";
     headers := [(u "Authorization", u "Bearer " ++ key);
                 (u "Content-Type", u "application/json")] |}.

(** The parameters of [chat_completion]. Python does not enforce their
    annotations, so each one is any value. *)
Record ChatParams := {
  messages : pyval;
  model : pyval;
  max_tokens : pyval;
  temperature : pyval;
  top_p : pyval;
  return_citations : pyval;
  search_domain_filter : pyval;
  return_images : pyval;
  return_related_questions : pyval;
  search_recency_filter : pyval;
  top_k : pyval;
  stream : pyval;
  presence_penalty : pyval;
  frequency_penalty : pyval
}.

(** The parameters when only [messages] is passed: the defaults of the
    signature. *)
Definition default_params (msgs : pyval) : ChatParams :=
  {| messages := msgs;
     model := PStr (u "sonar");
     max_tokens := PNone;
     temperature := PFloat 0.2%float;
     top_p := PFloat 0.9%float;
     return_citations := PBool true;
     search_domain_filter := PNone;
     return_images := PBool false;
     return_related_questions := PBool false;
     search_recency_filter := PNone;
     top_k := PInt 0;
     stream := PBool false;
     presence_penalty := PInt 0;
     frequency_penalty := PInt 1 |}.

(** The dict literal that [chat_completion] starts from. *)
Definition payload_literal (p : ChatParams) : dict :=
  [ (u "model", model p);
    (u "messages", messages p);
    (u "max_tokens", max_tokens p);
    (u "temperature", temperature p);
    (u "top_p", top_p p);
    (u "return_citations", return_citations p);
    (u "return_images", return_images p);
    (u "return_related_questions", return_related_questions p);
    (u "top_k", top_k p);
    (u "stream", stream p);
    (u "presence_penalty", presence_penalty p);
    (u "frequency_penalty", frequency_penalty p) ].

(** The payload before the final filter: the two search filters are
    added when they are truthy. *)
Definition assemble_payload (p : ChatParams) : dict :=
  let payload := payload_literal p in
  let payload :=
    if truthy (search_domain_filter p)
    then dict_set payload (u "search_domain_filter") (search_domain_filter p)
    else payload in
  if truthy (search_recency_filter p)
  then dict_set payload (u "search_recency_filter") (search_recency_filter p)
  else payload.

(** The payload that is sent: every entry whose value is [None] is
    dropped. *)
Definition build_payload (p : ChatParams) : dict :=
  dict_filter (fun v => negb (is_None v)) (assemble_payload p).

(** The dict the [except] clause returns for a caught exception [e]. *)
Definition error_detail (e : exception) : pyval :=
  let detail :=
    [ (u "error", PStr (exc_str e));
      (u "status_code",
       match exc_response e with
       | Some r => PInt (status_code r)
       | None => PNone
       end) ] in
  match exc_response e with
  | Some r => PDict (dict_set detail (u "response_text") (PStr (text r)))
  | None => PDict detail
  end.

Section WithRuntime.
Context {R : PyRuntime}.

(** The body of the [try]: post, check the status, decode the body. *)
Definition exchange (w : World) (rq : Request) : io pyval :=
  ([EvPost rq],
   match post w rq with
   | PostRaises e => Raise e
   | PostReturns r =>
       match raise_for_status r with
       | Some e => Raise e
       | None => response_json r
       end
   end).

Definition chat_completion (w : World) (self : PerplexityClient)
    (p : ChatParams) : io pyval :=
  let rq := {| req_url := base_url self ++ u "/chat/completions";
               req_headers := headers self;
               req_json := build_payload p |} in
  try_except (exchange w rq) [RequestException]
    (fun e => ret (error_detail e)).

(** The keyword parameters of [chat_completion], in the order of its
    signature, with the field of [ChatParams] each one sets. *)
Definition set_param (name : pystr) (v : pyval) (p : ChatParams)
  : option ChatParams :=
  let named n := str_eqb name (u n) in
  let '(Build_ChatParams a b c d e f g h i j k l m n) := p in
  if named "model"%string then Some (Build_ChatParams a v c d e f g h i j k l m n)
  else if named "max_tokens"%string then Some (Build_ChatParams a b v d e f g h i j k l m n)
  else if named "temperature"%string then Some (Build_ChatParams a b c v e f g h i j k l m n)
  else if named "top_p"%string then Some (Build_ChatParams a b c d v f g h i j k l m n)
  else if named "return_citations"%string
  then Some (Build_ChatParams a b c d e v g h i j k l m n)
  else if named "search_domain_filter"%string
  then Some (Build_ChatParams a b c d e f v h i j k l m n)
  else if named "return_images"%string
  then Some (Build_ChatParams a b c d e f g v i j k l m n)
  else if named "return_related_questions"%string
  then Some (Build_ChatParams a b c d e f g h v j k l m n)
  else if named "search_recency_filter"%string
  then Some (Build_ChatParams a b c d e f g h i v k l m n)
  else if named "top_k"%string then Some (Build_ChatParams a b c d e f g h i j v l m n)
  else if named "stream"%string then Some (Build_ChatParams a b c d e f g h i j k v m n)
  else if named "presence_penalty"%string
  then Some (Build_ChatParams a b c d e f g h i j k l v n)
  else if named "frequency_penalty"%string
  then Some (Build_ChatParams a b c d e f g h i j k l m v)
  else None.

(** Binding [**kwargs] to the parameters: a key that names no parameter,
    or names [messages] again, is a [TypeError]. *)
Fixpoint bind_kwargs (kwargs : dict) (p : ChatParams) : outcome ChatParams :=
  match kwargs with
  | [] => Ok p
  | (name, v) :: rest =>
      match set_param name v p with
      | Some p' => bind_kwargs rest p'
      | None =>
          if str_eqb name (u "messages") then
            Raise (new_exc TypeError
                     (u "PerplexityClient.chat_completion() got multiple values for argument 'messages'"))
          else
            Raise (new_exc TypeError
                     (u "PerplexityClient.chat_completion() got an unexpected keyword argument "
                        ++ quoted name))
      end
  end.

(** [ask]: one user message with the question, the rest passed on. *)
Definition ask (w : World) (self : PerplexityClient) (question : pystr)
    (kwargs : dict) : io pyval :=
  let msgs :=
    PList [PDict [(u "role", PStr (u "user")); (u "content", PStr question)]] in
  p <- lift (bind_kwargs kwargs (default_params msgs)) ;;
  chat_completion w self p.

End WithRuntime.

End Client.

Notation "x <~ m ;; k" := (Exn.obind m (fun x => k))
  (at level 61, m at next level, right associativity) : io_scope.

(* ================================================================== *)
(** ** The command line: [main] *)

Module Cli.
Import Py Exn Builtins Json Requests Effects Client.
Local Open Scope io_scope.

Inductive Recency := Hour | Day | Week | Month.

Definition recency_str (r : Recency) : pystr :=
  match r with
  | Hour => u "hour"
  | Day => u "day"
  | Week => u "week"
  | Month => u "month"
  end.

(** What was typed on the command line, option by option, once argparse
    has accepted it: [None] or [false] for an option that was not given. *)
Record CommandLine := {
  cl_question : pystr;
  cl_api_key : option pystr;
  cl_model : option pystr;
  cl_max_tokens : option Z;
  cl_temperature : option float;
  cl_citations : bool;
  cl_no_citations : bool;
  cl_images : bool;
  cl_related_questions : bool;
  cl_domain_filter : option (list pystr);
  cl_recency : option Recency;
  cl_json : bool;
  cl_pretty : bool;
  cl_save : option pystr
}.

(** The namespace [parse_args] returns. *)
Record Namespace := {
  question : pystr;
  api_key : option pystr;
  model : pystr;
  max_tokens : option Z;
  temperature : float;
  citations : bool;
  no_citations : bool;
  images : bool;
  related_questions : bool;
  domain_filter : option (list pystr);
  recency : option Recency;
  json : bool;
  pretty : bool;
  save : option pystr
}.

(** [action="store_true"]: [True] when the flag is given, the default
    otherwise. *)
Definition store_true (default given : bool) : bool :=
  if given then true else default.

Definition or_default {A} (default : A) (given : option A) : A :=
  match given with
  | Some a => a
  | None => default
  end.

(** The parser that [main] sets up, applied to a command line; [getenv]
    is [os.getenv("PERPLEXITY_API_KEY")]. *)
Definition parse_args (getenv : option pystr) (cl : CommandLine) : Namespace :=
  {| question := cl_question cl;
     api_key := match cl_api_key cl with Some k => Some k | None => getenv end;
     model := or_default (u "sonar") (cl_model cl);
     max_tokens := cl_max_tokens cl;
     temperature := or_default 0.2%float (cl_temperature cl);
     citations := store_true true (cl_citations cl);
     no_citations := store_true false (cl_no_citations cl);
     images := store_true false (cl_images cl);
     related_questions := store_true false (cl_related_questions cl);
     domain_filter := cl_domain_filter cl;
     recency := cl_recency cl;
     json := store_true false (cl_json cl);
     pretty := store_true true (cl_pretty cl);
     save := cl_save cl |}.

Definition opt_str (o : option pystr) : pyval :=
  match o with Some s => PStr s | None => PNone end.

Definition opt_int (o : option Z) : pyval :=
  match o with Some z => PInt z | None => PNone end.

Definition opt_strs (o : option (list pystr)) : pyval :=
  match o with Some l => PList (List.map PStr l) | None => PNone end.

Definition opt_recency (o : option Recency) : pyval :=
  match o with Some r => PStr (recency_str r) | None => PNone end.

(** The keyword arguments [main] passes to [ask]. *)
Definition make_kwargs (args : Namespace) : dict :=
  let kwargs :=
    [ (u "model", PStr (model args));
      (u "temperature", PFloat (temperature args));
      (u "return_citations", PBool (citations args && negb (no_citations args)));
      (u "return_images", PBool (images args));
      (u "return_related_questions", PBool (related_questions args)) ] in
  let kwargs :=
    if truthy (opt_int (max_tokens args))
    then dict_set kwargs (u "max_tokens") (opt_int (max_tokens args))
    else kwargs in
  let kwargs :=
    if truthy (opt_strs (domain_filter args))
    then dict_set kwargs (u "search_domain_filter") (opt_strs (domain_filter args))
    else kwargs in
  if truthy (opt_recency (recency args))
  then dict_set kwargs (u "search_recency_filter") (opt_recency (recency args))
  else kwargs.

Definition newline : N := 10%N.

(** The bullet the script writes before a related question: the three
    code points of its source text. *)
Definition bullet : pystr := [226%N; 8364%N; 162%N].

Section WithRuntime.
Context {R : PyRuntime}.

(** [f"{i}. {citation}"] for [enumerate(items, i)] *)
Fixpoint numbered (i : Z) (items : list pyval) : list pystr :=
  match items with
  | [] => []
  | x :: rest => (int_str i ++ u ". " ++ py_str x) :: numbered (i + 1) rest
  end.

Definition bulleted (items : list pyval) : list pystr :=
  List.map (fun x => bullet ++ u " " ++ py_str x) items.

(** The lines appended to [output_parts] for the citations; each is a
    str. *)
Definition citations_section (args : Namespace) (response : pyval)
  : outcome (list pystr) :=
  if citations args then
    c <~ py_get response (u "citations") ;;
    if truthy c then
      cs <~ getitem_key response (u "citations") ;;
      items <~ py_iter cs ;;
      Ok ((newline :: u "Citations:") :: numbered 1 items)
    else Ok []
  else Ok [].

Definition related_section (args : Namespace) (response : pyval)
  : outcome (list pystr) :=
  if related_questions args then
    q <~ py_get response (u "related_questions") ;;
    if truthy q then
      qs <~ getitem_key response (u "related_questions") ;;
      items <~ py_iter qs ;;
      Ok ((newline :: u "Related Questions:") :: bulleted items)
    else Ok []
  else Ok [].

(** The body of the [try] of the text mode: [output_parts] is the
    content, whatever value it is, followed by the appended lines. *)
Definition render_text (args : Namespace) (response : pyval) : outcome pystr :=
  choices <~ getitem_key response (u "choices") ;;
  first <~ getitem_index choices 0 ;;
  message <~ getitem_key first (u "message") ;;
  content <~ getitem_key message (u "content") ;;
  cits <~ citations_section args response ;;
  rels <~ related_section args response ;;
  str_join [newline] (content :: List.map PStr (cits ++ rels)).

(** What the [except (KeyError, IndexError)] clause does. *)
Definition report_shape_error (response : pyval) (e : exception) : io pystr :=
  print Stderr (u "Error parsing response: " ++ exc_str e) ;;;
  print Stderr (dumps (Some 2%nat) response) ;;;
  sys_exit 1.

(** "Prepare output" *)
Definition prepare_output (args : Namespace) (response : pyval) : io pystr :=
  if json args then
    ret (dumps (if pretty args then Some 2%nat else None) response)
  else
    try_except (lift (render_text args response)) [KeyError; IndexError]
      (report_shape_error response).

(** What [main] does with a result that has an ["error"] key. *)
Definition report_failure (response : pyval) : io unit :=
  err <- lift (getitem_key response (u "error")) ;;
  print Stderr (u "Error: " ++ py_str err) ;;;
  has_code <- lift (py_contains (u "status_code") response) ;;
  (if has_code : bool then
     code <- lift (getitem_key response (u "status_code")) ;;
     print Stderr (u "Status Code: " ++ py_str code)
   else ret tt) ;;;
  has_text <- lift (py_contains (u "response_text") response) ;;
  (if has_text : bool then
     body <- lift (getitem_key response (u "response_text")) ;;
     print Stderr (u "Response: " ++ py_str body)
   else ret tt) ;;;
  sys_exit 1.

(** "Save to file if requested" *)
Definition save_output (w : World) (args : Namespace) (output : pystr)
  : io unit :=
  if truthy (opt_str (save args)) then
    let path := or_default [] (save args) in
    try_except
      (([EvWrite path output],
        match write_file w path output with
        | None => Ok tt
        | Some e => Raise e
        end) ;;;
       print Stderr (newline :: u "Response saved to: " ++ path))
      [Exception]
      (fun e => print Stderr (u "Error saving file: " ++ exc_str e))
  else ret tt.

(** [main], from the namespace on: for [--help] and for arguments that it
    rejects, argparse exits inside [parse_args] (with status 0 after
    printing the help, with status 2 after a usage message), and nothing
    of what follows runs. *)
Definition main (w : World) (cl : CommandLine) : io unit :=
  let args := parse_args (environ_api_key w) cl in
  if negb (truthy (opt_str (api_key args))) then
    print Stderr (u "Error: Perplexity API key is required!") ;;;
    print Stderr
      (u "Either set PERPLEXITY_API_KEY environment variable or use --api-key") ;;;
    sys_exit 1
  else
    let client := new_client (or_default [] (api_key args)) in
    response <- ask w client (question args) (make_kwargs args) ;;
    failed <- lift (py_contains (u "error") response) ;;
    (if failed : bool then report_failure response else ret tt) ;;;
    output <- prepare_output args response ;;
    print Stdout output ;;;
    save_output w args output.

End WithRuntime.

End Cli.

(* ================================================================== *)
(** ** Inputs for closed examples *)

Module Samples.
Import Py Exn Builtins Json Requests Effects Client Cli.

(** A runtime to evaluate the script on concrete inputs. Its float
    conversions are those of CPython on the two floats the script itself
    names (0.2 and 0.9) and on zero; its [repr] of a str is the one of a
    str of plain letters. The examples below use no other float and no
    other [repr]. *)
Definition sample_runtime : PyRuntime :=
  {| float_repr := fun f =>
       if PrimFloat.eqb f 0.2%float then u "0.2"
       else if PrimFloat.eqb f 0.9%float then u "0.9"
       else u "0.0";
     float_of_literal := fun s =>
       if str_eqb s (u "0.2") then 0.2%float
       else if str_eqb s (u "0.9") then 0.9%float
       else 0%float;
     str_repr := quoted;
     json_error_text := fun _ => u "Expecting value: line 1 column 1 (char 0)" |}.

(** A command line with the question and an API key, nothing else. *)
Definition plain_command_line : CommandLine :=
  {| cl_question := u "What is machine learning?";
     cl_api_key := Some (u "secret");
     cl_model := None;
     cl_max_tokens := None;
     cl_temperature := None;
     cl_citations := false;
     cl_no_citations := false;
     cl_images := false;
     cl_related_questions := false;
     cl_domain_filter := None;
     cl_recency := None;
     cl_json := false;
     cl_pretty := false;
     cl_save := None |}.

(** A server that answers every request with the given status and body,
    and a file system that accepts ([None]) or refuses every write. *)
Definition answering (code : Z) (phrase : string) (body : pystr)
    (refusal : option exception) : World :=
  {| environ_api_key := None;
     post := fun rq =>
       PostReturns {| status_code := code; reason := u phrase;
                      url := req_url rq; text := body |};
     write_file := fun _ _ => refusal |}.


(** A network that cannot be reached. *)
Definition unreachable : World :=
  {| environ_api_key := None;
     post := fun _ =>
       PostRaises (new_exc ConnectionError (u "Connection refused"));
     write_file := fun _ _ => None |}.

End Samples.

(* ================================================================== *)
(** ** Notions used in the statements *)

Import Py Exn Builtins Json Requests Effects Client Cli.

(** A decidable test of [NoDup] on keys *)
Fixpoint distinct (l : list pystr) : bool :=
  match l with
  | [] => true
  | k :: l' => negb (existsb (str_eqb k) l') && distinct l'
  end.

(** The body of claim C4. *)
Definition hello_body : pyval :=
  PDict
    [ (u "choices",
       PList [PDict [(u "message", PDict [(u "content", PStr (u "hello"))])]]);
      (u "citations", PList [PStr (u "a"); PStr (u "b")]) ].

(** The messages, the parameters and the request that [main] makes of a
    namespace: what [ask] binds the keyword arguments to. *)
Definition cli_messages (args : Namespace) : pyval :=
  PList [PDict [(u "role", PStr (u "user"));
                (u "content", PStr (question args))]].

Definition cli_params (args : Namespace) : ChatParams :=
  {| messages := cli_messages args;
     Client.model := PStr (model args);
     Client.max_tokens :=
       if truthy (opt_int (max_tokens args))
       then opt_int (max_tokens args) else PNone;
     Client.temperature := PFloat (temperature args);
     top_p := PFloat 0.9%float;
     return_citations := PBool (citations args && negb (no_citations args));
     search_domain_filter :=
       if truthy (opt_strs (domain_filter args))
       then opt_strs (domain_filter args) else PNone;
     return_images := PBool (images args);
     return_related_questions := PBool (related_questions args);
     search_recency_filter :=
       if truthy (opt_recency (recency args))
       then opt_recency (recency args) else PNone;
     top_k := PInt 0;
     stream := PBool false;
     presence_penalty := PInt 0;
     frequency_penalty := PInt 1 |}.

Definition cli_request (key : pystr) (args : Namespace) : Request :=
  {| req_url := u "https://api.perplexity.ai" ++ u "/chat/completions";
     req_headers := headers (new_client key);
     req_json := build_payload (cli_params args) |}.

(** [main] once the client has returned [response]: the failure report
    when the result has an ["error"] key, the rendering, display and
    saving otherwise. *)
Definition after_response {R : PyRuntime} (w : World) (args : Namespace) (response : pyval)
  : io unit :=
  (failed <- lift (py_contains (u "error") response) ;;
   (if failed : bool then report_failure response else ret tt) ;;;
   output <- prepare_output args response ;;
   print Stdout output ;;;
   save_output w args output)%io.


Definition null_choices : pyval := PDict [(u "choices", PNone)].




(** A body with what the text mode reads: [choices[0].message.content]
    is a str. *)
Definition well_formed_success (d : dict) : Prop :=
  exists o rest m c,
    dict_get d (u "choices") = Some (PList (PDict o :: rest)) /\
    dict_get o (u "message") = Some (PDict m) /\
    dict_get m (u "content") = Some (PStr c).

(** What [main] does with a result it takes for a success. *)
Definition consume_success {R : PyRuntime} (w : World) (args : Namespace)
    (response : pyval) : io unit :=
  (output <- prepare_output args response ;;
   print Stdout output ;;;
   save_output w args output)%io.

(** Claim C5 as stated: after a 2xx response whose body decodes to a
    well-formed success payload, [main] goes on as for a success. *)
Definition success_is_never_misclassified {R : PyRuntime} : Prop :=
  forall (w : World) (cl : CommandLine) (key : pystr) (r : Response) (d : dict),
    let args := parse_args (environ_api_key w) cl in
    api_key args = Some key ->
    key <> [] ->
    post w (cli_request key args) = PostReturns r ->
    200 <= status_code r < 300 ->
    loads (text r) = Some (PDict d) ->
    well_formed_success d ->
    main w cl = bind ([EvPost (cli_request key args)], Ok (PDict d))
                     (consume_success w args).

(** A success payload that also has an ["error"] key. *)
Definition labelled_body : pyval :=
  PDict
    [ (u "choices",
       PList [PDict [(u "message", PDict [(u "content", PStr (u "hello"))])]]);
      (u "error", PStr (u "none")) ].

(** A body with a nested object, a float, a negative int, and a str
    with a letter outside ASCII, a character outside the basic plane, a
    line feed and a quote. *)
Definition detailed_body : pyval :=
  PDict
    [ (u "choices",
       PList [PDict [(u "message", PDict [(u "content", PStr (u "hello"))])]]);
      (u "citations", PList [PStr (u "a"); PStr (u "b")]);
      (u "usage", PDict [(u "cost", PFloat 0.2%float); (u "delta", PInt (-12))]);
      (u "note", PStr [233%N; 128512%N; 10%N; 34%N]);
      (u "images", PList []);
      (u "done", PBool true);
      (u "next", PNone) ].

(** The request [chat_completion] posts. *)
Definition request_of (self : PerplexityClient) (p : ChatParams) : Request :=
  {| req_url := base_url self ++ u "/chat/completions";
     req_headers := headers self;
     req_json := build_payload p |}.




(** *** Notions of the round trip through [json.dumps] and [json.loads] *)

Section RoundTripNotions.
Local Open Scope N_scope.

(** A str as a decoder produces it: code points of Unicode, and no high
    surrogate directly before a low one (the decoder reads such a pair of
    escapes as one code point). *)
Fixpoint no_surrogate_pair (s : pystr) : bool :=
  match s with
  | a :: (b :: _) as r =>
      negb (is_high_surrogate a && is_low_surrogate b) && no_surrogate_pair r
  | _ => true
  end.

Definition decoded_str (s : pystr) : Prop :=
  Forall (fun c => c < 1114112) s /\ no_surrogate_pair s = true.

(** Whether the text starts with the escape of a low surrogate, or with
    an escape the decoder cannot read. *)
Definition pairs_with_high (tail : pystr) : bool :=
  match tail with
  | b :: l :: g1 :: g2 :: g3 :: g4 :: _ =>
      (b =? backslash) && (l =? letter_u) &&
      match decode_hex4 g1 g2 g3 g4 with
      | Some uni2 => is_low_surrogate uni2
      | None => true
      end
  | _ => false
  end.

(** What may follow a value in a JSON text: the end, whitespace, a comma
    or a closing bracket. *)
Definition delimiter (c : N) : bool :=
  is_ws c || (c =? 44) || (c =? 93) || (c =? 125).

Definition delimited (rest : pystr) : Prop :=
  match rest with
  | [] => True
  | c :: _ => delimiter c = true
  end.

Definition is_finite (f : float) : bool :=
  PrimFloat.eqb f f && negb (PrimFloat.eqb f infinity)
  && negb (PrimFloat.eqb f neg_infinity).

(** A text that is one number token with a fraction or an exponent: what
    the decoder hands to [float]. *)
Definition is_float_literal (lit : pystr) : bool :=
  match match_number lit with
  | Some (_, fr, ex, []) =>
      match fr, ex with
      | [], [] => false
      | _, _ => true
      end
  | _ => false
  end.

(** [repr] of a finite float is such a token, and [float] reads it back
    as the same float. *)
Definition float_reads_back {R : PyRuntime} (f : float) : Prop :=
  is_finite f = true ->
  is_float_literal (float_repr f) = true /\
  float_of_literal (float_repr f) = f.

(** A value as the decoder produces it: its strs are [decoded_str], its
    finite floats are read back from their [repr], and the keys of each
    dict are distinct. *)
Inductive decoded {R : PyRuntime} : pyval -> Prop :=
| decoded_None : decoded PNone
| decoded_Bool b : decoded (PBool b)
| decoded_Int z : decoded (PInt z)
| decoded_Float f : float_reads_back f -> decoded (PFloat f)
| decoded_Str s : decoded_str s -> decoded (PStr s)
| decoded_List l : Forall decoded l -> decoded (PList l)
| decoded_Dict d :
    NoDup (dict_keys d) ->
    Forall (fun kv => decoded_str (fst kv) /\ decoded (snd kv)) d ->
    decoded (PDict d).

(** Fuel that [scan_once] needs at most to read a value back. *)
Fixpoint weight (v : pyval) : nat :=
  match v with
  | PList l => S (List.fold_right (fun x n => S (weight x + n)) 0 l)%nat
  | PDict d => S (List.fold_right (fun kv n => S (weight (snd kv) + n)) 0 d)%nat
  | _ => 1%nat
  end.

(** The text starts with a character that is no whitespace, no closing
    bracket and no byte order mark. *)
Definition token_head (s : pystr) : Prop :=
  exists c s', s = c :: s' /\ is_ws c = false /\ (c =? 93) = false /\
               (c =? 65279) = false.

(** What [scan_once] is to do with a value: read it back from its
    encoding at any level, before any delimited text, given enough
    fuel. *)
Definition reads_back {R : PyRuntime} (indent : option nat) (v : pyval) : Prop :=
  forall (level fuel : nat) (rest : pystr),
    (weight v <= fuel)%nat -> delimited rest ->
    scan_once fuel (encode indent level v ++ rest) = Some (v, rest).

Definition items_weight (l : list pyval) : nat :=
  List.fold_right (fun x n => S (weight x + n)) 0%nat l.

Definition pairs_weight (d : dict) : nat :=
  List.fold_right (fun kv n => S (weight (snd kv) + n)) 0%nat d.

Definition is_surrogate (c : N) : bool :=
  is_high_surrogate c || is_low_surrogate c.

(** A text as the decoding of bytes gives it: code points of Unicode,
    none of them a surrogate. *)
Definition plain_text (s : pystr) : Prop :=
  Forall (fun c => c < 1114112 /\ is_surrogate c = false) s.

(** Every float that [float] returns is read back from its [repr]. *)
Definition floats_read_back {R : PyRuntime} : Prop :=
  forall lit, float_reads_back (float_of_literal lit).

End RoundTripNotions.

(** *** Notions of a whole run *)

(** The requests posted, and the files written, in a trace. *)
Definition requests_of (trace : list event) : list Request :=
  List.flat_map (fun ev => match ev with EvPost rq => [rq] | _ => [] end) trace.

Definition writes_of (trace : list event) : list (pystr * pystr) :=
  List.flat_map
    (fun ev => match ev with EvWrite p c => [(p, c)] | _ => [] end) trace.

(** An event that is a line on the error stream. *)
Definition on_stderr (ev : event) : bool :=
  match ev with
  | EvPrint Stderr _ => true
  | _ => false
  end.

(** An outcome that is no [sys.exit]. *)
Definition no_exit {A} (o : outcome A) : Prop := forall c, o <> Exit c.


(** The keyword parameters of [chat_completion], [messages] apart. *)
Definition keyword_parameters : list pystr :=
  [ u "model"; u "max_tokens"; u "temperature"; u "top_p";
    u "return_citations"; u "search_domain_filter"; u "return_images";
    u "return_related_questions"; u "search_recency_filter"; u "top_k";
    u "stream"; u "presence_penalty"; u "frequency_penalty" ].

Definition is_keyword_parameter (name : pystr) : bool :=
  existsb (str_eqb name) keyword_parameters.

(** A printable ASCII character, or a line feed. *)
Definition json_output_char (c : N) : bool :=
  ((c =? 10) || ((32 <=? c) && (c <=? 126)))%N.

(* ================================================================== *)
(** ** Facts about the built-ins *)

Lemma str_eqb_refl (a : pystr) : str_eqb a a = true.
Proof.
  induction a as [|x a IH]; simpl; [reflexivity|].
  now rewrite N.eqb_refl, IH.
Qed.

Lemma str_eqb_eq (a b : pystr) : str_eqb a b = true <-> a = b.
Proof.
  split; [|intros ->; apply str_eqb_refl].
  revert b; induction a as [|x a IH]; intros [|y b]; simpl; try easy.
  rewrite andb_true_iff, N.eqb_eq. intros [-> H]. now rewrite (IH b H).
Qed.

Lemma dict_get_absent (d : dict) (k : pystr) :
  ~ In k (dict_keys d) -> dict_get d k = None.
Proof.
  induction d as [|[k' v] d IH]; simpl; [reflexivity|]; intros H.
  destruct (str_eqb k' k) eqn:E.
  - apply str_eqb_eq in E. tauto.
  - apply IH. tauto.
Qed.

Lemma dict_keys_filter (keep : pyval -> bool) (d : dict) (k : pystr) :
  In k (dict_keys (dict_filter keep d)) -> In k (dict_keys d).
Proof.
  unfold dict_keys, dict_filter. rewrite !in_map_iff.
  intros [kv [E H]]. apply filter_In in H. exists kv. tauto.
Qed.

(** Filtering a dict by value keeps exactly the entries whose value
    passes the test. *)
Lemma dict_get_filter (keep : pyval -> bool) (d : dict) (k : pystr) :
  NoDup (dict_keys d) ->
  dict_get (dict_filter keep d) k =
  match dict_get d k with
  | Some v => if keep v then Some v else None
  | None => None
  end.
Proof.
  induction d as [|[k' v] d IH]; simpl; [reflexivity|]; intros ND.
  inversion ND as [|? ? Hnot ND']; subst.
  destruct (keep v) eqn:K; simpl.
  - destruct (str_eqb k' k); [now rewrite K | now apply IH].
  - destruct (str_eqb k' k) eqn:E; [|now apply IH].
    apply str_eqb_eq in E; subst k'. rewrite K.
    apply dict_get_absent. intros H. now apply dict_keys_filter in H.
Qed.

Lemma distinct_NoDup (l : list pystr) : distinct l = true -> NoDup l.
Proof.
  induction l as [|k l IH]; simpl; [constructor|].
  rewrite andb_true_iff, negb_true_iff. intros [H1 H2].
  constructor; [|now apply IH].
  intros Hin. assert (existsb (str_eqb k) l = true); [|congruence].
  apply existsb_exists. exists k. split; [easy | apply str_eqb_refl].
Qed.

Lemma assemble_payload_keys (p : ChatParams) :
  NoDup (dict_keys (assemble_payload p)).
Proof.
  apply distinct_NoDup. unfold assemble_payload.
  destruct (truthy (search_domain_filter p));
    destruct (truthy (search_recency_filter p)); vm_compute; reflexivity.
Qed.

(** The value the sent payload has under a key: the one assembled, unless
    it is [None]. *)
Lemma build_payload_get (p : ChatParams) (k : pystr) :
  dict_get (build_payload p) k =
  match dict_get (assemble_payload p) k with
  | Some v => if is_None v then None else Some v
  | None => None
  end.
Proof.
  unfold build_payload.
  rewrite dict_get_filter by apply assemble_payload_keys.
  destruct (dict_get (assemble_payload p) k) as [v|]; [|reflexivity].
  now destruct (is_None v).
Qed.

(* ================================================================== *)
(** ** The request payload *)

(** Looks a concrete key up in the payload of parameters given field by
    field. *)
Ltac payload_lookup :=
  rewrite build_payload_get; unfold assemble_payload; cbn [
    search_domain_filter search_recency_filter truthy];
  repeat match goal with
         | |- context [truthy ?v] => destruct (truthy v)
         end;
  vm_compute; reflexivity.

(** C2. An optional parameter that is unset ([None]) leaves no key in the
    payload: [max_tokens], [search_domain_filter] and
    [search_recency_filter] are then absent, not present with a null or
    empty value (an empty domain filter is absent too); a non-empty
    domain filter is the value of [search_domain_filter], item for item
    and in the same order. *)
Theorem C2_unset_options_are_omitted (p : ChatParams) :
  (Client.max_tokens p = PNone ->
   dict_mem (build_payload p) (u "max_tokens") = false) /\
  (search_domain_filter p = PNone ->
   dict_mem (build_payload p) (u "search_domain_filter") = false) /\
  (search_domain_filter p = PList [] ->
   dict_mem (build_payload p) (u "search_domain_filter") = false) /\
  (search_recency_filter p = PNone ->
   dict_mem (build_payload p) (u "search_recency_filter") = false) /\
  (forall x xs, search_domain_filter p = PList (x :: xs) ->
   dict_get (build_payload p) (u "search_domain_filter")
   = Some (PList (x :: xs))).
Proof.
  destruct p as [msgs mdl mt tmp tp rc sdf ri rrq srf tk st pp fp].
  cbn [Client.max_tokens search_domain_filter search_recency_filter].
  repeat split; try intros x xs; intros ->; unfold dict_mem; payload_lookup.
Qed.

(** The theorem at the defaults of the signature, and at a filter of two
    domains. *)
Lemma C2_witness :
  dict_mem (build_payload (default_params PNone)) (u "max_tokens") = false /\
  dict_get
    (build_payload
       (Build_ChatParams PNone PNone PNone PNone PNone PNone
          (PList [PStr (u "arxiv.org"); PStr (u "acm.org")])
          PNone PNone PNone PNone PNone PNone PNone))
    (u "search_domain_filter")
  = Some (PList [PStr (u "arxiv.org"); PStr (u "acm.org")]).
Proof.
  split.
  - apply (C2_unset_options_are_omitted (default_params PNone)). reflexivity.
  - apply C2_unset_options_are_omitted. reflexivity.
Defined.

(** C9. The final filter of the payload drops an entry only when its
    value is [None]: every other assembled entry is sent with its value.
    In particular a [top_k], [presence_penalty] or [temperature] of zero
    and a [stream] or [return_images] of [False] are in the payload with
    exactly those values. *)
Theorem C9_filter_drops_only_None (p : ChatParams) :
  (forall k v, dict_get (assemble_payload p) k = Some v -> v <> PNone ->
               dict_get (build_payload p) k = Some v) /\
  (top_k p = PInt 0 ->
   dict_get (build_payload p) (u "top_k") = Some (PInt 0)) /\
  (presence_penalty p = PInt 0 ->
   dict_get (build_payload p) (u "presence_penalty") = Some (PInt 0)) /\
  (Client.temperature p = PFloat 0%float ->
   dict_get (build_payload p) (u "temperature") = Some (PFloat 0%float)) /\
  (Client.temperature p = PInt 0 ->
   dict_get (build_payload p) (u "temperature") = Some (PInt 0)) /\
  (stream p = PBool false ->
   dict_get (build_payload p) (u "stream") = Some (PBool false)) /\
  (return_images p = PBool false ->
   dict_get (build_payload p) (u "return_images") = Some (PBool false)).
Proof.
  split.
  - intros k v Hk Hv. rewrite build_payload_get, Hk.
    destruct v; simpl; congruence.
  - destruct p as [msgs mdl mt tmp tp rc sdf ri rrq srf tk st pp fp].
    cbn [top_k presence_penalty Client.temperature stream return_images].
    repeat split; intros ->; payload_lookup.
Qed.

(** Every option of the payload literal other than the two search filters
    is sent as passed, unless it is [None]. *)
Lemma payload_return_citations (p : ChatParams) :
  dict_get (build_payload p) (u "return_citations")
  = if is_None (return_citations p) then None else Some (return_citations p).
Proof.
  destruct p as [msgs mdl mt tmp tp rc sdf ri rrq srf tk st pp fp].
  cbn [return_citations]. payload_lookup.
Qed.

(** The theorem at the defaults of the signature, where [top_k] and
    [presence_penalty] are zero and [stream] is [False]. *)
Lemma C9_witness :
  dict_get (build_payload (default_params PNone)) (u "top_k") = Some (PInt 0) /\
  dict_get (build_payload (default_params PNone)) (u "stream")
  = Some (PBool false).
Proof.
  split; apply (C9_filter_drops_only_None (default_params PNone)); reflexivity.
Defined.

(* ================================================================== *)
(** ** Computations with effects *)

Lemma bind_Ok {A B} (tr : list event) (a : A) (k : A -> io B) :
  bind (tr, Ok a) k = (tr ++ fst (k a), snd (k a)).
Proof. reflexivity. Qed.

Lemma bind_lift_Ok {A B} (a : A) (k : A -> io B) : bind (lift (Ok a)) k = k a.
Proof. unfold bind, lift; simpl. now destruct (k a). Qed.

Lemma bind_ret {A B} (a : A) (k : A -> io B) : bind (ret a) k = k a.
Proof. apply bind_lift_Ok. Qed.

Lemma bind_print {B} (to : output_stream) (line : pystr) (k : unit -> io B) :
  bind (print to line) k = (EvPrint to line :: fst (k tt), snd (k tt)).
Proof. reflexivity. Qed.

Lemma try_except_Ok {A} (tr : list event) (a : A) classes handler :
  try_except (tr, Ok a) classes handler = (tr, Ok a).
Proof. reflexivity. Qed.

(* ================================================================== *)
(** ** Rendering *)

Lemma getitem_index_head (x : pyval) (l : list pyval) :
  getitem_index (PList (x :: l)) 0 = Ok x.
Proof.
  unfold getitem_index, seq_position.
  replace (0 <? Z.of_nat (List.length (x :: l))) with true; [reflexivity|].
  symmetry. apply Z.ltb_lt. simpl List.length. lia.
Qed.

Lemma strs_from_strs (i : Z) (l : list pystr) :
  strs_from i (List.map PStr l) = Ok l.
Proof.
  revert i; induction l as [|s l IH]; intros i; simpl; [reflexivity|].
  now rewrite IH.
Qed.

Lemma str_join_strs (sep c : pystr) (l : list pystr) :
  str_join sep (PStr c :: List.map PStr l) = Ok (join sep (c :: l)).
Proof. unfold str_join. cbn [strs_from]. now rewrite strs_from_strs. Qed.

(** The namespace of any command line has [citations] and [pretty] set:
    their flags can only store the value they have by default. *)
Lemma citations_always_set getenv cl : citations (parse_args getenv cl) = true.
Proof. unfold parse_args, store_true; simpl. now destruct (cl_citations cl). Qed.

Lemma pretty_always_set getenv cl : pretty (parse_args getenv cl) = true.
Proof. unfold parse_args, store_true; simpl. now destruct (cl_pretty cl). Qed.

Lemma json_as_given getenv cl : json (parse_args getenv cl) = cl_json cl.
Proof. unfold parse_args, store_true; simpl. now destruct (cl_json cl). Qed.

(** C4. In text mode with the citations shown, the body
    [{"choices":[{"message":{"content":"hello"}}],"citations":["a","b"]}]
    is rendered as the content, an empty line, the line [Citations:] and
    the citations numbered from 1, one per line: the text
    [hello\n\nCitations:\n1. a\n2. b]. *)
Theorem C4_hello_with_citations {R : PyRuntime} (args : Namespace) :
  citations args = true ->
  json args = false ->
  prepare_output args hello_body
  = ret (u "hello" ++ [newline; newline] ++ u "Citations:" ++ [newline]
           ++ u "1. a" ++ [newline] ++ u "2. b").
Proof.
  intros Hc Hj. unfold prepare_output. rewrite Hj.
  unfold render_text, citations_section, related_section. rewrite Hc.
  destruct (related_questions args); vm_compute; reflexivity.
Qed.

(** The theorem at the namespace of the plain command line. *)
Lemma C4_witness :
  @prepare_output Samples.sample_runtime
    (parse_args None Samples.plain_command_line) hello_body
  = ret (u "hello" ++ [newline; newline] ++ u "Citations:" ++ [newline]
           ++ u "1. a" ++ [newline] ++ u "2. b").
Proof.
  apply (@C4_hello_with_citations Samples.sample_runtime); reflexivity.
Defined.

(* ================================================================== *)
(** ** From the command line to the request *)

Lemma bind_make_kwargs (args : Namespace) :
  bind_kwargs (make_kwargs args) (default_params (cli_messages args))
  = Ok (cli_params args).
Proof.
  unfold make_kwargs, cli_params.
  destruct (truthy (opt_int (max_tokens args)));
    destruct (truthy (opt_strs (domain_filter args)));
    destruct (truthy (opt_recency (recency args))); reflexivity.
Qed.

Section WithRuntime.
Context {R : PyRuntime}.

Lemma ask_cli (w : World) (key : pystr) (args : Namespace) :
  ask w (new_client key) (question args) (make_kwargs args)
  = chat_completion w (new_client key) (cli_params args).
Proof.
  unfold ask. fold (cli_messages args).
  rewrite bind_make_kwargs. apply bind_lift_Ok.
Qed.

Lemma chat_completion_cli (w : World) (key : pystr) (args : Namespace) :
  chat_completion w (new_client key) (cli_params args)
  = try_except (exchange w (cli_request key args)) [RequestException]
      (fun e => ret (error_detail e)).
Proof. reflexivity. Qed.

(** A response that is no HTTP error and whose body decodes is returned
    as decoded. *)
Lemma exchange_returns (w : World) (rq : Request) (r : Response) (v : pyval) :
  post w rq = PostReturns r ->
  raise_for_status r = None ->
  loads (text r) = Some v ->
  exchange w rq = ([EvPost rq], Ok v).
Proof.
  intros Hp Hs Hl. unfold exchange, response_json. now rewrite Hp, Hs, Hl.
Qed.

Lemma raise_for_status_2xx (r : Response) :
  200 <= status_code r < 300 -> raise_for_status r = None.
Proof.
  intros H. unfold raise_for_status.
  replace (400 <=? status_code r) with false by (symmetry; apply Z.leb_gt; lia).
  replace (500 <=? status_code r) with false by (symmetry; apply Z.leb_gt; lia).
  reflexivity.
Qed.

Lemma main_with_key (w : World) (cl : CommandLine) (key : pystr) :
  api_key (parse_args (environ_api_key w) cl) = Some key ->
  key <> [] ->
  main w cl
  = bind (chat_completion w (new_client key)
            (cli_params (parse_args (environ_api_key w) cl)))
         (after_response w (parse_args (environ_api_key w) cl)).
Proof.
  intros Hk Hne. unfold main. rewrite Hk.
  destruct key as [|c key]; [congruence|].
  cbn [opt_str truthy negb or_default]. now rewrite ask_cli.
Qed.

(** Whatever the exchange does, [chat_completion] posts one request. *)
Lemma chat_completion_posts_once (w : World) (key : pystr) (args : Namespace) :
  fst (chat_completion w (new_client key) (cli_params args))
  = [EvPost (cli_request key args)].
Proof.
  rewrite chat_completion_cli. unfold try_except.
  destruct (snd (exchange w (cli_request key args))) as [v|e|c] eqn:E;
    try reflexivity.
  destruct (existsb (isinstance e) [RequestException]); reflexivity.
Qed.


End WithRuntime.

(* ================================================================== *)
(** ** Responses the text mode cannot render *)

Section WithRuntime.
Context {R : PyRuntime}.



End WithRuntime.


(* ================================================================== *)
(** ** A response whose [choices] is null *)

Section WithRuntime.
Context {R : PyRuntime}.

(** Subscripting [None] raises a [TypeError], which is neither a
    [KeyError] nor an [IndexError]: the handler of the text mode lets it
    through. *)
Lemma prepare_output_null_choices (args : Namespace) (d : dict) :
  json args = false ->
  dict_get d (u "choices") = Some PNone ->
  prepare_output args (PDict d)
  = ([], Raise (new_exc TypeError (u "'NoneType' object is not subscriptable"))).
Proof.
  intros Hj Hc. unfold prepare_output, render_text. rewrite Hj.
  cbn [getitem_key obind]. rewrite Hc. reflexivity.
Qed.

End WithRuntime.

(** C6, at the body [{"choices": null}] in text mode: the request
    succeeds, and the run ends with a [TypeError] that no handler
    caught, with nothing printed by the script; the user sees the
    interpreter's traceback, not one of the error reports of [main]. *)
Theorem C6_null_choices_raises_TypeError :
  @main Samples.sample_runtime
    (Samples.answering 200 "OK"
       (@dumps Samples.sample_runtime None null_choices) None)
    Samples.plain_command_line
  = ([EvPost (cli_request (u "secret")
                (parse_args None Samples.plain_command_line))],
     Raise (new_exc TypeError (u "'NoneType' object is not subscriptable"))).
Proof. vm_compute. reflexivity. Qed.

(* ================================================================== *)
(** ** The citations section and the [--no-citations] flag *)

Section WithRuntime.
Context {R : PyRuntime}.

(** C10. [--no-citations] reaches the request only: the one request that
    [ask] posts carries a payload whose [return_citations] is the
    negation of the flag, while in text mode a response with a non-empty
    list of citations is rendered with its [Citations:] section after
    the content whatever the flag is, the namespace's [citations] being
    set for every command line. *)
Theorem C10_no_citations_only_changes_request (getenv : option pystr)
    (cl : CommandLine) (d o m : dict) (rest : list pyval) (c : pystr)
    (x : pyval) (xs : list pyval) (rels : list pystr) :
  let args := parse_args getenv cl in
  cl_json cl = false ->
  dict_get d (u "choices") = Some (PList (PDict o :: rest)) ->
  dict_get o (u "message") = Some (PDict m) ->
  dict_get m (u "content") = Some (PStr c) ->
  dict_get d (u "citations") = Some (PList (x :: xs)) ->
  related_section args (PDict d) = Ok rels ->
  (forall w key,
      fst (ask w (new_client key) (question args) (make_kwargs args))
      = [EvPost (cli_request key args)])
  /\ dict_get (req_json (cli_request (or_default [] (api_key args)) args))
       (u "return_citations")
     = Some (PBool (negb (cl_no_citations cl)))
  /\ prepare_output args (PDict d)
     = ret (join [newline]
              (c :: (newline :: u "Citations:") :: numbered 1 (x :: xs) ++ rels)).
Proof.
  intros args Hj Hch Hm Hc Hcit Hrel. split; [|split].
  - intros w key. rewrite ask_cli. apply chat_completion_posts_once.
  - cbn [req_json cli_request].
    rewrite payload_return_citations. subst args.
    unfold cli_params, parse_args, store_true.
    cbn [return_citations citations no_citations is_None].
    now destruct (cl_citations cl); destruct (cl_no_citations cl).
  - unfold prepare_output. subst args. rewrite json_as_given, Hj.
    unfold render_text, citations_section.
    rewrite citations_always_set, Hrel.
    cbn [getitem_key py_get obind]. rewrite Hch, Hcit. cbn [obind truthy py_iter].
    rewrite getitem_index_head. cbn [getitem_key obind]. rewrite Hm.
    cbn [getitem_key obind]. rewrite Hc. cbn [obind].
    rewrite str_join_strs. reflexivity.
Qed.

End WithRuntime.

(** The theorem for a command line with [--no-citations] and the body of
    claim C4. *)
Lemma C10_witness :
  let cl :=
    {| cl_question := u "q"; cl_api_key := Some (u "secret");
       cl_model := None; cl_max_tokens := None; cl_temperature := None;
       cl_citations := false; cl_no_citations := true; cl_images := false;
       cl_related_questions := false; cl_domain_filter := None;
       cl_recency := None; cl_json := false; cl_pretty := false;
       cl_save := None |} in
  dict_get (req_json (cli_request (u "secret") (parse_args None cl)))
    (u "return_citations") = Some (PBool false)
  /\ @prepare_output Samples.sample_runtime (parse_args None cl) hello_body
     = ret (join [newline]
              [u "hello"; newline :: u "Citations:"; u "1. a"; u "2. b"]).
Proof.
  intros cl.
  apply (@C10_no_citations_only_changes_request Samples.sample_runtime None cl
           [ (u "choices",
              PList [PDict [(u "message",
                             PDict [(u "content", PStr (u "hello"))])]]);
             (u "citations", PList [PStr (u "a"); PStr (u "b")]) ]
           [(u "message", PDict [(u "content", PStr (u "hello"))])]
           [(u "content", PStr (u "hello"))]
           [] (u "hello") (PStr (u "a")) [PStr (u "b")] []);
    reflexivity.
Defined.

(* ================================================================== *)
(** ** Saving the output *)

Section WithRuntime.
Context {R : PyRuntime}.


End WithRuntime.


(* ================================================================== *)
(** ** Telling a failure from a success *)

(** [main] reports that body as a failure and exits with status 1. *)
Lemma labelled_body_is_reported :
  @main Samples.sample_runtime
    (Samples.answering 200 "OK"
       (@dumps Samples.sample_runtime None labelled_body) None)
    Samples.plain_command_line
  = ([EvPost (cli_request (u "secret")
                (parse_args None Samples.plain_command_line));
      EvPrint Stderr (u "Error: none")], Exit 1).
Proof. vm_compute. reflexivity. Qed.

(** C5 fails as stated: the server answers 200 with a body that has
    [choices[0].message.content] and an ["error"] key; [main] prints
    [Error: none] and exits with status 1 instead of rendering [hello]. *)
Lemma C5_counterexample : ~ @success_is_never_misclassified Samples.sample_runtime.
Proof.
  intros H.
  specialize (H (Samples.answering 200 "OK"
                   (@dumps Samples.sample_runtime None labelled_body) None)
                Samples.plain_command_line (u "secret")
                {| status_code := 200; reason := u "OK";
                   url := req_url (cli_request (u "secret")
                            (parse_args None Samples.plain_command_line));
                   text := @dumps Samples.sample_runtime None labelled_body |}
                [ (u "choices",
                   PList [PDict [(u "message",
                                  PDict [(u "content", PStr (u "hello"))])]]);
                  (u "error", PStr (u "none")) ]).
  cbv zeta in H. rewrite labelled_body_is_reported in H.
  assert (Exit 1 = @Ok unit tt) as E; [|discriminate E].
  apply (f_equal snd) in H. cbn [snd] in H. rewrite H.
  - vm_compute. reflexivity.
  - reflexivity.
  - discriminate.
  - reflexivity.
  - simpl; lia.
  - vm_compute; reflexivity.
  - repeat eexists; reflexivity.
Qed.

Section WithRuntime.
Context {R : PyRuntime}.

Lemma error_detail_has_error (e : exception) :
  py_contains (u "error") (error_detail e) = Ok true.
Proof. unfold error_detail. now destruct (exc_response e). Qed.

Lemma dict_mem_get (d : dict) (k : pystr) :
  dict_mem d k = true -> exists v, dict_get d k = Some v.
Proof.
  unfold dict_mem. destruct (dict_get d k) as [v|]; [eauto | discriminate].
Qed.


(** The failure report always ends with [sys.exit(1)]. *)
Lemma report_failure_exits (d : dict) :
  dict_mem d (u "error") = true ->
  snd (report_failure (PDict d)) = Exit 1 /\
  printed Stdout (fst (report_failure (PDict d))) = [].
Proof.
  intros H. destruct (dict_mem_get _ _ H) as [err Herr].
  unfold report_failure. cbn [getitem_key py_contains]. rewrite Herr.
  rewrite bind_lift_Ok, bind_print, !bind_lift_Ok.
  destruct (dict_mem d (u "status_code")) eqn:Hc;
    destruct (dict_mem d (u "response_text")) eqn:Ht;
    repeat match goal with
           | H : dict_mem d ?k = true |- _ =>
               let v := fresh "v" in let Hv := fresh "Hv" in
               destruct (dict_mem_get _ _ H) as [v Hv]; rewrite Hv; clear H
           end;
    rewrite ?bind_lift_Ok, ?bind_print, ?bind_ret; split; reflexivity.
Qed.

Lemma after_failure (w : World) (args : Namespace) (d : dict) :
  dict_mem d (u "error") = true ->
  after_response w args (PDict d) = report_failure (PDict d).
Proof.
  intros H. unfold after_response. cbn [py_contains]. rewrite H.
  rewrite bind_lift_Ok.
  destruct (report_failure_exits d H) as [Hx _].
  unfold bind at 1. rewrite Hx.
  destruct (report_failure (PDict d)) as [tr o]. cbn [snd] in Hx. now subst o.
Qed.

(** [main] on a result in which it finds, or does not find, an
    ["error"]. *)
Lemma after_error_found (w : World) (args : Namespace) (v : pyval) :
  py_contains (u "error") v = Ok true ->
  after_response w args v = report_failure v.
Proof.
  intros H. destruct v as [ |b|z|f|s|l|d]; try discriminate H.
  - unfold after_response. rewrite H, bind_lift_Ok. reflexivity.
  - unfold after_response. rewrite H, bind_lift_Ok. reflexivity.
  - apply after_failure. cbn [py_contains] in H. now injection H.
Qed.

Lemma after_no_error_found (w : World) (args : Namespace) (v : pyval) :
  py_contains (u "error") v = Ok false ->
  after_response w args v = consume_success w args v.
Proof.
  intros H. unfold after_response, consume_success.
  now rewrite H, bind_lift_Ok, bind_ret.
Qed.

(** C5, amended. The result of [chat_completion] carries no tag. Every
    dict that its [except] clause builds has an ["error"] key, and the
    body of a 2xx response that decodes is returned as decoded, whatever
    JSON value it is. [main] tells the two apart by the test
    ["error" in response] alone: when the test is false it goes on with
    the result as a success, when it is true it makes its failure report
    of the result, and when the test itself raises, the exception ends
    the run. For a body that is a JSON object the test is true exactly
    when the object has a top-level ["error"] key, and the failure
    report then ends with [sys.exit(1)], also when the object is a
    well-formed success payload besides. *)
Theorem C5_success_iff_no_error_key (w : World) (cl : CommandLine)
    (key : pystr) (r : Response) (v : pyval) :
  let args := parse_args (environ_api_key w) cl in
  api_key args = Some key ->
  key <> [] ->
  post w (cli_request key args) = PostReturns r ->
  200 <= status_code r < 300 ->
  loads (text r) = Some v ->
  (forall e, py_contains (u "error") (error_detail e) = Ok true)
  /\ chat_completion w (new_client key) (cli_params args)
     = ([EvPost (cli_request key args)], Ok v)
  /\ (py_contains (u "error") v = Ok false ->
      main w cl
      = bind ([EvPost (cli_request key args)], Ok v) (consume_success w args))
  /\ (py_contains (u "error") v = Ok true ->
      main w cl
      = bind ([EvPost (cli_request key args)], Ok v) report_failure)
  /\ (forall e,
        py_contains (u "error") v = Raise e ->
        main w cl = ([EvPost (cli_request key args)], Raise e))
  /\ (forall d,
        v = PDict d ->
        py_contains (u "error") v = Ok (dict_mem d (u "error"))
        /\ (dict_mem d (u "error") = true -> snd (main w cl) = Exit 1)).
Proof.
  intros args Hk Hne Hp Hs Hl.
  assert (chat_completion w (new_client key) (cli_params args)
          = ([EvPost (cli_request key args)], Ok v)) as Hcc.
  { rewrite chat_completion_cli.
    now rewrite (exchange_returns _ _ r v Hp (raise_for_status_2xx r Hs) Hl). }
  assert (main w cl
          = (EvPost (cli_request key args) :: fst (after_response w args v),
             snd (after_response w args v))) as Hmain.
  { rewrite (main_with_key w cl key Hk Hne). fold args.
    rewrite Hcc, bind_Ok. reflexivity. }
  split; [apply error_detail_has_error|].
  split; [exact Hcc|].
  split; [|split; [|split]].
  - intros Hc. now rewrite Hmain, bind_Ok, after_no_error_found.
  - intros Hc. now rewrite Hmain, bind_Ok, after_error_found.
  - intros e Hc. rewrite Hmain. unfold after_response. rewrite Hc.
    reflexivity.
  - intros d ->. split; [reflexivity|].
    intros He. rewrite Hmain. cbn [snd].
    rewrite after_failure by exact He.
    now destruct (report_failure_exits d He).
Qed.

End WithRuntime.

(** The theorem for a server that answers 200 with the body of claim
    C4, in which [main] finds no ["error"]. *)
Lemma C5_witness :
  let w := Samples.answering 200 "OK"
             (@dumps Samples.sample_runtime None hello_body) None in
  let cl := Samples.plain_command_line in
  @main Samples.sample_runtime w cl
  = bind ([EvPost (cli_request (u "secret") (parse_args None cl))],
          Ok hello_body)
      (@consume_success Samples.sample_runtime w (parse_args None cl)).
Proof.
  intros w cl.
  apply (@C5_success_iff_no_error_key Samples.sample_runtime w cl (u "secret")
           {| status_code := 200; reason := u "OK";
              url := req_url (cli_request (u "secret") (parse_args None cl));
              text := @dumps Samples.sample_runtime None hello_body |}
           hello_body).
  - reflexivity.
  - discriminate.
  - reflexivity.
  - simpl; lia.
  - vm_compute; reflexivity.
  - reflexivity.
Defined.

(* ================================================================== *)
(** ** Missing fields *)



Section WithRuntime.
Context {R : PyRuntime}.





End WithRuntime.


(* ================================================================== *)
(** ** Transport failures *)


Section WithRuntime.
Context {R : PyRuntime}.



Lemma chat_completion_eq (w : World) (self : PerplexityClient)
    (p : ChatParams) :
  chat_completion w self p
  = try_except (exchange w (request_of self p)) [RequestException]
      (fun e => ret (error_detail e)).
Proof. reflexivity. Qed.

Lemma chat_completion_catches (w : World) (self : PerplexityClient)
    (p : ChatParams) (e : exception) :
  snd (exchange w (request_of self p)) = Raise e ->
  isinstance e RequestException = true ->
  chat_completion w self p
  = ([EvPost (request_of self p)], Ok (error_detail e)).
Proof.
  intros He Hi. rewrite chat_completion_eq.
  unfold try_except. rewrite He. cbn [existsb]. rewrite Hi. reflexivity.
Qed.


End WithRuntime.


(* ================================================================== *)
(** ** The round trip through [json.dumps] and [json.loads] *)

Section RoundTrip.
Local Open Scope N_scope.

Ltac div_lia := zify; Z.to_euclidean_division_equations; lia.

Lemma hex_value_digit d : d < 16 -> hex_value (hex_digit d) = Some d.
Proof.
  intros H.
  assert (d = 0 \/ d = 1 \/ d = 2 \/ d = 3 \/ d = 4 \/ d = 5 \/ d = 6 \/ d = 7 \/
          d = 8 \/ d = 9 \/ d = 10 \/ d = 11 \/ d = 12 \/ d = 13 \/ d = 14 \/ d = 15)
    as E by lia.
  repeat (destruct E as [-> | E]; [reflexivity|]). now subst.
Qed.

Lemma decode_hex4_hex4 n : n < 65536 ->
  decode_hex4 (hex_digit (n / 4096 mod 16)) (hex_digit (n / 256 mod 16))
              (hex_digit (n / 16 mod 16)) (hex_digit (n mod 16)) = Some n.
Proof.
  intros H. unfold decode_hex4.
  rewrite !hex_value_digit by (apply N.mod_lt; discriminate).
  f_equal. div_lia.
Qed.

Lemma scanstring_u_escape (c : N) (tail : pystr) :
  c < 65536 ->
  (is_high_surrogate c = true -> pairs_with_high tail = false) ->
  scanstring (u_escape c ++ tail) = push c (scanstring tail).
Proof.
  intros Hc Hp. unfold u_escape, hex4. cbn [app scanstring].
  change (backslash =? quote_mark) with false.
  change (backslash =? backslash) with true.
  change (letter_u =? letter_u) with true. cbn iota.
  rewrite decode_hex4_hex4 by assumption.
  destruct tail as [|b [|l [|g1 [|g2 [|g3 [|g4 r3]]]]]]; try reflexivity.
  destruct (is_high_surrogate c) eqn:Hh; [|reflexivity].
  specialize (Hp eq_refl). unfold pairs_with_high in Hp.
  destruct (b =? backslash); [|reflexivity].
  destruct (l =? letter_u); [|reflexivity].
  cbn [andb] in *.
  destruct (decode_hex4 g1 g2 g3 g4) as [uni2|]; [|discriminate].
  now rewrite Hp.
Qed.

Lemma lor_disjoint (a b : N) : b < 1024 -> N.lor (a * 1024) b = a * 1024 + b.
Proof.
  intros Hb. rewrite <- N.lxor_lor, <- N.add_nocarry_lxor; trivial;
  apply N.bits_inj_0; intros i; rewrite N.land_spec;
  change 1024 with (2 ^ 10) in *;
  (destruct (N.lt_ge_cases i 10) as [Hi | Hi];
   [ now rewrite N.mul_pow2_bits_low
   | rewrite (N.bits_above_log2 b i), andb_false_r; trivial;
     destruct (N.eq_dec b 0) as [-> | Hz]; [simpl; lia|];
     apply N.lt_le_trans with 10; [|assumption];
     apply N.log2_lt_pow2; lia ]).
Qed.

Lemma high_half (n : N) : n < 1048576 ->
  N.lor 55296 (N.land (N.shiftr n 10) 1023) = 55296 + n / 1024.
Proof.
  intros H. rewrite N.shiftr_div_pow2. change 1023 with (N.ones 10).
  rewrite N.land_ones. change (2 ^ 10) with 1024.
  rewrite N.mod_small by div_lia.
  change 55296 with (54 * 1024). apply lor_disjoint. div_lia.
Qed.

Lemma low_half (n : N) :
  N.lor 56320 (N.land n 1023) = 56320 + n mod 1024.
Proof.
  change 1023 with (N.ones 10). rewrite N.land_ones. change (2 ^ 10) with 1024.
  change 56320 with (55 * 1024). apply lor_disjoint. apply N.mod_lt. discriminate.
Qed.

Lemma joined_halves (n : N) : n < 1048576 ->
  65536 + N.lor (N.shiftl (55296 + n / 1024 - 55296) 10)
                (56320 + n mod 1024 - 56320) = 65536 + n.
Proof.
  intros H. rewrite N.shiftl_mul_pow2. change (2 ^ 10) with 1024.
  replace (55296 + n / 1024 - 55296) with (n / 1024) by div_lia.
  replace (56320 + n mod 1024 - 56320) with (n mod 1024) by div_lia.
  rewrite lor_disjoint by (apply N.mod_lt; discriminate). div_lia.
Qed.

Lemma scanstring_pair (hi lo : N) (tail : pystr) :
  is_high_surrogate hi = true ->
  is_low_surrogate lo = true ->
  scanstring (u_escape hi ++ u_escape lo ++ tail)
  = push (65536 + N.lor (N.shiftl (hi - 55296) 10) (lo - 56320))
         (scanstring tail).
Proof.
  intros Hh Hl.
  assert (hi < 65536 /\ lo < 65536) as [Bh Bl].
  { unfold is_high_surrogate, is_low_surrogate in *.
    apply andb_true_iff in Hh, Hl. rewrite !N.leb_le in *. lia. }
  unfold u_escape, hex4. cbn [app scanstring].
  change (backslash =? quote_mark) with false.
  change (backslash =? backslash) with true.
  change (letter_u =? letter_u) with true. cbn iota.
  rewrite !decode_hex4_hex4 by assumption.
  rewrite Hh, Hl. reflexivity.
Qed.

Lemma scanstring_escape_char (c : N) (tail : pystr) :
  c < 1114112 ->
  (is_high_surrogate c = true -> pairs_with_high tail = false) ->
  scanstring (escape_char c ++ tail) = push c (scanstring tail).
Proof.
  intros Hc Hp. unfold escape_char.
  destruct (c =? 34) eqn:E1; [apply N.eqb_eq in E1; subst; reflexivity|].
  destruct (c =? 92) eqn:E2; [apply N.eqb_eq in E2; subst; reflexivity|].
  destruct (c =? 10) eqn:E3; [apply N.eqb_eq in E3; subst; reflexivity|].
  destruct (c =? 13) eqn:E4; [apply N.eqb_eq in E4; subst; reflexivity|].
  destruct (c =? 9) eqn:E5; [apply N.eqb_eq in E5; subst; reflexivity|].
  destruct (c =? 8) eqn:E6; [apply N.eqb_eq in E6; subst; reflexivity|].
  destruct (c =? 12) eqn:E7; [apply N.eqb_eq in E7; subst; reflexivity|].
  destruct ((32 <=? c) && (c <=? 126)) eqn:E8.
  - cbn [app scanstring]. unfold quote_mark, backslash. rewrite E1, E2.
    apply andb_true_iff in E8. destruct E8 as [E8 _]. apply N.leb_le in E8.
    replace (c <? 32) with false by (symmetry; apply N.ltb_ge; assumption).
    reflexivity.
  - destruct (c <? 65536) eqn:E9.
    + apply N.ltb_lt in E9. now apply scanstring_u_escape.
    + apply N.ltb_ge in E9. cbv zeta.
      assert (c - 65536 < 1048576) as Hn by lia.
      rewrite (high_half _ Hn), low_half, <- app_assoc.
      rewrite scanstring_pair.
      * rewrite (joined_halves _ Hn).
        now replace (65536 + (c - 65536)) with c by lia.
      * unfold is_high_surrogate. apply andb_true_iff.
        rewrite !N.leb_le. div_lia.
      * unfold is_low_surrogate. apply andb_true_iff.
        rewrite !N.leb_le. div_lia.
Qed.

Lemma pairs_with_high_first (b : N) (r : pystr) :
  (b =? backslash) = false -> pairs_with_high (b :: r) = false.
Proof.
  intros H. unfold pairs_with_high. rewrite H.
  destruct r as [|? [|? [|? [|? [|? ?]]]]]; reflexivity.
Qed.

Lemma pairs_with_high_second (b l : N) (r : pystr) :
  (l =? letter_u) = false -> pairs_with_high (b :: l :: r) = false.
Proof.
  intros H. unfold pairs_with_high. rewrite H, andb_false_r.
  destruct r as [|? [|? [|? [|? ?]]]]; reflexivity.
Qed.

Lemma pairs_with_high_u_escape (c : N) (r : pystr) :
  c < 65536 -> is_low_surrogate c = false ->
  pairs_with_high (u_escape c ++ r) = false.
Proof.
  intros Hc Hl. unfold u_escape, hex4, pairs_with_high. cbn [app].
  rewrite decode_hex4_hex4 by assumption. rewrite Hl. reflexivity.
Qed.

Lemma pairs_with_high_escape_char (c : N) (r : pystr) :
  c < 1114112 -> is_low_surrogate c = false ->
  pairs_with_high (escape_char c ++ r) = false.
Proof.
  intros Hc Hl. unfold escape_char.
  destruct (c =? 34) eqn:E1; [now apply pairs_with_high_second|].
  destruct (c =? 92) eqn:E2; [now apply pairs_with_high_second|].
  destruct (c =? 10); [now apply pairs_with_high_second|].
  destruct (c =? 13); [now apply pairs_with_high_second|].
  destruct (c =? 9); [now apply pairs_with_high_second|].
  destruct (c =? 8); [now apply pairs_with_high_second|].
  destruct (c =? 12); [now apply pairs_with_high_second|].
  destruct ((32 <=? c) && (c <=? 126)); [now apply pairs_with_high_first|].
  destruct (c <? 65536) eqn:E9.
  - apply N.ltb_lt in E9. now apply pairs_with_high_u_escape.
  - apply N.ltb_ge in E9. cbv zeta.
    assert (c - 65536 < 1048576) as Hn by lia.
    rewrite (high_half _ Hn). rewrite <- app_assoc.
    apply pairs_with_high_u_escape; [div_lia|].
    unfold is_low_surrogate. apply andb_false_iff. left.
    apply N.leb_gt. div_lia.
Qed.

Lemma scanstring_escaped (s rest : pystr) :
  decoded_str s ->
  scanstring (List.flat_map escape_char s ++ quote_mark :: rest)
  = Some (s, rest).
Proof.
  intros [Hr Hp]. induction s as [|c s IH]; [reflexivity|].
  inversion Hr as [|? ? Hc Hr']; subst.
  cbn [List.flat_map]. rewrite <- app_assoc.
  rewrite scanstring_escape_char; trivial.
  - rewrite IH; trivial.
    destruct s as [|b s]; [reflexivity|].
    cbn [no_surrogate_pair] in Hp. now apply andb_true_iff in Hp.
  - intros Hh. destruct s as [|b s].
    + now apply pairs_with_high_first.
    + cbn [List.flat_map]. rewrite <- app_assoc.
      inversion Hr'; subst.
      apply pairs_with_high_escape_char; trivial.
      cbn [no_surrogate_pair] in Hp. apply andb_true_iff in Hp.
      destruct Hp as [Hp _]. rewrite Hh in Hp.
      now destruct (is_low_surrogate b).
Qed.

Lemma scan_once_string (fuel : nat) (s rest : pystr) {R : PyRuntime} :
  decoded_str s ->
  scan_once (S fuel) (encode_basestring_ascii s ++ rest) = Some (PStr s, rest).
Proof.
  intros H. unfold encode_basestring_ascii.
  cbn [app scan_once]. change (quote_mark =? quote_mark) with true. cbn iota.
  rewrite <- app_assoc. cbn [app].
  now rewrite scanstring_escaped.
Qed.

Lemma delimiter_cases (c : N) :
  delimiter c = true ->
  c = 32 \/ c = 9 \/ c = 10 \/ c = 13 \/ c = 44 \/ c = 93 \/ c = 125.
Proof.
  unfold delimiter, is_ws. rewrite !orb_true_iff, !N.eqb_eq. tauto.
Qed.

Lemma take_digits_delimited (rest : pystr) :
  delimited rest -> take_digits rest = ([], rest).
Proof.
  destruct rest as [|c rest]; [reflexivity|]. cbn [delimited take_digits].
  intros H. apply delimiter_cases in H.
  now repeat (destruct H as [-> | H]; [reflexivity|]); subst.
Qed.

Lemma match_frac_delimited (rest : pystr) :
  delimited rest -> match_frac rest = ([], rest).
Proof.
  destruct rest as [|c rest]; [reflexivity|]. cbn [delimited].
  intros H. apply delimiter_cases in H.
  now repeat (destruct H as [-> | H]; [reflexivity|]); subst.
Qed.

Lemma match_exp_delimited (rest : pystr) :
  delimited rest -> match_exp rest = ([], rest).
Proof.
  destruct rest as [|c rest]; [reflexivity|]. cbn [delimited].
  intros H. apply delimiter_cases in H.
  now repeat (destruct H as [-> | H]; [reflexivity|]); subst.
Qed.

Lemma take_digits_app (ds rest : pystr) :
  forallb is_digit ds = true -> delimited rest ->
  take_digits (ds ++ rest) = (ds, rest).
Proof.
  intros Hd Hr. induction ds as [|c ds IH]; cbn [app].
  - now apply take_digits_delimited.
  - cbn [forallb] in Hd. apply andb_true_iff in Hd. destruct Hd as [Hc Hd].
    cbn [take_digits]. now rewrite Hc, IH.
Qed.

Lemma uint_digits_are_digits (d : Decimal.uint) :
  forallb is_digit (uint_digits d) = true.
Proof. induction d; cbn [uint_digits forallb]; auto. Qed.

Lemma digits_uint_digits (d : Decimal.uint) : digits_uint (uint_digits d) = d.
Proof. induction d; cbn [uint_digits digits_uint]; [reflexivity | now rewrite IHd ..]. Qed.

(** The decimal writing of a positive number does not start with a
    zero. *)
Lemma to_uint_head (p : positive) :
  exists c ds, uint_digits (Pos.to_uint p) = c :: ds /\
               is_digit c = true /\ (c =? 48) = false.
Proof.
  pose proof (DecimalPos.Unsigned.to_uint_nonzero p) as Hz.
  pose proof (DecimalPos.Unsigned.to_uint_nonnil p) as Hn.
  assert (Decimal.unorm (Pos.to_uint p) = Pos.to_uint p) as Hu.
  { rewrite <- (DecimalPos.Unsigned.to_of (Pos.to_uint p)), DecimalPos.Unsigned.of_to. reflexivity. }
  destruct (Pos.to_uint p) as [|d|d|d|d|d|d|d|d|d|d] eqn:E;
    try congruence; try (eexists _, _; repeat split; reflexivity).
  exfalso. rewrite DecimalFacts.unorm_D0 in Hu.
  assert (d = Decimal.Nil \/ d <> Decimal.Nil) as [-> | Hd]
    by (destruct d; [left; reflexivity | right; discriminate ..]).
  - now apply Hz.
  - pose proof (DecimalFacts.nb_digits_unorm d Hd) as Hlen.
    rewrite Hu in Hlen. cbn [Decimal.nb_digits] in Hlen. lia.
Qed.

Lemma take_digits_more (s rest d r : pystr) :
  delimited rest -> take_digits s = (d, r) ->
  take_digits (s ++ rest) = (d, r ++ rest).
Proof.
  intros Hr. revert d r. induction s as [|c s IH]; intros d r; cbn [app take_digits].
  - intros [= <- <-]. now apply take_digits_delimited.
  - destruct (is_digit c).
    + destruct (take_digits s) as [d' r'] eqn:E. intros [= <- <-].
      now rewrite (IH d' r' eq_refl).
    + now intros [= <- <-].
Qed.

Lemma match_int_more (s rest i r : pystr) :
  delimited rest -> match_int s = Some (i, r) ->
  match_int (s ++ rest) = Some (i, r ++ rest).
Proof.
  intros Hr. unfold match_int.
  assert (forall sign s1,
             match s1 with
             | c :: r0 =>
                 if c =? 48 then Some (sign ++ [c], r0)
                 else if is_digit c
                      then let (d, r') := take_digits r0 in Some (sign ++ c :: d, r')
                      else None
             | [] => None
             end = Some (i, r) ->
             match s1 ++ rest with
             | c :: r0 =>
                 if c =? 48 then Some (sign ++ [c], r0)
                 else if is_digit c
                      then let (d, r') := take_digits r0 in Some (sign ++ c :: d, r')
                      else None
             | [] => None
             end = Some (i, r ++ rest)) as Hbody.
  { intros sign [|c s1]; [discriminate|]. cbn [app].
    destruct (c =? 48); [now intros [= <- <-]|].
    destruct (is_digit c); [|discriminate].
    destruct (take_digits s1) as [d r'] eqn:E. intros [= <- <-].
    now rewrite (take_digits_more s1 rest d r' Hr E). }
  destruct s as [|c s]; [discriminate|]. cbn [app].
  destruct (c =? 45); [apply Hbody | apply (Hbody [] (c :: s))].
Qed.

Lemma match_frac_more (s rest fr r : pystr) :
  delimited rest -> match_frac s = (fr, r) ->
  match_frac (s ++ rest) = (fr, r ++ rest).
Proof.
  intros Hr. destruct s as [|c s]; cbn [app].
  - intros [= <- <-]. now apply match_frac_delimited.
  - unfold match_frac. destruct (c =? 46); [|now intros [= <- <-]].
    destruct (take_digits s) as [d r'] eqn:E.
    rewrite (take_digits_more s rest d r' Hr E).
    destruct d; now intros [= <- <-].
Qed.

Lemma match_exp_more (s rest ex r : pystr) :
  delimited rest -> match_exp s = (ex, r) ->
  match_exp (s ++ rest) = (ex, r ++ rest).
Proof.
  intros Hr. destruct s as [|c s]; cbn [app].
  - intros [= <- <-]. now apply match_exp_delimited.
  - unfold match_exp. destruct ((c =? 101) || (c =? 69)); [|now intros [= <- <-]].
    destruct s as [|x s]; cbn [app].
    + cbn [take_digits]. intros [= <- <-].
      destruct rest as [|x rest]; [reflexivity|].
      cbn [delimited] in Hr. apply delimiter_cases in Hr.
      now repeat (destruct Hr as [-> | Hr]; [reflexivity|]); subst.
    + destruct ((x =? 45) || (x =? 43)).
      * destruct (take_digits s) as [d r'] eqn:E.
        rewrite (take_digits_more s rest d r' Hr E).
        destruct d; now intros [= <- <-].
      * destruct (take_digits (x :: s)) as [d r'] eqn:E.
        change (x :: s ++ rest) with ((x :: s) ++ rest).
        rewrite (take_digits_more (x :: s) rest d r' Hr E).
        destruct d; now intros [= <- <-].
Qed.

(** A number token that fills a text is read the same way when a
    delimiter follows it. *)
Lemma match_number_more (s rest i fr ex : pystr) :
  delimited rest -> match_number s = Some (i, fr, ex, []) ->
  match_number (s ++ rest) = Some (i, fr, ex, rest).
Proof.
  intros Hr. unfold match_number.
  destruct (match_int s) as [[i' r]|] eqn:Ei; [|discriminate].
  rewrite (match_int_more s rest i' r Hr Ei).
  destruct (match_frac r) as [fr' r1] eqn:Ef.
  rewrite (match_frac_more r rest fr' r1 Hr Ef).
  destruct (match_exp r1) as [ex' r2] eqn:Ee.
  rewrite (match_exp_more r1 rest ex' r2 Hr Ee).
  now intros [= <- <- <- ->].
Qed.

Lemma take_digits_all (ds : pystr) :
  forallb is_digit ds = true -> take_digits ds = (ds, []).
Proof.
  intros H. rewrite <- (List.app_nil_r ds) at 1.
  now apply take_digits_app.
Qed.

Lemma match_int_int_str (z : Z) : match_int (int_str z) = Some (int_str z, []).
Proof.
  unfold match_int, int_str.
  destruct z as [|p|p]; cbn [Z.to_int]; [reflexivity| |];
    pose proof (uint_digits_are_digits (Pos.to_uint p)) as Hd;
    destruct (to_uint_head p) as (c & ds & E & Hc & Hz);
    rewrite E in *; cbn [forallb] in Hd; apply andb_true_iff in Hd;
    destruct Hd as [_ Hd].
  - assert ((c =? 45) = false) as Hm.
    { apply N.eqb_neq. intros ->. discriminate Hc. }
    rewrite Hm, Hz, Hc, (take_digits_all ds Hd). reflexivity.
  - change (minus_sign =? 45) with true. cbv beta iota.
    rewrite Hz, Hc, (take_digits_all ds Hd). reflexivity.
Qed.

Lemma match_number_int_str (z : Z) :
  match_number (int_str z) = Some (int_str z, [], [], []).
Proof. unfold match_number. now rewrite match_int_int_str. Qed.

Lemma int_of_text_int_str (z : Z) : int_of_text (int_str z) = z.
Proof.
  unfold int_str, int_of_text.
  destruct z as [|p|p]; cbn [Z.to_int].
  - reflexivity.
  - destruct (to_uint_head p) as (c & ds & E & Hc & Hz).
    assert ((c =? 45) = false) as Hm.
    { apply N.eqb_neq. intros ->. discriminate Hc. }
    rewrite E, Hm, <- E, digits_uint_digits.
    apply (DecimalZ.of_to (Z.pos p)).
  - change (minus_sign =? 45) with true. cbn iota.
    rewrite digits_uint_digits. apply (DecimalZ.of_to (Z.neg p)).
Qed.

(** A text that starts with a number does not start with [null], [true]
    or [false]. *)
Lemma match_number_head (s i fr ex r : pystr) :
  match_number s = Some (i, fr, ex, r) ->
  exists c s', s = c :: s' /\ (is_digit c = true \/ c = 45).
Proof.
  unfold match_number, match_int.
  destruct s as [|c s]; [discriminate|]. intros H. exists c, s. split; trivial.
  destruct (c =? 45) eqn:E; [right; now apply N.eqb_eq|]. left.
  destruct (c =? 48) eqn:E0; [apply N.eqb_eq in E0; now subst|].
  destruct (is_digit c); [reflexivity | discriminate].
Qed.

Lemma scan_literal_number {R : PyRuntime} (s i fr ex r : pystr) :
  match_number s = Some (i, fr, ex, r) ->
  scan_literal s
  = Some (match fr, ex with
          | [], [] => PInt (int_of_text i)
          | _, _ => PFloat (float_of_literal (i ++ fr ++ ex))
          end, r).
Proof.
  intros H. destruct (match_number_head _ _ _ _ _ H) as (c & s' & -> & Hc).
  unfold scan_literal. rewrite H.
  assert (forall x, x = 110 \/ x = 116 \/ x = 102 -> (x =? c) = false) as Hx.
  { intros x Hx. apply N.eqb_neq. intros <-.
    destruct Hc as [Hc | Hc]; destruct Hx as [-> | [-> | ->]]; discriminate. }
  change (u "null") with [110; 117; 108; 108].
  change (u "true") with [116; 114; 117; 101].
  change (u "false") with [102; 97; 108; 115; 101].
  cbn [is_prefix]. rewrite !Hx by tauto. cbn [andb].
  destruct fr, ex; reflexivity.
Qed.

Lemma scan_literal_int {R : PyRuntime} (z : Z) (rest : pystr) :
  delimited rest ->
  scan_literal (int_str z ++ rest) = Some (PInt z, rest).
Proof.
  intros Hr.
  rewrite (scan_literal_number _ _ _ _ _
             (match_number_more _ rest _ _ _ Hr (match_number_int_str z))).
  now rewrite int_of_text_int_str.
Qed.

(** The groups of a number token and the text after it make up the text
    that was matched. *)
Lemma take_digits_text (s d r : pystr) : take_digits s = (d, r) -> s = d ++ r.
Proof.
  revert d r. induction s as [|c s IH]; intros d r; cbn [take_digits].
  - now intros [= <- <-].
  - destruct (is_digit c); [|now intros [= <- <-]].
    destruct (take_digits s) as [d' r'] eqn:E. intros [= <- <-].
    cbn [app]. now rewrite (IH d' r' eq_refl).
Qed.

Lemma match_int_text (s i r : pystr) : match_int s = Some (i, r) -> s = i ++ r.
Proof.
  unfold match_int.
  assert (forall (sign s1 : pystr),
             match s1 with
             | c :: r0 =>
                 if c =? 48 then Some (sign ++ [c], r0)
                 else if is_digit c
                      then let (d, r') := take_digits r0 in Some (sign ++ c :: d, r')
                      else None
             | [] => None
             end = Some (i, r) -> sign ++ s1 = i ++ r) as Hbody.
  { intros sign [|c s1]; [discriminate|].
    destruct (c =? 48).
    - intros [= <- <-]. now rewrite <- app_assoc.
    - destruct (is_digit c); [|discriminate].
      destruct (take_digits s1) as [d r'] eqn:E. intros [= <- <-].
      rewrite (take_digits_text s1 d r' E), <- app_assoc. reflexivity. }
  destruct s as [|c s]; [discriminate|].
  destruct (c =? 45); [apply (Hbody [c] s) | apply (Hbody [] (c :: s))].
Qed.

Lemma match_frac_text (s fr r : pystr) : match_frac s = (fr, r) -> s = fr ++ r.
Proof.
  unfold match_frac. destruct s as [|c s]; [now intros [= <- <-]|].
  destruct (c =? 46); [|now intros [= <- <-]].
  destruct (take_digits s) as [d r'] eqn:E.
  destruct d; intros [= <- <-]; [reflexivity|].
  cbn [app]. now rewrite (take_digits_text s _ r' E).
Qed.

Lemma match_exp_text (s ex r : pystr) : match_exp s = (ex, r) -> s = ex ++ r.
Proof.
  unfold match_exp. destruct s as [|c s]; [now intros [= <- <-]|].
  destruct ((c =? 101) || (c =? 69)); [|now intros [= <- <-]].
  assert (forall (sign r1 : pystr),
             match take_digits r1 with
             | ([], _) => ([], c :: s)
             | (d, r') => (c :: sign ++ d, r')
             end = (ex, r) -> s = sign ++ r1 -> c :: s = ex ++ r) as Hbody.
  { intros sign r1. destruct (take_digits r1) as [d r'] eqn:E.
    destruct d; intros [= <- <-] ->; [reflexivity|].
    cbn [app]. rewrite (take_digits_text r1 _ r' E), <- app_assoc. reflexivity. }
  destruct s as [|x s]; [intros H; apply (Hbody [] [] H); reflexivity|].
  destruct ((x =? 45) || (x =? 43)).
  - intros H. apply (Hbody [x] s H). reflexivity.
  - intros H. apply (Hbody [] (x :: s) H). reflexivity.
Qed.

Lemma match_number_text (s i fr ex r : pystr) :
  match_number s = Some (i, fr, ex, r) -> s = i ++ fr ++ ex ++ r.
Proof.
  unfold match_number.
  destruct (match_int s) as [[i' r0]|] eqn:Ei; [|discriminate].
  destruct (match_frac r0) as [fr' r1] eqn:Ef.
  destruct (match_exp r1) as [ex' r2] eqn:Ee.
  intros [= <- <- <- <-].
  rewrite (match_int_text _ _ _ Ei), (match_frac_text _ _ _ Ef),
    (match_exp_text _ _ _ Ee). reflexivity.
Qed.

Lemma SFcompare_refl (x : spec_float) :
  x <> S754_nan -> SFcompare x x = Some Eq.
Proof.
  destruct x as [s|s| |s m e]; intros H; cbn [SFcompare].
  - reflexivity.
  - now destruct s.
  - congruence.
  - rewrite Z.compare_refl, Pos.compare_cont_refl.
    now destruct s.
Qed.

Lemma float_not_self_equal (f : float) :
  PrimFloat.eqb f f = false -> f = nan.
Proof.
  rewrite eqb_spec. unfold SFeqb. intros H.
  apply Prim2SF_inj. change (Prim2SF nan) with S754_nan.
  destruct (Prim2SF f) eqn:E; trivial;
    rewrite SFcompare_refl in H by discriminate; discriminate.
Qed.

Lemma float_equal_infinity (f : float) (s : bool) :
  PrimFloat.eqb f (if s then neg_infinity else infinity) = true ->
  f = if s then neg_infinity else infinity.
Proof.
  rewrite eqb_spec. unfold SFeqb. intros H.
  apply Prim2SF_inj.
  replace (Prim2SF (if s then neg_infinity else infinity))
    with (S754_infinity s) in * by (now destruct s).
  destruct (Prim2SF f) as [s'|s'| |s' m e]; cbn [SFcompare] in H;
    try discriminate.
  - now destruct s.
  - destruct s, s'; (reflexivity || discriminate).
  - destruct s, s'; discriminate.
Qed.

Section WithRuntime.
Context {R : PyRuntime}.

Lemma scan_literal_float (f : float) (rest : pystr) :
  float_reads_back f -> delimited rest ->
  scan_literal (floatstr f ++ rest) = Some (PFloat f, rest).
Proof.
  intros Hf Hr. unfold floatstr, float_reads_back, is_finite in *.
  destruct (PrimFloat.eqb f f) eqn:E1; cbn [negb andb] in *.
  - destruct (PrimFloat.eqb f infinity) eqn:E2; cbn [negb andb] in *.
    + rewrite (float_equal_infinity f false E2). reflexivity.
    + destruct (PrimFloat.eqb f neg_infinity) eqn:E3; cbn [negb] in *.
      * rewrite (float_equal_infinity f true E3). reflexivity.
      * destruct (Hf eq_refl) as [Hl Hb]. unfold is_float_literal in Hl.
        destruct (match_number (float_repr f)) as [[[[i fr] ex] r]|] eqn:Em;
          [|discriminate].
        destruct r; [|discriminate].
        rewrite (scan_literal_number _ _ _ _ _
                   (match_number_more _ rest _ _ _ Hr Em)).
        assert (float_repr f = i ++ fr ++ ex) as Ht.
        { rewrite (match_number_text _ _ _ _ _ Em) at 1.
          now rewrite !List.app_nil_r. }
        destruct fr, ex; try discriminate; now rewrite <- Ht, Hb.
  - rewrite (float_not_self_equal f E1). reflexivity.
Qed.

End WithRuntime.

(** Induction on a value, with the property assumed of the items of a
    list and of the values of a dict. *)
Lemma pyval_nested_ind (P : pyval -> Prop) :
  P PNone ->
  (forall b, P (PBool b)) ->
  (forall z, P (PInt z)) ->
  (forall f, P (PFloat f)) ->
  (forall s, P (PStr s)) ->
  (forall l, Forall P l -> P (PList l)) ->
  (forall d, Forall (fun kv => P (snd kv)) d -> P (PDict d)) ->
  forall v, P v.
Proof.
  intros HN HB HI HF HS HL HD.
  fix IH 1. intros [ |b|z|f|s|l|d].
  - exact HN.
  - apply HB.
  - apply HI.
  - apply HF.
  - apply HS.
  - apply HL. induction l as [|x l IHl]; constructor; [apply IH | exact IHl].
  - apply HD. induction d as [|[k x] d IHd]; constructor; [apply IH | exact IHd].
Qed.

Lemma skip_ws_blank (b s : pystr) :
  forallb is_ws b = true -> skip_ws (b ++ s) = skip_ws s.
Proof.
  induction b as [|c b IH]; cbn [app forallb]; [reflexivity|].
  intros H. apply andb_true_iff in H. destruct H as [Hc Hb].
  cbn [skip_ws]. now rewrite Hc, IH.
Qed.

Lemma skip_ws_token (s : pystr) : token_head s -> skip_ws s = s.
Proof. intros (c & s' & -> & Hc & _). cbn [skip_ws]. now rewrite Hc. Qed.

Lemma newline_indent_blank (indent : option nat) (level : nat) :
  forallb is_ws (newline_indent indent level) = true.
Proof.
  destruct indent as [n|]; [|reflexivity]. cbn [newline_indent forallb].
  change (is_ws 10) with true. cbn [andb].
  induction (n * level)%nat; cbn [List.repeat forallb]; auto.
Qed.

(** The separator between two items: a comma, then blanks. *)
Lemma separator_shape (indent : option nat) (level : nat) :
  exists b, item_separator indent ++ newline_indent indent level = 44 :: b /\
            forallb is_ws b = true.
Proof.
  destruct indent as [n|].
  - exists (newline_indent (Some n) level). split; [reflexivity|].
    apply newline_indent_blank.
  - exists [32]. split; reflexivity.
Qed.

Lemma token_head_app (s t : pystr) : token_head s -> token_head (s ++ t).
Proof. intros (c & s' & -> & H). exists c, (s' ++ t). now split. Qed.

Lemma token_head_cons (c : N) (s : pystr) :
  is_ws c = false -> (c =? 93) = false -> (c =? 65279) = false ->
  token_head (c :: s).
Proof. intros. exists c, s. auto. Qed.

Lemma token_head_number (s i fr ex r : pystr) :
  match_number s = Some (i, fr, ex, r) -> token_head s.
Proof.
  intros H. destruct (match_number_head _ _ _ _ _ H) as (c & s' & -> & Hc).
  apply token_head_cons; apply not_true_is_false; intros E.
  - unfold is_ws in E. rewrite !orb_true_iff, !N.eqb_eq in E.
    destruct Hc as [Hc | ->]; [|lia].
    destruct E as [[[-> | ->] | ->] | ->]; discriminate.
  - apply N.eqb_eq in E. subst. destruct Hc; discriminate.
  - apply N.eqb_eq in E. subst. destruct Hc; discriminate.
Qed.

Section WithRuntime.
Context {R : PyRuntime}.

Lemma token_head_floatstr (f : float) :
  float_reads_back f -> token_head (floatstr f).
Proof.
  intros Hf. unfold floatstr.
  destruct (PrimFloat.eqb f f) eqn:E1; cbn [negb];
    [|apply token_head_cons; reflexivity].
  destruct (PrimFloat.eqb f infinity) eqn:E2;
    [apply token_head_cons; reflexivity|].
  destruct (PrimFloat.eqb f neg_infinity) eqn:E3;
    [apply token_head_cons; reflexivity|].
  destruct Hf as [Hl _]; [unfold is_finite; now rewrite E1, E2, E3|].
  unfold is_float_literal in Hl.
  destruct (match_number (float_repr f)) as [[[[i fr] ex] r]|] eqn:Em;
    [|discriminate].
  eapply token_head_number; eauto.
Qed.

Lemma token_head_encode (indent : option nat) (level : nat) (v : pyval) :
  decoded v -> token_head (encode indent level v).
Proof.
  intros H. destruct H as [ |b|z|f Hf|s Hs|l Hl|d Hn Hd].
  - apply token_head_cons; reflexivity.
  - destruct b; apply token_head_cons; reflexivity.
  - eapply token_head_number. apply match_number_int_str.
  - now apply token_head_floatstr.
  - apply token_head_cons; reflexivity.
  - destruct l; apply token_head_cons; reflexivity.
  - destruct d; apply token_head_cons; reflexivity.
Qed.

(** A text that starts with none of a quote, a brace and a bracket is
    read as a scalar token. *)
Lemma scan_once_number (fuel : nat) (s i fr ex r : pystr) :
  match_number s = Some (i, fr, ex, r) ->
  scan_once (S fuel) s = scan_literal s.
Proof.
  intros H. destruct (match_number_head _ _ _ _ _ H) as (c & s' & -> & Hc).
  cbn [scan_once].
  assert (forall x, x = 34 \/ x = 123 \/ x = 91 -> (c =? x) = false) as Hx.
  { intros x Hx. apply N.eqb_neq. intros ->.
    destruct Hc as [Hc | Hc]; destruct Hx as [-> | [-> | ->]]; discriminate. }
  unfold quote_mark. now rewrite !Hx by tauto.
Qed.

Lemma scan_once_float (fuel : nat) (f : float) (rest : pystr) :
  float_reads_back f -> delimited rest ->
  scan_once (S fuel) (floatstr f ++ rest) = Some (PFloat f, rest).
Proof.
  intros Hf Hr. rewrite <- (scan_literal_float f rest Hf Hr).
  unfold floatstr.
  destruct (PrimFloat.eqb f f) eqn:E1; cbn [negb]; [|reflexivity].
  destruct (PrimFloat.eqb f infinity) eqn:E2; [reflexivity|].
  destruct (PrimFloat.eqb f neg_infinity) eqn:E3; [reflexivity|].
  destruct Hf as [Hl _]; [unfold is_finite; now rewrite E1, E2, E3|].
  unfold is_float_literal in Hl.
  destruct (match_number (float_repr f)) as [[[[i fr] ex] r]|] eqn:Em;
    [|discriminate].
  destruct r; [|discriminate].
  eapply scan_once_number. eapply match_number_more; eauto.
Qed.

Lemma scan_once_int (fuel : nat) (z : Z) (rest : pystr) :
  delimited rest ->
  scan_once (S fuel) (int_str z ++ rest) = Some (PInt z, rest).
Proof.
  intros Hr. rewrite <- (scan_literal_int z rest Hr).
  eapply scan_once_number.
  eapply match_number_more; [assumption | apply match_number_int_str].
Qed.

End WithRuntime.

Lemma dict_set_new (d : dict) (k : pystr) (v : pyval) :
  ~ In k (dict_keys d) -> dict_set d k v = d ++ [(k, v)].
Proof.
  induction d as [|[k' v'] d IH]; cbn [dict_set dict_keys List.map fst In app];
    [reflexivity|]; intros H.
  destruct (str_eqb k' k) eqn:E.
  - apply str_eqb_eq in E. tauto.
  - rewrite IH; tauto.
Qed.

Lemma dict_of_pairs_from (acc d : dict) :
  NoDup (dict_keys (acc ++ d)) ->
  List.fold_left (fun a kv => dict_set a (fst kv) (snd kv)) d acc = acc ++ d.
Proof.
  revert acc. induction d as [|[k v] d IH]; intros acc H; cbn [List.fold_left fst snd].
  - now rewrite List.app_nil_r.
  - rewrite dict_set_new.
    + rewrite IH; rewrite <- app_assoc; [reflexivity | exact H].
    + unfold dict_keys in *. rewrite List.map_app in H. cbn [List.map fst] in H.
      apply NoDup_remove_2 in H. intros Hin. apply H.
      apply in_or_app. now left.
Qed.

Lemma dict_of_pairs_distinct (d : dict) :
  NoDup (dict_keys d) -> dict_of_pairs d = d.
Proof. intros H. unfold dict_of_pairs. now rewrite dict_of_pairs_from. Qed.

Lemma delimited_blank (b s : pystr) :
  forallb is_ws b = true -> delimited s -> delimited (b ++ s).
Proof.
  destruct b as [|c b]; [trivial|]. cbn [forallb app delimited].
  intros H _. apply andb_true_iff in H. unfold delimiter. now rewrite (proj1 H).
Qed.

Section WithRuntime.
Context {R : PyRuntime}.

Lemma scan_items_join (indent : option nat) (level : nat) (rest : pystr)
    (l : list pyval) :
  l <> [] ->
  Forall (fun x => decoded x /\ reads_back indent x) l ->
  forall fuel, (items_weight l <= fuel)%nat ->
  scan_items fuel
    (join (item_separator indent ++ newline_indent indent (S level))
          (List.map (encode indent (S level)) l)
     ++ newline_indent indent level ++ 93 :: rest)
  = Some (l, rest).
Proof.
  intros Hne Hall.
  destruct (separator_shape indent (S level)) as (b & E & Hb). rewrite E. clear E.
  induction Hall as [|x l [Hx Hrx] Hall IH]; [congruence|].
  intros fuel Hfuel. cbn [items_weight List.fold_right] in Hfuel.
  fold (items_weight l) in Hfuel.
  destruct fuel as [|fuel]; [lia|]. cbn [scan_items].
  destruct l as [|y l].
  - cbn [List.map join].
    rewrite Hrx; [|lia|].
    + rewrite skip_ws_blank by apply newline_indent_blank.
      cbn [skip_ws]. reflexivity.
    + apply delimited_blank; [apply newline_indent_blank | reflexivity].
  - change (join ?sep (List.map ?f (x :: y :: l)))
      with (f x ++ sep ++ join sep (List.map f (y :: l))).
    rewrite <- !app_assoc. cbn [app].
    rewrite Hrx; [|lia | reflexivity].
    cbn [skip_ws]. change (is_ws 44) with false. cbv iota.
    change (44 =? 93) with false. change (44 =? 44) with true. cbv iota.
    rewrite skip_ws_blank by assumption.
    assert (token_head
              (join (44 :: b) (List.map (encode indent (S level)) (y :: l)) ++
               newline_indent indent level ++ 93 :: rest)) as Hth.
    { apply token_head_app. inversion Hall as [|? ? [Hy _] _]; subst.
      destruct l; cbn [List.map join]; [|apply token_head_app];
        now apply token_head_encode. }
    rewrite (skip_ws_token _ Hth).
    rewrite IH; [reflexivity | discriminate | lia].
Qed.

Lemma scan_pairs_join (indent : option nat) (level : nat) (rest : pystr)
    (d : dict) :
  d <> [] ->
  Forall (fun kv => decoded_str (fst kv) /\ decoded (snd kv)
                    /\ reads_back indent (snd kv)) d ->
  forall fuel, (pairs_weight d <= fuel)%nat ->
  scan_pairs fuel
    (List.tl
       (join (item_separator indent ++ newline_indent indent (S level))
             (List.map (fun kv => encode_basestring_ascii (fst kv)
                                    ++ key_separator
                                    ++ encode indent (S level) (snd kv)) d)
        ++ newline_indent indent level ++ 125 :: rest))
  = Some (d, rest).
Proof.
  intros Hne Hall.
  destruct (separator_shape indent (S level)) as (b & E & Hb). rewrite E. clear E.
  induction Hall as [|[k x] d (Hk & Hx & Hrx) Hall IH]; [congruence|].
  intros fuel Hfuel. cbn [pairs_weight List.fold_right snd] in Hfuel.
  fold (pairs_weight d) in Hfuel. cbn [fst snd] in *.
  destruct fuel as [|fuel]; [lia|]. cbn [scan_pairs].
  assert (forall tail,
             delimited tail ->
             scan_once fuel (skip_ws (32 :: encode indent (S level) x ++ tail))
             = Some (x, tail)) as Hvalue.
  { intros tail Ht. cbn [skip_ws]. change (is_ws 32) with true. cbv iota.
    rewrite skip_ws_token by (apply token_head_app; now apply token_head_encode).
    apply Hrx; [lia | assumption]. }
  destruct d as [|kv d].
  - cbn [List.map join fst snd]. unfold encode_basestring_ascii, key_separator.
    change (u ": ") with [58; 32].
    rewrite <- !app_assoc. cbn [app List.tl]. rewrite <- !app_assoc. cbn [app].
    rewrite scanstring_escaped by assumption.
    cbn [skip_ws]. change (is_ws 58) with false. cbv iota.
    change (58 =? 58) with true. cbv iota.
    rewrite Hvalue
      by (apply delimited_blank; [apply newline_indent_blank | reflexivity]).
    rewrite skip_ws_blank by apply newline_indent_blank.
    cbn [skip_ws]. reflexivity.
  - change (join ?sep (List.map ?f ((k, x) :: kv :: d)))
      with (f (k, x) ++ sep ++ join sep (List.map f (kv :: d))).
    cbn [fst snd]. unfold encode_basestring_ascii at 1, key_separator at 1.
    change (u ": ") with [58; 32].
    rewrite <- !app_assoc. cbn [app List.tl]. rewrite <- !app_assoc. cbn [app].
    rewrite scanstring_escaped by assumption.
    cbn [skip_ws]. change (is_ws 58) with false. cbv iota.
    change (58 =? 58) with true. cbv iota.
    rewrite Hvalue by reflexivity.
    cbn [skip_ws]. change (is_ws 44) with false. cbv iota.
    change (44 =? 125) with false. change (44 =? 44) with true. cbv iota.
    rewrite skip_ws_blank by assumption.
    specialize (IH ltac:(discriminate) fuel ltac:(lia)).
    destruct kv as [k' x']. cbn [List.map fst snd] in *.
    remember (List.map
                (fun kv => encode_basestring_ascii (fst kv) ++ key_separator
                             ++ encode indent (S level) (snd kv)) d) as more.
    assert (exists body,
               join (44 :: b)
                 ((encode_basestring_ascii k' ++ key_separator
                     ++ encode indent (S level) x') :: more)
               ++ newline_indent indent level ++ 125 :: rest
               = quote_mark :: body) as [body Ebody].
    { unfold encode_basestring_ascii.
      destruct more; cbn [join app]; eexists; reflexivity. }
    rewrite Ebody in *. cbn [List.tl] in IH.
    cbn [skip_ws]. change (is_ws quote_mark) with false. cbv iota.
    change (quote_mark =? quote_mark) with true. cbv iota.
    now rewrite IH.
Qed.

Lemma weight_positive (v : pyval) : (1 <= weight v)%nat.
Proof. destruct v; cbn [weight]; lia. Qed.

(** Every decoded value is read back from its encoding. *)
Lemma scan_once_encode (indent : option nat) (v : pyval) :
  decoded v -> reads_back indent v.
Proof.
  induction v as [ |b|z|f|s|l IHl|d IHd] using pyval_nested_ind;
    intros Hv level fuel rest Hfuel Hrest;
    (destruct fuel as [|fuel]; [pose proof (weight_positive PNone);
                                 cbn [weight] in Hfuel; lia|]).
  - reflexivity.
  - destruct b; reflexivity.
  - now apply scan_once_int.
  - inversion Hv; subst. now apply scan_once_float.
  - inversion Hv; subst. now apply scan_once_string.
  - inversion Hv as [ | | | | |? Hall| ]; subst.
    destruct l as [|x l]; [reflexivity|].
    assert (Forall (fun x => decoded x /\ reads_back indent x) (x :: l)) as Hboth.
    { rewrite Forall_forall in *. intros y Hy.
      split; [apply Hall | apply IHl; [|apply Hall]]; exact Hy. }
    change (encode indent level (PList (x :: l)))
      with (91 :: newline_indent indent (S level) ++
            join (item_separator indent ++ newline_indent indent (S level))
                 (List.map (encode indent (S level)) (x :: l)) ++
            newline_indent indent level ++ [93]).
    cbn [app scan_once]. change (91 =? quote_mark) with false.
    change (91 =? 123) with false. change (91 =? 91) with true. cbv iota.
    rewrite <- !app_assoc. cbn [app].
    rewrite skip_ws_blank by apply newline_indent_blank.
    assert (token_head
              (join (item_separator indent ++ newline_indent indent (S level))
                    (List.map (encode indent (S level)) (x :: l)) ++
               newline_indent indent level ++ 93 :: rest)) as Hth.
    { apply token_head_app. inversion Hall; subst.
      destruct l; cbn [List.map join]; [|apply token_head_app];
        now apply token_head_encode. }
    rewrite (skip_ws_token _ Hth).
    pose proof (scan_items_join indent level rest (x :: l)
                  ltac:(discriminate) Hboth fuel) as Hitems.
    destruct Hth as (c & s' & E & _ & Hc & _). rewrite E in *.
    rewrite Hc, Hitems; [reflexivity|].
    cbn [weight] in Hfuel. unfold items_weight. lia.
  - inversion Hv as [ | | | | | |? Hnd Hall]; subst.
    destruct d as [|[k x] d]; [reflexivity|].
    assert (Forall (fun kv => decoded_str (fst kv) /\ decoded (snd kv)
                              /\ reads_back indent (snd kv)) ((k, x) :: d))
      as Hboth.
    { rewrite Forall_forall in *. intros kv Hkv.
      destruct (Hall kv Hkv) as [Hk Hx].
      split; [exact Hk | split; [exact Hx | now apply IHd]]. }
    change (encode indent level (PDict ((k, x) :: d)))
      with (123 :: newline_indent indent (S level) ++
            join (item_separator indent ++ newline_indent indent (S level))
                 (List.map (fun kv => encode_basestring_ascii (fst kv)
                                        ++ key_separator
                                        ++ encode indent (S level) (snd kv))
                           ((k, x) :: d)) ++
            newline_indent indent level ++ [125]).
    cbn [app scan_once]. change (123 =? quote_mark) with false.
    change (123 =? 123) with true. cbv iota.
    rewrite <- !app_assoc. cbn [app].
    rewrite skip_ws_blank by apply newline_indent_blank.
    pose proof (scan_pairs_join indent level rest ((k, x) :: d)
                  ltac:(discriminate) Hboth fuel) as Hpairs.
    assert (exists body,
               join (item_separator indent ++ newline_indent indent (S level))
                 (List.map (fun kv => encode_basestring_ascii (fst kv)
                                        ++ key_separator
                                        ++ encode indent (S level) (snd kv))
                           ((k, x) :: d))
               ++ newline_indent indent level ++ 125 :: rest
               = quote_mark :: body) as [body Ebody].
    { cbn [List.map fst snd]. unfold encode_basestring_ascii at 1.
      destruct (List.map _ d); cbn [join app]; eexists; reflexivity. }
    rewrite Ebody in *. cbn [List.tl] in Hpairs.
    cbn [skip_ws]. change (is_ws quote_mark) with false. cbv iota.
    change (quote_mark =? 125) with false.
    change (quote_mark =? quote_mark) with true. cbv iota.
    rewrite Hpairs; [now rewrite dict_of_pairs_distinct|].
    cbn [weight] in Hfuel. unfold pairs_weight. lia.
Qed.

Lemma join_length (sep : pystr) (texts : list pystr) :
  (1 <= List.length sep)%nat ->
  (List.fold_right (fun t n => S (List.length t + n)) 0 texts
   <= S (List.length (join sep texts)))%nat.
Proof.
  intros Hs. induction texts as [|t texts IH]; cbn [List.fold_right]; [lia|].
  destruct texts as [|t' texts].
  - cbn [List.fold_right join]. lia.
  - change (join sep (t :: t' :: texts)) with (t ++ sep ++ join sep (t' :: texts)).
    rewrite !List.length_app. lia.
Qed.

Lemma weights_le_lengths {A} (w : A -> nat) (f : A -> pystr) (l : list A) :
  Forall (fun x => (w x <= List.length (f x))%nat) l ->
  (List.fold_right (fun x n => S (w x + n)) 0 l
   <= List.fold_right (fun t n => S (List.length t + n)) 0 (List.map f l))%nat.
Proof.
  induction 1 as [|x l Hx Hl IH]; cbn [List.fold_right List.map]; lia.
Qed.

Lemma separator_length (indent : option nat) (level : nat) :
  (1 <= List.length (item_separator indent ++ newline_indent indent level))%nat.
Proof.
  destruct (separator_shape indent level) as (b & -> & _). cbn [List.length]. lia.
Qed.

(** The encoding of a value is at least as long as the fuel needed to
    read it back. *)
Lemma weight_le_length (indent : option nat) (v : pyval) :
  decoded v ->
  forall level, (weight v <= List.length (encode indent level v))%nat.
Proof.
  induction v as [ |b|z|f|s|l IHl|d IHd] using pyval_nested_ind;
    intros Hv level;
    try (destruct (token_head_encode indent level _ Hv) as (c & s' & -> & _);
         cbn [weight List.length]; lia).
  - inversion Hv as [ | | | | |? Hall| ]; subst.
    destruct l as [|x l]; [cbn; lia|].
    change (encode indent level (PList (x :: l)))
      with (91 :: newline_indent indent (S level) ++
            join (item_separator indent ++ newline_indent indent (S level))
                 (List.map (encode indent (S level)) (x :: l)) ++
            newline_indent indent level ++ [93]).
    cbn [weight List.length]. rewrite !List.length_app. cbn [List.length].
    pose proof (join_length _ (List.map (encode indent (S level)) (x :: l))
                  (separator_length indent (S level))) as Hj.
    pose proof (weights_le_lengths weight (encode indent (S level)) (x :: l))
      as Hw.
    assert (Forall (fun x => (weight x <= List.length (encode indent (S level) x))%nat)
                   (x :: l)) as Hf.
    { rewrite Forall_forall in *. intros y Hy. apply IHl; [exact Hy|].
      apply Hall, Hy. }
    specialize (Hw Hf).
    match goal with
    | |- (S ?a <= S (_ + (?j + _)))%nat =>
        assert (a <= S j)%nat as Hle
          by (eapply Nat.le_trans; [exact Hw | exact Hj]); lia
    end.
  - inversion Hv as [ | | | | | |? Hnd Hall]; subst.
    destruct d as [|kv d]; [cbn; lia|].
    change (encode indent level (PDict (kv :: d)))
      with (123 :: newline_indent indent (S level) ++
            join (item_separator indent ++ newline_indent indent (S level))
                 (List.map (fun kv => encode_basestring_ascii (fst kv)
                                        ++ key_separator
                                        ++ encode indent (S level) (snd kv))
                           (kv :: d)) ++
            newline_indent indent level ++ [125]).
    cbn [weight List.length]. rewrite !List.length_app. cbn [List.length].
    pose proof (join_length _
                  (List.map (fun kv => encode_basestring_ascii (fst kv)
                                         ++ key_separator
                                         ++ encode indent (S level) (snd kv))
                            (kv :: d))
                  (separator_length indent (S level))) as Hj.
    pose proof (weights_le_lengths (fun kv => weight (snd kv))
                  (fun kv => encode_basestring_ascii (fst kv)
                               ++ key_separator
                               ++ encode indent (S level) (snd kv))
                  (kv :: d)) as Hw.
    assert (Forall (fun kv =>
                      (weight (snd kv)
                       <= List.length (encode_basestring_ascii (fst kv)
                                         ++ key_separator
                                         ++ encode indent (S level) (snd kv)))%nat)
                   (kv :: d)) as Hf.
    { rewrite Forall_forall in *. intros y Hy. rewrite !List.length_app.
      specialize (IHd y Hy (proj2 (Hall y Hy)) (S level)). lia. }
    specialize (Hw Hf).
    match goal with
    | |- (S ?a <= S (_ + (?j + _)))%nat =>
        assert (a <= S j)%nat as Hle
          by (eapply Nat.le_trans; [exact Hw | exact Hj]); lia
    end.
Qed.

(** [json.loads(json.dumps(v, indent=...))] is [v]. *)
Lemma loads_dumps (indent : option nat) (v : pyval) :
  decoded v -> loads (dumps indent v) = Some v.
Proof.
  intros Hv. unfold loads, dumps.
  pose proof (token_head_encode indent 0 v Hv) as Hth.
  assert (decode (encode indent 0 v) = Some v) as Hd.
  { unfold decode. rewrite (skip_ws_token _ Hth).
    rewrite <- (List.app_nil_r (encode indent 0 v)) at 2.
    rewrite (scan_once_encode indent v Hv);
      [reflexivity | | exact I].
    pose proof (weight_le_length indent v Hv 0%nat). lia. }
  destruct Hth as (c & s' & E & _ & _ & Hb). rewrite E in *. now rewrite Hb.
Qed.

End WithRuntime.

Lemma hex_value_bound (c x : N) : hex_value c = Some x -> x < 16.
Proof.
  unfold hex_value.
  destruct ((48 <=? c) && (c <=? 57)) eqn:E1.
  { apply andb_true_iff in E1. rewrite !N.leb_le in E1. intros [= <-]. lia. }
  destruct ((97 <=? c) && (c <=? 102)) eqn:E2.
  { apply andb_true_iff in E2. rewrite !N.leb_le in E2. intros [= <-]. lia. }
  destruct ((65 <=? c) && (c <=? 70)) eqn:E3; [|discriminate].
  apply andb_true_iff in E3. rewrite !N.leb_le in E3. intros [= <-]. lia.
Qed.

Lemma decode_hex4_bound (a b c d n : N) :
  decode_hex4 a b c d = Some n -> n < 65536.
Proof.
  unfold decode_hex4.
  destruct (hex_value a) as [x|] eqn:Ea; [|discriminate].
  destruct (hex_value b) as [y|] eqn:Eb; [|discriminate].
  destruct (hex_value c) as [z|] eqn:Ec; [|discriminate].
  destruct (hex_value d) as [w|] eqn:Ed; [|discriminate].
  apply hex_value_bound in Ea, Eb, Ec, Ed. intros [= <-]. lia.
Qed.

Lemma short_escape_plain (e x : N) :
  short_escape e = Some x -> x < 128 .
Proof.
  unfold short_escape.
  repeat match goal with
         | |- context [if ?b then _ else _] => destruct b
         end; intros [= <-]; lia.
Qed.

Lemma push_Some (x : N) (k : option (pystr * pystr)) (str r : pystr) :
  push x k = Some (str, r) ->
  exists str', str = x :: str' /\ k = Some (str', r).
Proof.
  destruct k as [[str' r']|]; [|discriminate].
  intros [= <- <-]. now exists str'.
Qed.

Lemma surrogate_bounds (c : N) :
  is_surrogate c = false <-> (c < 55296 \/ 57343 < c).
Proof.
  unfold is_surrogate, is_high_surrogate, is_low_surrogate.
  rewrite orb_false_iff, !andb_false_iff, !N.leb_gt. lia.
Qed.

Lemma high_bounds (c : N) : is_high_surrogate c = true <-> 55296 <= c <= 56319.
Proof. unfold is_high_surrogate. now rewrite andb_true_iff, !N.leb_le. Qed.

Lemma low_bounds (c : N) : is_low_surrogate c = true <-> 56320 <= c <= 57343.
Proof. unfold is_low_surrogate. now rewrite andb_true_iff, !N.leb_le. Qed.

(** The first character [scanstring] returns is a low surrogate only if
    the text starts with the escape of that surrogate. *)
Lemma scanstring_low_head (s str r : pystr) (c : N) :
  plain_text s ->
  scanstring s = Some (c :: str, r) ->
  is_low_surrogate c = true ->
  exists g1 g2 g3 g4 r',
    s = backslash :: letter_u :: g1 :: g2 :: g3 :: g4 :: r' /\
    decode_hex4 g1 g2 g3 g4 = Some c.
Proof.
  intros Hs H Hlow. apply low_bounds in Hlow.
  destruct s as [|c0 s]; [discriminate|]. cbn [scanstring] in H.
  destruct (c0 =? quote_mark) eqn:Eq; [discriminate|].
  destruct (c0 =? backslash) eqn:Eb.
  - apply N.eqb_eq in Eb. subst c0.
    destruct s as [|e r1]; [discriminate|].
    destruct (e =? letter_u) eqn:Eu.
    + apply N.eqb_eq in Eu. subst e.
      destruct r1 as [|h1 [|h2 [|h3 [|h4 r2]]]]; try discriminate.
      destruct (decode_hex4 h1 h2 h3 h4) as [uni|] eqn:Ed; [|discriminate].
      assert (forall x k, push x k = Some (c :: str, r) -> x = c) as Hpush.
      { intros x k Hx. apply push_Some in Hx. destruct Hx as (? & [= -> _] & _).
        reflexivity. }
      assert (uni = c) as ->.
      { destruct r2 as [|b [|l [|g1 [|g2 [|g3 [|g4 r3]]]]]];
          try exact (Hpush _ _ H).
        destruct (is_high_surrogate uni && (b =? backslash) && (l =? letter_u));
          [|exact (Hpush _ _ H)].
        destruct (decode_hex4 g1 g2 g3 g4) as [uni2|]; [|discriminate].
        destruct (is_low_surrogate uni2); [|exact (Hpush _ _ H)].
        pose proof (Hpush _ _ H). lia. }
      now exists h1, h2, h3, h4, r2.
    + destruct (short_escape e) as [x|] eqn:Ee; [|discriminate].
      apply push_Some in H. destruct H as (? & [= -> _] & _).
      apply short_escape_plain in Ee. lia.
  - destruct (c0 <? 32); [discriminate|].
    apply push_Some in H. destruct H as (? & [= -> _] & _).
    inversion Hs as [|? ? [_ Hc] _]; subst.
    apply surrogate_bounds in Hc. lia.
Qed.

(** One step of [scanstring] at a [\uXXXX] escape. *)
Lemma scanstring_at_escape (h1 h2 h3 h4 uni : N) (r2 : pystr) :
  decode_hex4 h1 h2 h3 h4 = Some uni ->
  scanstring (backslash :: letter_u :: h1 :: h2 :: h3 :: h4 :: r2)
  = if is_high_surrogate uni && pairs_with_high r2 then
      match r2 with
      | _ :: _ :: g1 :: g2 :: g3 :: g4 :: r3 =>
          match decode_hex4 g1 g2 g3 g4 with
          | Some uni2 =>
              push (65536 + N.lor (N.shiftl (uni - 55296) 10) (uni2 - 56320))
                   (scanstring r3)
          | None => None
          end
      | _ => None
      end
    else push uni (scanstring r2).
Proof.
  intros Hd. cbn [scanstring].
  change (backslash =? quote_mark) with false.
  change (backslash =? backslash) with true.
  change (letter_u =? letter_u) with true. cbv iota. rewrite Hd.
  unfold pairs_with_high.
  destruct r2 as [|b [|l [|g1 [|g2 [|g3 [|g4 r3]]]]]];
    rewrite ?andb_false_r; try reflexivity.
  destruct (is_high_surrogate uni); [|reflexivity]. cbn [andb].
  destruct (b =? backslash); [|reflexivity].
  destruct (l =? letter_u); [|reflexivity]. cbn [andb].
  destruct (decode_hex4 g1 g2 g3 g4) as [uni2|]; [|reflexivity].
  now destruct (is_low_surrogate uni2).
Qed.

Lemma decoded_str_cons (x : N) (str : pystr) :
  x < 1114112 ->
  (is_high_surrogate x = true ->
   match str with
   | c :: _ => is_low_surrogate c = false
   | [] => True
   end) ->
  decoded_str str -> decoded_str (x :: str).
Proof.
  intros Hx Hh [Hr Hp]. split; [now constructor|].
  destruct str as [|c str]; [reflexivity|].
  change (no_surrogate_pair (x :: c :: str))
    with (negb (is_high_surrogate x && is_low_surrogate c)
          && no_surrogate_pair (c :: str)).
  rewrite Hp, andb_true_r.
  destruct (is_high_surrogate x); [|reflexivity].
  now rewrite (Hh eq_refl).
Qed.

Lemma plain_text_tail (c : N) (s : pystr) : plain_text (c :: s) -> plain_text s.
Proof. intros H. now inversion H. Qed.

(** What [scanstring] returns from a plain text is a decoded str, and
    what it leaves is plain. *)
Lemma scanstring_decoded (n : nat) :
  forall s str r,
    (List.length s <= n)%nat ->
    plain_text s ->
    scanstring s = Some (str, r) ->
    decoded_str str /\ plain_text r.
Proof.
  induction n as [|n IH]; intros s str r Hn Hs H.
  { destruct s; [discriminate | cbn [List.length] in Hn; lia]. }
  destruct s as [|c0 s]; [discriminate|].
  cbn [List.length] in Hn.
  destruct (N.eqb_spec c0 backslash) as [-> | Hnb].
  - destruct s as [|e r1]; [discriminate|].
    destruct (N.eqb_spec e letter_u) as [-> | Hnu].
    + destruct r1 as [|h1 [|h2 [|h3 [|h4 r2]]]]; try discriminate.
      destruct (decode_hex4 h1 h2 h3 h4) as [uni|] eqn:Ed;
        [|cbn [scanstring] in H;
          change (backslash =? quote_mark) with false in H;
          change (backslash =? backslash) with true in H;
          change (letter_u =? letter_u) with true in H; cbv iota in H;
          rewrite Ed in H; discriminate].
      rewrite (scanstring_at_escape _ _ _ _ _ _ Ed) in H.
      assert (plain_text r2) as Hr2 by (do 6 apply plain_text_tail in Hs; exact Hs).
      cbn [List.length] in Hn.
      pose proof (decode_hex4_bound _ _ _ _ _ Ed) as Hu.
      destruct (is_high_surrogate uni) eqn:Hh; cbn [andb] in H.
      * destruct (pairs_with_high r2) eqn:Hp.
        -- destruct r2 as [|b [|l [|g1 [|g2 [|g3 [|g4 r3]]]]]]; try discriminate.
           destruct (decode_hex4 g1 g2 g3 g4) as [uni2|] eqn:Ed2; [|discriminate].
           unfold pairs_with_high in Hp. rewrite Ed2 in Hp.
           apply andb_true_iff in Hp. destruct Hp as [_ Hl].
           apply push_Some in H. destruct H as (str' & -> & H).
           cbn [List.length] in Hn.
           destruct (IH r3 str' r) as [Hd Hr]; trivial; [lia | |].
           { do 6 apply plain_text_tail in Hr2. exact Hr2. }
           split; [|exact Hr].
           apply high_bounds in Hh. apply low_bounds in Hl.
           assert (N.lor (N.shiftl (uni - 55296) 10) (uni2 - 56320) < 1048576)
             as Hc.
           { rewrite N.shiftl_mul_pow2. change (2 ^ 10) with 1024.
             rewrite lor_disjoint by lia. nia. }
           apply decoded_str_cons; trivial; [lia|].
           intros Hx. apply high_bounds in Hx. lia.
        -- apply push_Some in H. destruct H as (str' & -> & H).
           destruct (IH r2 str' r) as [Hd Hr]; trivial; [lia|].
           split; [|exact Hr].
           apply decoded_str_cons; trivial; [lia|].
           intros _. destruct str' as [|c str']; [exact I|].
           destruct (is_low_surrogate c) eqn:Hl; [|reflexivity].
           destruct (scanstring_low_head r2 str' r c Hr2 H Hl)
             as (g1 & g2 & g3 & g4 & r' & -> & Eg).
           unfold pairs_with_high in Hp. rewrite Eg, Hl in Hp. discriminate.
      * apply push_Some in H. destruct H as (str' & -> & H).
        destruct (IH r2 str' r) as [Hd Hr]; trivial; [lia|].
        split; [|exact Hr].
        apply decoded_str_cons; trivial; [lia|]. congruence.
    + cbn [scanstring] in H.
      change (backslash =? quote_mark) with false in H.
      change (backslash =? backslash) with true in H. cbv iota in H.
      replace (e =? letter_u) with false in H by (symmetry; now apply N.eqb_neq).
      destruct (short_escape e) as [x|] eqn:Ee; [|discriminate].
      apply push_Some in H. destruct H as (str' & -> & H).
      cbn [List.length] in Hn.
      destruct (IH r1 str' r) as [Hd Hr]; trivial; [lia | |].
      { do 2 apply plain_text_tail in Hs. exact Hs. }
      split; [|exact Hr]. apply short_escape_plain in Ee.
      apply decoded_str_cons; trivial; [lia|].
      intros Hx. apply high_bounds in Hx. lia.
  - cbn [scanstring] in H.
    replace (c0 =? backslash) with false in H by (symmetry; now apply N.eqb_neq).
    destruct (c0 =? quote_mark).
    + injection H as <- <-. split; [split; [constructor | reflexivity]|].
      now apply plain_text_tail in Hs.
    + destruct (c0 <? 32); [discriminate|].
      apply push_Some in H. destruct H as (str' & -> & H).
      destruct (IH s str' r) as [Hd Hr]; trivial; [lia | |].
      { now apply plain_text_tail in Hs. }
      split; [|exact Hr].
      inversion Hs as [|? ? [Hc Hsur] _]; subst.
      apply decoded_str_cons; trivial.
      intros Hx. unfold is_surrogate in Hsur. rewrite Hx in Hsur. discriminate.
Qed.

Lemma plain_text_skip_ws (s : pystr) : plain_text s -> plain_text (skip_ws s).
Proof.
  induction s as [|c s IH]; cbn [skip_ws]; [trivial|]. intros H.
  destruct (is_ws c); [apply IH; now apply plain_text_tail in H | exact H].
Qed.

Lemma plain_text_skipn (n : nat) (s : pystr) :
  plain_text s -> plain_text (List.skipn n s).
Proof.
  revert s. induction n as [|n IH]; intros [|c s] H; cbn [List.skipn]; trivial.
  apply IH. now apply plain_text_tail in H.
Qed.

Lemma plain_text_suffix (a b : pystr) : plain_text (a ++ b) -> plain_text b.
Proof. unfold plain_text. rewrite Forall_app. tauto. Qed.

Lemma dict_set_keys (d : dict) (k : pystr) (v : pyval) (k0 : pystr) :
  In k0 (dict_keys (dict_set d k v)) <-> In k0 (dict_keys d) \/ k0 = k.
Proof.
  induction d as [|[k' v'] d IH]; cbn [dict_set dict_keys List.map fst In].
  - intuition.
  - destruct (str_eqb k' k) eqn:E; cbn [dict_keys List.map fst In].
    + apply str_eqb_eq in E. subst. intuition.
    + unfold dict_keys in IH. rewrite IH. intuition.
Qed.

Lemma dict_set_distinct (d : dict) (k : pystr) (v : pyval) :
  NoDup (dict_keys d) -> NoDup (dict_keys (dict_set d k v)).
Proof.
  induction d as [|[k' v'] d IH]; cbn [dict_set dict_keys List.map fst]; intros H.
  - repeat constructor. intros [].
  - inversion H as [|? ? Hn Hd]; subst.
    destruct (str_eqb k' k) eqn:E; cbn [dict_keys List.map fst].
    + now constructor.
    + constructor; [|now apply IH].
      intros Hin. apply (dict_set_keys d k v k') in Hin.
      destruct Hin as [Hin | ->]; [now apply Hn|].
      now rewrite str_eqb_refl in E.
Qed.

Lemma dict_set_Forall (P : pystr * pyval -> Prop) (d : dict) (k : pystr)
    (v : pyval) :
  Forall P d -> P (k, v) -> Forall P (dict_set d k v).
Proof.
  intros Hd Hk. induction Hd as [|[k' v'] d Hx Hd IH]; cbn [dict_set].
  - now repeat constructor.
  - destruct (str_eqb k' k) eqn:E.
    + apply str_eqb_eq in E. subst. now constructor.
    + now constructor.
Qed.

Lemma dict_of_pairs_invariant (P : pystr * pyval -> Prop)
    (pairs : list (pystr * pyval)) :
  Forall P pairs ->
  NoDup (dict_keys (dict_of_pairs pairs)) /\ Forall P (dict_of_pairs pairs).
Proof.
  unfold dict_of_pairs.
  assert (forall acc, NoDup (dict_keys acc) -> Forall P acc -> Forall P pairs ->
            NoDup (dict_keys
                     (List.fold_left (fun d kv => dict_set d (fst kv) (snd kv))
                        pairs acc)) /\
            Forall P (List.fold_left (fun d kv => dict_set d (fst kv) (snd kv))
                        pairs acc)) as H.
  { induction pairs as [|[k v] pairs IH]; intros acc Hn Ha Hp;
      cbn [List.fold_left fst snd]; [tauto|].
    inversion Hp; subst.
    apply IH; [now apply dict_set_distinct | now apply dict_set_Forall | trivial]. }
  intros Hp. apply H; [constructor | constructor | exact Hp].
Qed.

Section WithRuntime.
Context {R : PyRuntime}.

Hypothesis Hfloat : floats_read_back.

Lemma scan_literal_decoded (s : pystr) (v : pyval) (r : pystr) :
  plain_text s -> scan_literal s = Some (v, r) -> decoded v /\ plain_text r.
Proof.
  intros Hs. unfold scan_literal.
  assert (forall f, is_finite f = false -> decoded (PFloat f)) as Hnf.
  { intros f Hf. constructor. intros Hfin. congruence. }
  destruct (is_prefix (u "null") s).
  { intros [= <- <-]. split; [constructor | exact (plain_text_skipn 4 s Hs)]. }
  destruct (is_prefix (u "true") s).
  { intros [= <- <-]. split; [constructor | exact (plain_text_skipn 4 s Hs)]. }
  destruct (is_prefix (u "false") s).
  { intros [= <- <-]. split; [constructor | exact (plain_text_skipn 5 s Hs)]. }
  destruct (match_number s) as [[[[i fr] ex] r']|] eqn:Em.
  - assert (plain_text r') as Hr.
    { rewrite (match_number_text _ _ _ _ _ Em) in Hs.
      now do 3 apply plain_text_suffix in Hs. }
    destruct fr, ex; intros [= <- <-]; split; trivial; constructor; apply Hfloat.
  - destruct (is_prefix (u "NaN") s).
    { intros [= <- <-].
      split; [now apply Hnf | exact (plain_text_skipn 3 s Hs)]. }
    destruct (is_prefix (u "Infinity") s).
    { intros [= <- <-].
      split; [now apply Hnf | exact (plain_text_skipn 8 s Hs)]. }
    destruct (is_prefix (u "-Infinity") s); [|discriminate].
    intros [= <- <-].
    split; [now apply Hnf | exact (plain_text_skipn 9 s Hs)].
Qed.

(** What the decoder reads from a plain text is a decoded value. *)
Lemma scan_decoded (fuel : nat) :
  (forall s v r, plain_text s -> scan_once fuel s = Some (v, r) ->
                 decoded v /\ plain_text r) /\
  (forall s vs r, plain_text s -> scan_items fuel s = Some (vs, r) ->
                  Forall decoded vs /\ plain_text r) /\
  (forall s ps r, plain_text s -> scan_pairs fuel s = Some (ps, r) ->
                  Forall (fun kv => decoded_str (fst kv) /\ decoded (snd kv)) ps
                  /\ plain_text r).
Proof.
  induction fuel as [|fuel (IHv & IHi & IHp)];
    [repeat split; intros; discriminate|].
  split; [|split].
  - intros s v r Hs H. destruct s as [|c s]; [discriminate|].
    cbn [scan_once] in H.
    pose proof (plain_text_tail _ _ Hs) as Hs'.
    destruct (c =? quote_mark).
    { destruct (scanstring s) as [[str r']|] eqn:E; [|discriminate].
      injection H as <- <-.
      destruct (scanstring_decoded _ s str r' (le_n _) Hs' E).
      split; [now constructor | trivial]. }
    destruct (c =? 123).
    { pose proof (plain_text_skip_ws _ Hs') as Hw.
      destruct (skip_ws s) as [|c0 r1]; [discriminate|].
      destruct (c0 =? 125).
      { injection H as <- <-. split; [|now apply plain_text_tail in Hw].
        constructor; constructor. }
      destruct (c0 =? quote_mark); [|discriminate].
      destruct (scan_pairs fuel r1) as [[ps r2]|] eqn:E; [|discriminate].
      injection H as <- <-.
      destruct (IHp r1 ps r2 (plain_text_tail _ _ Hw) E) as [Hps Hr].
      split; [|exact Hr].
      destruct (dict_of_pairs_invariant _ ps Hps). now constructor. }
    destruct (c =? 91); [|now apply (scan_literal_decoded (c :: s))].
    pose proof (plain_text_skip_ws _ Hs') as Hw.
    destruct (skip_ws s) as [|c0 r1]; [discriminate|].
    destruct (c0 =? 93).
    { injection H as <- <-. split; [|now apply plain_text_tail in Hw].
      constructor; constructor. }
    destruct (scan_items fuel (c0 :: r1)) as [[vs r2]|] eqn:E; [|discriminate].
    injection H as <- <-.
    destruct (IHi _ vs r2 Hw E) as [Hvs Hr].
    split; [now constructor | exact Hr].
  - intros s vs r Hs H. cbn [scan_items] in H.
    destruct (scan_once fuel s) as [[v r0]|] eqn:E; [|discriminate].
    destruct (IHv s v r0 Hs E) as [Hv Hr0].
    pose proof (plain_text_skip_ws _ Hr0) as Hw.
    destruct (skip_ws r0) as [|c r1]; [discriminate|].
    pose proof (plain_text_tail _ _ Hw) as Hr1.
    destruct (c =? 93).
    { injection H as <- <-. split; [now repeat constructor | trivial]. }
    destruct (c =? 44); [|discriminate].
    destruct (scan_items fuel (skip_ws r1)) as [[vs' r2]|] eqn:E2; [|discriminate].
    injection H as <- <-.
    destruct (IHi _ vs' r2 (plain_text_skip_ws _ Hr1) E2) as [Hvs Hr].
    split; [now constructor | exact Hr].
  - intros s ps r Hs H. cbn [scan_pairs] in H.
    destruct (scanstring s) as [[key r0]|] eqn:Ek; [|discriminate].
    destruct (scanstring_decoded _ s key r0 (le_n _) Hs Ek) as [Hkey Hr0].
    pose proof (plain_text_skip_ws _ Hr0) as Hw.
    destruct (skip_ws r0) as [|c r1]; [discriminate|].
    pose proof (plain_text_tail _ _ Hw) as Hr1.
    destruct (c =? 58); [|discriminate].
    destruct (scan_once fuel (skip_ws r1)) as [[v r2]|] eqn:Ev; [|discriminate].
    destruct (IHv _ v r2 (plain_text_skip_ws _ Hr1) Ev) as [Hv Hr2].
    pose proof (plain_text_skip_ws _ Hr2) as Hw2.
    destruct (skip_ws r2) as [|c2 r3]; [discriminate|].
    pose proof (plain_text_tail _ _ Hw2) as Hr3.
    destruct (c2 =? 125).
    { injection H as <- <-.
      split; [constructor; [split; assumption | constructor] | trivial]. }
    destruct (c2 =? 44); [|discriminate].
    pose proof (plain_text_skip_ws _ Hr3) as Hw3.
    destruct (skip_ws r3) as [|q r4]; [discriminate|].
    destruct (q =? quote_mark); [|discriminate].
    destruct (scan_pairs fuel r4) as [[ps' r5]|] eqn:Ep; [|discriminate].
    injection H as <- <-.
    destruct (IHp r4 ps' r5 (plain_text_tail _ _ Hw3) Ep) as [Hps Hr].
    split; [constructor; [split; assumption | exact Hps] | exact Hr].
Qed.

(** The value that [json.loads] returns for a plain text is a decoded
    value. *)
Lemma loads_decoded (s : pystr) (v : pyval) :
  plain_text s -> loads s = Some v -> decoded v.
Proof.
  intros Hs H.
  assert (decode s = Some v) as Hd.
  { unfold loads in H. destruct s as [|c s]; [exact H|].
    destruct (c =? 65279); [discriminate | exact H]. }
  unfold decode in Hd.
  destruct (scan_once (S (List.length s)) (skip_ws s)) as [[v' r]|] eqn:E;
    [|discriminate].
  destruct (skip_ws r); [|discriminate]. injection Hd as <-.
  now destruct (proj1 (scan_decoded _) _ _ _ (plain_text_skip_ws _ Hs) E).
Qed.

End WithRuntime.

End RoundTrip.

(** The body that [Response.json] returns for a plain response text is a
    decoded value, [float] and [repr] being inverse to each other on the
    floats that [float] returns. *)
Lemma response_json_decoded {R : PyRuntime} (r : Response) (body : pyval) :
  floats_read_back ->
  plain_text (text r) ->
  response_json r = Ok body ->
  decoded body.
Proof.
  intros Hf Hp. unfold response_json.
  destruct (loads (text r)) as [v|] eqn:E; [|discriminate].
  intros [= <-]. now apply (loads_decoded Hf (text r)).
Qed.

(** The sample runtime reads its floats back. *)
Lemma sample_floats_read_back : @floats_read_back Samples.sample_runtime.
Proof.
  intros lit. unfold float_reads_back. cbn [float_of_literal Samples.sample_runtime].
  destruct (str_eqb lit (u "0.2")); [intros _; split; vm_compute; reflexivity|].
  destruct (str_eqb lit (u "0.9")); intros _; split; vm_compute; reflexivity.
Qed.




(* ================================================================== *)
(** ** The run as a whole *)

Lemma stderr_only_silent (tr : list event) :
  forallb on_stderr tr = true ->
  printed Stdout tr = [] /\ requests_of tr = [] /\ writes_of tr = [].
Proof.
  induction tr as [|ev tr IH]; [easy|].
  cbn [forallb]. rewrite andb_true_iff. intros [Hev Htr].
  destruct (IH Htr) as (H1 & H2 & H3).
  destruct ev as [[|] line| |]; try discriminate.
  unfold printed, requests_of, writes_of in *. cbn [flat_map app].
  now rewrite H1, H2, H3.
Qed.

Lemma obind_no_exit {A B} (m : outcome A) (k : A -> outcome B) :
  no_exit m -> (forall a, no_exit (k a)) -> no_exit (obind m k).
Proof.
  intros Hm Hk c. destruct m as [a|e|c0]; cbn [obind].
  - apply Hk.
  - discriminate.
  - now destruct (Hm c0).
Qed.

Lemma getitem_key_no_exit (v : pyval) (k : pystr) : no_exit (getitem_key v k).
Proof.
  intros c. destruct v; cbn [getitem_key]; try discriminate.
  destruct (dict_get d k); discriminate.
Qed.

Lemma getitem_index_no_exit (v : pyval) (i : Z) : no_exit (getitem_index v i).
Proof.
  intros c. destruct v; cbn [getitem_index]; try discriminate.
  - destruct (seq_position _ i) as [n|]; [|discriminate].
    destruct (nth_error s n); discriminate.
  - destruct (seq_position _ i) as [n|]; [|discriminate].
    destruct (nth_error l n); discriminate.
Qed.

Lemma py_get_no_exit (v : pyval) (k : pystr) : no_exit (py_get v k).
Proof.
  intros c. destruct v; cbn [py_get]; try discriminate.
  destruct (dict_get d k); discriminate.
Qed.

Lemma py_iter_no_exit (v : pyval) : no_exit (py_iter v).
Proof. intros c. destruct v; discriminate. Qed.

Lemma py_contains_no_exit (k : pystr) (v : pyval) : no_exit (py_contains k v).
Proof. intros c. destruct v; discriminate. Qed.

Lemma strs_from_no_exit (i : Z) (parts : list pyval) : no_exit (strs_from i parts).
Proof.
  revert i; induction parts as [|v parts IH]; intros i; [discriminate|].
  destruct v; cbn [strs_from]; try discriminate.
  apply obind_no_exit; [apply IH | discriminate].
Qed.

Lemma str_join_no_exit (sep : pystr) (parts : list pyval) :
  no_exit (str_join sep parts).
Proof.
  unfold str_join. apply obind_no_exit; [apply strs_from_no_exit | discriminate].
Qed.

Section WithRuntime.
Context {R : PyRuntime}.

Lemma render_text_no_exit (args : Namespace) (response : pyval) :
  no_exit (render_text args response).
Proof.
  unfold render_text, citations_section, related_section.
  repeat first
    [ apply str_join_no_exit
    | apply obind_no_exit; [|intros ?]
    | apply getitem_key_no_exit | apply getitem_index_no_exit
    | apply py_get_no_exit | apply py_iter_no_exit
    | match goal with |- no_exit (if ?b then _ else _) => destruct b end
    | intros ?; discriminate ].
Qed.

(** How "Prepare output" ends: with the output, with an exception that
    its handler does not catch, or with the report of its handler. *)
Lemma prepare_output_cases (args : Namespace) (v : pyval) :
  (exists out, prepare_output args v = ([], Ok out))
  \/ (exists e, prepare_output args v = ([], Raise e))
  \/ (exists msg,
        prepare_output args v
        = ([EvPrint Stderr (u "Error parsing response: " ++ msg);
            EvPrint Stderr (dumps (Some 2%nat) v)], Exit 1)).
Proof.
  unfold prepare_output. destruct (json args).
  - left. eexists. reflexivity.
  - destruct (render_text args v) as [out|e|c] eqn:E.
    + left. exists out. reflexivity.
    + unfold try_except, lift. cbn [snd fst].
      destruct (existsb (isinstance e) [KeyError; IndexError]).
      * right; right. exists (exc_str e). reflexivity.
      * right; left. exists e. reflexivity.
    + now destruct (render_text_no_exit args v c).
Qed.

(** The failure report only writes to the error stream, and never
    returns: it ends with [sys.exit(1)] or with an exception. *)
Lemma report_failure_cases (v : pyval) :
  forallb on_stderr (fst (report_failure v)) = true
  /\ (snd (report_failure v) = Exit 1 \/ exists e, snd (report_failure v) = Raise e).
Proof.
  unfold report_failure.
  destruct (getitem_key v (u "error")) as [err|e|c] eqn:E1;
    [|split; [reflexivity | right; eexists; reflexivity]
     |now destruct (getitem_key_no_exit v (u "error") c)].
  rewrite bind_lift_Ok, bind_print.
  destruct (py_contains (u "status_code") v) as [b1|e|c] eqn:E2;
    [|split; [reflexivity | right; eexists; reflexivity]
     |now destruct (py_contains_no_exit (u "status_code") v c)].
  rewrite bind_lift_Ok.
  assert (forall k : unit -> io unit,
             (forallb on_stderr (fst (k tt)) = true /\
              (snd (k tt) = Exit 1 \/ exists e, snd (k tt) = Raise e)) ->
             forall (b : bool) (key label : pystr),
               let m := bind (if b
                              then bind (lift (getitem_key v key))
                                     (fun x => print Stderr (label ++ py_str x))
                              else ret tt) k in
               forallb on_stderr (fst m) = true /\
               (snd m = Exit 1 \/ exists e, snd m = Raise e)) as Hstep.
  { intros k Hk b key label m. subst m. destruct b.
    - destruct (getitem_key v key) as [x|e|c] eqn:E;
        [|split; [reflexivity | right; eexists; reflexivity]
         |now destruct (getitem_key_no_exit v key c)].
      rewrite bind_lift_Ok. unfold bind at 1. cbn [print snd fst app forallb on_stderr].
      exact Hk.
    - rewrite bind_ret. exact Hk. }
  cbn [forallb on_stderr fst snd andb].
  apply (Hstep _ ) with (b := b1) (key := u "status_code") (label := u "Status Code: ").
  destruct (py_contains (u "response_text") v) as [b2|e|c] eqn:E3;
    [|split; [reflexivity | right; eexists; reflexivity]
     |now destruct (py_contains_no_exit (u "response_text") v c)].
  rewrite bind_lift_Ok.
  apply (Hstep _ ) with (b := b2) (key := u "response_text") (label := u "Response: ").
  split; [reflexivity | left; reflexivity].
Qed.

End WithRuntime.

Lemma bind_Exit {A B} (m : io A) (k : A -> io B) (c : Z) :
  snd m = Exit c -> bind m k = (fst m, Exit c).
Proof. intros H. unfold bind. now rewrite H. Qed.

Lemma bind_Raise {A B} (m : io A) (k : A -> io B) (e : exception) :
  snd m = Raise e -> bind m k = (fst m, Raise e).
Proof. intros H. unfold bind. now rewrite H. Qed.

Section WithRuntime.
Context {R : PyRuntime}.

(** How "Save to file" ends. *)
Lemma save_output_cases (w : World) (args : Namespace) (out : pystr) :
  (truthy (opt_str (save args)) = false /\ save_output w args out = ([], Ok tt))
  \/ exists path,
       save args = Some path /\ path <> [] /\
       ((write_file w path out = None /\
         save_output w args out
         = ([EvWrite path out;
             EvPrint Stderr (newline :: u "Response saved to: " ++ path)], Ok tt))
        \/ (exists e,
              write_file w path out = Some e /\ isinstance e Exception = true /\
              save_output w args out
              = ([EvWrite path out;
                  EvPrint Stderr (u "Error saving file: " ++ exc_str e)], Ok tt))
        \/ (exists e,
              write_file w path out = Some e /\ isinstance e Exception = false /\
              save_output w args out = ([EvWrite path out], Raise e))).
Proof.
  unfold save_output.
  destruct (save args) as [[|c path]|]; cbn [opt_str truthy or_default];
    [left; split; reflexivity | | left; split; reflexivity].
  right. exists (c :: path). split; [reflexivity|]. split; [discriminate|].
  destruct (write_file w (c :: path) out) as [e|] eqn:Hw.
  - right. destruct (isinstance e Exception) eqn:Hi.
    + left. exists e. repeat split; try assumption.
      unfold try_except, bind. cbn [fst snd existsb]. rewrite Hi. reflexivity.
    + right. exists e. repeat split; try assumption.
      unfold try_except, bind. cbn [fst snd existsb]. rewrite Hi. reflexivity.
  - left. split; reflexivity.
Qed.

(** What [main] does once the client has returned: it stops with a report
    on the error stream, or it prints the output and goes on to save
    it. *)
Lemma after_response_cases (w : World) (args : Namespace) (v : pyval) :
  (forallb on_stderr (fst (after_response w args v)) = true /\
   (snd (after_response w args v) = Exit 1
    \/ exists e, snd (after_response w args v) = Raise e))
  \/ (exists out,
        py_contains (u "error") v = Ok false /\
        prepare_output args v = ([], Ok out) /\
        after_response w args v
        = (EvPrint Stdout out :: fst (save_output w args out),
           snd (save_output w args out))).
Proof.
  unfold after_response.
  destruct (py_contains (u "error") v) as [[|]|e|c] eqn:Hc.
  - left. rewrite bind_lift_Ok.
    destruct (report_failure_cases v) as [Hq Hend].
    destruct Hend as [Hx | [e Hx]];
      [rewrite (bind_Exit _ _ 1 Hx) | rewrite (bind_Raise _ _ e Hx)];
      cbn [fst snd]; (split; [exact Hq|]); [left | right; exists e]; reflexivity.
  - rewrite bind_lift_Ok, bind_ret.
    destruct (prepare_output_cases args v) as [[out H] | [[e H] | [msg H]]];
      rewrite H.
    + right. exists out. repeat split.
    + left. split; [reflexivity | right; exists e; reflexivity].
    + left. split; [reflexivity | left; reflexivity].
  - left. split; [reflexivity | right; exists e; reflexivity].
  - now destruct (py_contains_no_exit (u "error") v c).
Qed.

(** The two ends of [chat_completion]: a returned value, or an exception
    that is no [RequestException]; one request was posted in both
    cases. *)
Lemma chat_completion_cases (w : World) (self : PerplexityClient)
    (p : ChatParams) :
  (exists v, chat_completion w self p = ([EvPost (request_of self p)], Ok v))
  \/ (exists e, chat_completion w self p = ([EvPost (request_of self p)], Raise e)
                /\ isinstance e RequestException = false).
Proof.
  rewrite chat_completion_eq. unfold try_except, exchange. cbn [fst snd].
  assert (forall e,
             (exists v,
                 (if existsb (isinstance e) [RequestException]
                  then ([EvPost (request_of self p)] ++ fst (ret (error_detail e)),
                        snd (ret (error_detail e)))
                  else ([EvPost (request_of self p)], Raise e))
                 = ([EvPost (request_of self p)], Ok v))
             \/ (exists e',
                    (if existsb (isinstance e) [RequestException]
                     then ([EvPost (request_of self p)] ++ fst (ret (error_detail e)),
                           snd (ret (error_detail e)))
                     else ([EvPost (request_of self p)], Raise e))
                    = ([EvPost (request_of self p)], Raise e')
                    /\ isinstance e' RequestException = false)) as Hraise.
  { intros e. cbn [existsb]. rewrite orb_false_r.
    destruct (isinstance e RequestException) eqn:Hi.
    - left. eexists. reflexivity.
    - right. exists e. split; [reflexivity | exact Hi]. }
  destruct (post w (request_of self p)) as [e|r]; [apply Hraise|].
  destruct (raise_for_status r) as [e|]; [apply Hraise|].
  unfold response_json. destruct (loads (text r)) as [v|]; [|apply Hraise].
  left. exists v. reflexivity.
Qed.

(** A run with an API key: the request, then either the exception that
    [chat_completion] let through, or what follows the returned value. *)
Lemma main_run (w : World) (cl : CommandLine) (key : pystr) :
  let args := parse_args (environ_api_key w) cl in
  api_key args = Some key ->
  key <> [] ->
  (exists e, main w cl = ([EvPost (cli_request key args)], Raise e))
  \/ (exists v,
        chat_completion w (new_client key) (cli_params args)
        = ([EvPost (cli_request key args)], Ok v) /\
        main w cl
        = (EvPost (cli_request key args) :: fst (after_response w args v),
           snd (after_response w args v))).
Proof.
  intros args Hk Hne. rewrite (main_with_key w cl key Hk Hne). fold args.
  destruct (chat_completion_cases w (new_client key) (cli_params args))
    as [[v H] | [e [H _]]].
  - right. exists v. split; [exact H|]. rewrite H. reflexivity.
  - left. exists e. rewrite H. reflexivity.
Qed.

(** Without a key, [main] stops at once. *)
Lemma main_without_key (w : World) (cl : CommandLine) :
  truthy (opt_str (api_key (parse_args (environ_api_key w) cl))) = false ->
  main w cl
  = ([EvPrint Stderr (u "Error: Perplexity API key is required!");
      EvPrint Stderr
        (u "Either set PERPLEXITY_API_KEY environment variable or use --api-key")],
     Exit 1).
Proof. intros H. unfold main. rewrite H. reflexivity. Qed.

Lemma key_or_not (w : World) (cl : CommandLine) :
  truthy (opt_str (api_key (parse_args (environ_api_key w) cl))) = false
  \/ exists key, api_key (parse_args (environ_api_key w) cl) = Some key /\ key <> [].
Proof.
  destruct (api_key (parse_args (environ_api_key w) cl)) as [[|c key]|].
  - left; reflexivity.
  - right. exists (c :: key). split; [reflexivity | discriminate].
  - left; reflexivity.
Qed.

(** A status outside 4xx and 5xx raises nothing. *)
Lemma raise_for_status_other (r : Response) :
  ~ (400 <= status_code r < 600) -> raise_for_status r = None.
Proof.
  intros Hs. unfold raise_for_status.
  destruct ((400 <=? status_code r) && (status_code r <? 500)) eqn:E4.
  - apply andb_true_iff in E4. rewrite Z.leb_le, Z.ltb_lt in E4. lia.
  - destruct ((500 <=? status_code r) && (status_code r <? 600)) eqn:E5;
      [|reflexivity].
    apply andb_true_iff in E5. rewrite Z.leb_le, Z.ltb_lt in E5. lia.
Qed.

(** A run whose request is answered with a status that is no error and a
    body that decodes: what follows the request is what [main] does
    with the decoded body. *)
Lemma main_after_decoded (w : World) (cl : CommandLine) (key : pystr)
    (r : Response) (v : pyval) :
  let args := parse_args (environ_api_key w) cl in
  api_key args = Some key ->
  key <> [] ->
  post w (cli_request key args) = PostReturns r ->
  ~ (400 <= status_code r < 600) ->
  loads (text r) = Some v ->
  main w cl
  = (EvPost (cli_request key args) :: fst (after_response w args v),
     snd (after_response w args v)).
Proof.
  intros args Hk Hne Hp Hs Hl.
  rewrite (main_with_key w cl key Hk Hne). fold args.
  rewrite chat_completion_cli.
  rewrite (exchange_returns _ _ r v Hp (raise_for_status_other r Hs) Hl).
  rewrite try_except_Ok, bind_Ok. reflexivity.
Qed.

End WithRuntime.

(* ================================================================== *)
(** ** The API key *)

(** X1. A run without an API key: [--api-key] was given an empty text, or it
    was not given and the environment variable is unset or empty. Exactly
    then [main] prints its two lines about the key on the error stream and
    ends with [sys.exit(1)], with no request posted, nothing on the output
    stream and no file written. An empty [--api-key] is not replaced by the
    key of the environment. *)
Theorem X1_missing_key_iff_key_report {R : PyRuntime}
    (w : World) (cl : CommandLine) :
  (cl_api_key cl = Some []
   \/ (cl_api_key cl = None /\
       (environ_api_key w = None \/ environ_api_key w = Some [])))
  <-> main w cl
      = ([EvPrint Stderr (u "Error: Perplexity API key is required!");
          EvPrint Stderr
            (u "Either set PERPLEXITY_API_KEY environment variable or use --api-key")],
         Exit 1).
Proof.
  split.
  - intros H. apply main_without_key. cbn [parse_args api_key].
    destruct H as [-> | [-> [-> | ->]]]; reflexivity.
  - intros H.
    destruct (key_or_not w cl) as [Hk | (key & Hk & Hne)].
    + cbn [parse_args api_key] in Hk.
      destruct (cl_api_key cl) as [[|c k]|]; [now left | discriminate Hk |].
      right. split; [reflexivity|].
      destruct (environ_api_key w) as [[|c k]|];
        [now right | discriminate Hk | now left].
    + destruct (main_run w cl key Hk Hne) as [[e He] | (v & _ & Hv)];
        rewrite H in *; discriminate.
Qed.

Section WithRuntime.
Context {R : PyRuntime}.

(** What follows the request in a run posts nothing more. *)
Lemma after_response_posts_nothing (w : World) (args : Namespace) (v : pyval) :
  requests_of (fst (after_response w args v)) = [].
Proof.
  destruct (after_response_cases w args v) as [[Hq _] | (out & _ & _ & ->)].
  - now apply stderr_only_silent.
  - cbn [fst requests_of flat_map app].
    destruct (save_output_cases w args out)
      as [[_ ->] | (path & _ & _ & [[_ ->] | [(e & _ & _ & ->) | (e & _ & _ & ->)]])];
      reflexivity.
Qed.

End WithRuntime.

(** X2. With an API key, a run starts with one request and posts no other: a
    POST to the chat completions endpoint, with the key as bearer token and
    the JSON content type, whose payload has the question as its only
    message, sent in the role of the user. The key is the one of [--api-key]
    when that option is given, the one of the environment otherwise. *)
Theorem X2_main_posts_one_request {R : PyRuntime}
    (w : World) (cl : CommandLine) (key : pystr) :
  cl_api_key cl = Some key
  \/ (cl_api_key cl = None /\ environ_api_key w = Some key) ->
  key <> [] ->
  exists rq rest,
    fst (main w cl) = EvPost rq :: rest
    /\ requests_of (fst (main w cl)) = [rq]
    /\ req_url rq = u "https://api.perplexity.ai/chat/completions"
    /\ req_headers rq
       = [(u "Authorization", u "Bearer " ++ key);
          (u "Content-Type", u "application/json")]
    /\ dict_get (req_json rq) (u "messages")
       = Some (PList [PDict [(u "role", PStr (u "user"));
                             (u "content", PStr (cl_question cl))]]).
Proof.
  intros Hkey Hne.
  set (args := parse_args (environ_api_key w) cl).
  assert (api_key args = Some key) as Hk.
  { subst args. cbn [parse_args api_key].
    destruct Hkey as [-> | [-> ->]]; reflexivity. }
  exists (cli_request key args).
  assert (dict_get (req_json (cli_request key args)) (u "messages")
          = Some (PList [PDict [(u "role", PStr (u "user"));
                                (u "content", PStr (cl_question cl))]])) as Hm.
  { cbn [cli_request req_json]. rewrite build_payload_get.
    unfold assemble_payload.
    destruct (truthy (search_domain_filter (cli_params args)));
      destruct (truthy (search_recency_filter (cli_params args))); reflexivity. }
  subst args.
  destruct (main_run w cl key Hk Hne) as [[e He] | (v & _ & Hv)].
  - exists []. rewrite He. repeat split; assumption.
  - eexists. rewrite Hv. cbn [fst].
    split; [reflexivity|]. split; [|repeat split; assumption].
    unfold requests_of at 1. cbn [flat_map app]. fold requests_of.
    now rewrite after_response_posts_nothing.
Qed.

(** The theorem for the plain command line and a server that answers 200
    with the body of claim C4. *)
Lemma X2_witness :
  exists rq rest,
    fst (@main Samples.sample_runtime
           (Samples.answering 200 "OK"
              (@dumps Samples.sample_runtime None hello_body) None)
           Samples.plain_command_line) = EvPost rq :: rest
    /\ requests_of
         (fst (@main Samples.sample_runtime
                 (Samples.answering 200 "OK"
                    (@dumps Samples.sample_runtime None hello_body) None)
                 Samples.plain_command_line)) = [rq]
    /\ req_url rq = u "https://api.perplexity.ai/chat/completions"
    /\ req_headers rq
       = [(u "Authorization", u "Bearer " ++ u "secret");
          (u "Content-Type", u "application/json")]
    /\ dict_get (req_json rq) (u "messages")
       = Some (PList [PDict [(u "role", PStr (u "user"));
                             (u "content", PStr (u "What is machine learning?"))]]).
Proof.
  apply (@X2_main_posts_one_request Samples.sample_runtime
           (Samples.answering 200 "OK"
              (@dumps Samples.sample_runtime None hello_body) None)
           Samples.plain_command_line (u "secret")).
  - left; reflexivity.
  - discriminate.
Defined.

(* ================================================================== *)
(** ** From the command line to the payload *)

Section WithRuntime.
Context {R : PyRuntime}.

(** The requests of a run: none without a key, the one of the command
    line with a key. *)
Lemma main_requests (w : World) (cl : CommandLine) :
  let args := parse_args (environ_api_key w) cl in
  requests_of (fst (main w cl)) = []
  \/ requests_of (fst (main w cl))
     = [cli_request (or_default [] (api_key args)) args].
Proof.
  intros args. subst args.
  destruct (key_or_not w cl) as [Hk | (key & Hk & Hne)].
  - left. now rewrite (main_without_key w cl Hk).
  - right. rewrite Hk. cbn [or_default].
    destruct (main_run w cl key Hk Hne) as [[e He] | (v & _ & Hv)].
    + now rewrite He.
    + rewrite Hv. cbn [fst]. unfold requests_of at 1. cbn [flat_map app].
      fold requests_of. now rewrite after_response_posts_nothing.
Qed.

End WithRuntime.

(** The payload that [main] has [chat_completion] build for a command
    line. *)
Lemma cli_request_payload (key : pystr) (getenv : option pystr)
    (cl : CommandLine) :
  req_json (cli_request key (parse_args getenv cl))
  = [ (u "model", PStr (or_default (u "sonar") (cl_model cl)));
      (u "messages",
       PList [PDict [(u "role", PStr (u "user"));
                     (u "content", PStr (cl_question cl))]]) ]
    ++ match cl_max_tokens cl with
       | Some n => if n =? 0 then [] else [(u "max_tokens", PInt n)]
       | None => []
       end
    ++ [ (u "temperature", PFloat (or_default 0.2%float (cl_temperature cl)));
         (u "top_p", PFloat 0.9%float);
         (u "return_citations", PBool (negb (cl_no_citations cl)));
         (u "return_images", PBool (cl_images cl));
         (u "return_related_questions", PBool (cl_related_questions cl));
         (u "top_k", PInt 0);
         (u "stream", PBool false);
         (u "presence_penalty", PInt 0);
         (u "frequency_penalty", PInt 1) ]
    ++ match cl_domain_filter cl with
       | Some (x :: xs) =>
           [(u "search_domain_filter", PList (List.map PStr (x :: xs)))]
       | _ => []
       end
    ++ match cl_recency cl with
       | Some r => [(u "search_recency_filter", PStr (recency_str r))]
       | None => []
       end.
Proof.
  destruct cl as [q k mdl mt tmp cit nocit img rel dom rec js pr sv].
  cbn [cli_request req_json parse_args cl_model cl_question cl_max_tokens
       cl_temperature cl_no_citations cl_images cl_related_questions
       cl_domain_filter cl_recency].
  replace (negb nocit) with (store_true true cit && negb (store_true false nocit))
    by (now destruct cit; destruct nocit).
  replace img with (store_true false img) at 2 by (now destruct img).
  replace rel with (store_true false rel) at 2 by (now destruct rel).
  destruct mt as [n|]; [destruct (n =? 0) eqn:En|];
    destruct dom as [[|x xs]|]; destruct rec as [[| | |]|];
    cbv -[Z.eqb store_true andb negb]; rewrite ?En; reflexivity.
Qed.

(** X3. The payload of every request that [main] posts, option by option:
    the model ([sonar] unless [--model] is given), the question as the only
    message, [max_tokens] when [--max-tokens] is given and is not zero, the
    temperature (0.2 unless [--temperature] is given; a temperature of zero
    is sent), [return_citations] unless [--no-citations] is given, the two
    flags [--images] and [--related-questions], the domain filter when
    [--domain-filter] is given with at least one domain, the recency filter
    when [--recency] is given; [top_p], [top_k], [stream] and the two
    penalties always have the defaults of [chat_completion]. The entries
    come in this order, and there is no other. *)
Theorem X3_main_payload_of_command_line {R : PyRuntime} (w : World)
    (cl : CommandLine) (rq : Request) :
  In rq (requests_of (fst (main w cl))) ->
  req_json rq
  = [ (u "model", PStr (or_default (u "sonar") (cl_model cl)));
      (u "messages",
       PList [PDict [(u "role", PStr (u "user"));
                     (u "content", PStr (cl_question cl))]]) ]
    ++ match cl_max_tokens cl with
       | Some n => if n =? 0 then [] else [(u "max_tokens", PInt n)]
       | None => []
       end
    ++ [ (u "temperature", PFloat (or_default 0.2%float (cl_temperature cl)));
         (u "top_p", PFloat 0.9%float);
         (u "return_citations", PBool (negb (cl_no_citations cl)));
         (u "return_images", PBool (cl_images cl));
         (u "return_related_questions", PBool (cl_related_questions cl));
         (u "top_k", PInt 0);
         (u "stream", PBool false);
         (u "presence_penalty", PInt 0);
         (u "frequency_penalty", PInt 1) ]
    ++ match cl_domain_filter cl with
       | Some (x :: xs) =>
           [(u "search_domain_filter", PList (List.map PStr (x :: xs)))]
       | _ => []
       end
    ++ match cl_recency cl with
       | Some r => [(u "search_recency_filter", PStr (recency_str r))]
       | None => []
       end.
Proof.
  intros Hin.
  destruct (main_requests w cl) as [H | H]; rewrite H in Hin.
  - destruct Hin.
  - destruct Hin as [<- | []]. apply cli_request_payload.
Qed.

(** The theorem for [--max-tokens 0 --temperature 0 --domain-filter
    arxiv.org acm.org --recency week --no-citations]: no [max_tokens], a
    temperature of zero, the two domains in their order. *)
Lemma X3_witness :
  let cl :=
    {| cl_question := u "q"; cl_api_key := Some (u "secret");
       cl_model := None; cl_max_tokens := Some 0;
       cl_temperature := Some 0%float;
       cl_citations := false; cl_no_citations := true; cl_images := false;
       cl_related_questions := false;
       cl_domain_filter := Some [u "arxiv.org"; u "acm.org"];
       cl_recency := Some Week; cl_json := false; cl_pretty := false;
       cl_save := None |} in
  let w := Samples.answering 200 "OK" (u "{}") None in
  let rq := cli_request (u "secret") (parse_args None cl) in
  In rq (requests_of (fst (@main Samples.sample_runtime w cl)))
  /\ req_json rq
     = [ (u "model", PStr (u "sonar"));
         (u "messages",
          PList [PDict [(u "role", PStr (u "user")); (u "content", PStr (u "q"))]]);
         (u "temperature", PFloat 0%float);
         (u "top_p", PFloat 0.9%float);
         (u "return_citations", PBool false);
         (u "return_images", PBool false);
         (u "return_related_questions", PBool false);
         (u "top_k", PInt 0);
         (u "stream", PBool false);
         (u "presence_penalty", PInt 0);
         (u "frequency_penalty", PInt 1);
         (u "search_domain_filter", PList [PStr (u "arxiv.org"); PStr (u "acm.org")]);
         (u "search_recency_filter", PStr (u "week")) ].
Proof.
  intros cl w rq.
  assert (In rq (requests_of (fst (@main Samples.sample_runtime w cl)))) as Hin.
  { left. reflexivity. }
  split; [exact Hin|].
  exact (@X3_main_payload_of_command_line Samples.sample_runtime w cl rq Hin).
Defined.

(* ================================================================== *)
(** ** Exit status, output and saved file of any run *)

Section WithRuntime.
Context {R : PyRuntime}.

Lemma save_output_no_exit (w : World) (args : Namespace) (out : pystr) :
  no_exit (snd (save_output w args out)).
Proof.
  intros c.
  destruct (save_output_cases w args out)
    as [[_ ->] | (path & _ & _ & [[_ ->] | [(e & _ & _ & ->) | (e & _ & _ & ->)]])];
    discriminate.
Qed.

End WithRuntime.

(** X4. For a command line that argparse has accepted: whenever [main]
    then ends with one of its own calls of [sys.exit], the code is 1,
    nothing was printed on the output stream and no file was written, as
    the three calls (no key, a failed request, a response without the
    expected fields) all come before the output is displayed. The exits
    of argparse itself, with status 0 after it has printed the help for
    [--help] and with status 2 for a command line that it rejects, come
    before and are not meant. *)
Theorem X4_exit_is_1_and_silent {R : PyRuntime}
    (w : World) (cl : CommandLine) (c : Z) :
  snd (main w cl) = Exit c ->
  c = 1
  /\ printed Stdout (fst (main w cl)) = []
  /\ writes_of (fst (main w cl)) = [].
Proof.
  intros Hx.
  destruct (key_or_not w cl) as [Hk | (key & Hk & Hne)].
  - rewrite (main_without_key w cl Hk) in *. cbn [snd] in Hx.
    injection Hx as <-. repeat split.
  - destruct (main_run w cl key Hk Hne) as [[e He] | (v & _ & Hv)];
      rewrite ?He, ?Hv in *; [discriminate|].
    cbn [snd fst] in *.
    destruct (after_response_cases w (parse_args (environ_api_key w) cl) v)
      as [[Hq Hend] | (out & _ & _ & Ha)].
    + destruct (stderr_only_silent _ Hq) as (Hp & _ & Hw).
      split; [|split].
      * destruct Hend as [H1 | [e H1]]; rewrite H1 in Hx; congruence.
      * exact Hp.
      * exact Hw.
    + rewrite Ha in Hx. cbn [snd] in Hx.
      exact (False_ind _ (save_output_no_exit w _ out c Hx)).
Qed.

(** The theorem for a network that cannot be reached: the run ends
    with [sys.exit(1)]. *)
Lemma X4_witness :
  1 = 1
  /\ printed Stdout
       (fst (@main Samples.sample_runtime Samples.unreachable
               Samples.plain_command_line)) = []
  /\ writes_of
       (fst (@main Samples.sample_runtime Samples.unreachable
               Samples.plain_command_line)) = [].
Proof.
  apply (@X4_exit_is_1_and_silent Samples.sample_runtime Samples.unreachable
           Samples.plain_command_line 1).
  reflexivity.
Defined.

(** X5. Whenever [main] writes a file, it is the file named by [--save], the
    text written is the text that was printed on the output stream, the only
    one printed there, and nothing else is written. *)
Theorem X5_saved_text_is_printed_text {R : PyRuntime}
    (w : World) (cl : CommandLine)
    (path content : pystr) :
  In (EvWrite path content) (fst (main w cl)) ->
  cl_save cl = Some path
  /\ printed Stdout (fst (main w cl)) = [content]
  /\ writes_of (fst (main w cl)) = [(path, content)].
Proof.
  intros Hin.
  destruct (key_or_not w cl) as [Hk | (key & Hk & Hne)].
  - rewrite (main_without_key w cl Hk) in Hin. cbn [fst In] in Hin.
    destruct Hin as [H | [H | []]]; discriminate.
  - destruct (main_run w cl key Hk Hne) as [[e He] | (v & _ & Hv)];
      rewrite ?He, ?Hv in *; cbn [fst In] in Hin.
    + destruct Hin as [H | []]; discriminate.
    + destruct Hin as [H | Hin]; [discriminate|].
      destruct (after_response_cases w (parse_args (environ_api_key w) cl) v)
        as [[Hq _] | (out & _ & _ & Ha)].
      * exfalso. rewrite forallb_forall in Hq.
        specialize (Hq _ Hin). discriminate.
      * rewrite Ha in *. cbn [fst In] in Hin.
        destruct Hin as [H | Hin]; [discriminate|].
        destruct (save_output_cases w (parse_args (environ_api_key w) cl) out)
          as [[_ Hs] | (p & Hp & _ &
                        [[_ Hs] | [(e & _ & _ & Hs) | (e & _ & _ & Hs)]])];
          rewrite Hs in *; cbn [fst In] in Hin;
          repeat match goal with
                 | H : _ \/ _ |- _ => destruct H
                 | H : False |- _ => destruct H
                 | H : EvPrint _ _ = EvWrite _ _ |- _ => discriminate H
                 | H : EvWrite _ _ = EvWrite _ _ |- _ => injection H as <- <-
                 end;
          (split; [exact Hp | split; reflexivity]).
Qed.

(** The theorem for [--save out.txt] and a file system that accepts the
    write. *)
Lemma X5_witness :
  let cl :=
    {| cl_question := u "q"; cl_api_key := Some (u "secret");
       cl_model := None; cl_max_tokens := None; cl_temperature := None;
       cl_citations := false; cl_no_citations := false; cl_images := false;
       cl_related_questions := false; cl_domain_filter := None;
       cl_recency := None; cl_json := false; cl_pretty := false;
       cl_save := Some (u "out.txt") |} in
  let w :=
    Samples.answering 200 "OK" (@dumps Samples.sample_runtime None hello_body)
      None in
  let output := join [newline]
                  [u "hello"; newline :: u "Citations:"; u "1. a"; u "2. b"] in
  cl_save cl = Some (u "out.txt")
  /\ printed Stdout (fst (@main Samples.sample_runtime w cl)) = [output]
  /\ writes_of (fst (@main Samples.sample_runtime w cl)) = [(u "out.txt", output)].
Proof.
  intros cl w output.
  apply (@X5_saved_text_is_printed_text Samples.sample_runtime w cl
           (u "out.txt") output).
  right; right; left. reflexivity.
Defined.

(** X6. Whenever [main] has printed its output, it goes on to write it to
    the file named by [--save], once and whatever the output is; without
    [--save], or with an empty file name, it writes no file. *)
Theorem X6_every_output_is_saved_when_named {R : PyRuntime}
    (w : World) (cl : CommandLine)
    (out : pystr) :
  printed Stdout (fst (main w cl)) = [out] ->
  writes_of (fst (main w cl))
  = match cl_save cl with
    | Some (c :: path) => [(c :: path, out)]
    | _ => []
    end.
Proof.
  intros Hout.
  destruct (key_or_not w cl) as [Hk | (key & Hk & Hne)].
  - rewrite (main_without_key w cl Hk) in Hout. discriminate.
  - destruct (main_run w cl key Hk Hne) as [[e He] | (v & _ & Hv)];
      rewrite ?He, ?Hv in *; [discriminate|].
    cbn [fst] in *.
    destruct (after_response_cases w (parse_args (environ_api_key w) cl) v)
      as [[Hq _] | (out' & _ & _ & Ha)].
    + destruct (stderr_only_silent _ Hq) as (Hp & _ & _).
      unfold printed in Hout, Hp. cbn [flat_map app] in Hout.
      rewrite Hp in Hout. discriminate.
    + rewrite Ha in *. cbn [fst] in *.
      destruct (save_output_cases w (parse_args (environ_api_key w) cl) out')
        as [[Hn Hs] | (p & Hp & Hne' &
                       [[_ Hs] | [(e & _ & _ & Hs) | (e & _ & _ & Hs)]])];
        rewrite Hs in *; injection Hout as ->;
        cbn [save parse_args] in *;
        destruct (cl_save cl) as [[|c path]|];
        try discriminate; try reflexivity;
        try (injection Hp as <-); try reflexivity; now destruct Hne'.
Qed.

(** The theorem for [--save out.txt] and a file system that refuses the
    write: the write is attempted all the same. *)
Lemma X6_witness :
  let cl :=
    {| cl_question := u "q"; cl_api_key := Some (u "secret");
       cl_model := None; cl_max_tokens := None; cl_temperature := None;
       cl_citations := false; cl_no_citations := false; cl_images := false;
       cl_related_questions := false; cl_domain_filter := None;
       cl_recency := None; cl_json := false; cl_pretty := false;
       cl_save := Some (u "out.txt") |} in
  let w :=
    Samples.answering 200 "OK" (@dumps Samples.sample_runtime None hello_body)
      (Some (new_exc PermissionError (u "[Errno 13] Permission denied: 'out.txt'"))) in
  let output := join [newline]
                  [u "hello"; newline :: u "Citations:"; u "1. a"; u "2. b"] in
  writes_of (fst (@main Samples.sample_runtime w cl)) = [(u "out.txt", output)].
Proof.
  intros cl w output.
  apply (@X6_every_output_is_saved_when_named Samples.sample_runtime w cl output).
  reflexivity.
Defined.

(** X7. For a command line that argparse has accepted, the code of
    [main] prints nothing but the output on the output stream: however
    the run ends, either nothing is printed there, or one text is, and it
    is the rendering of a result that the client returned and in which
    [main] found no ["error"]; every other line that this code prints
    goes to the error stream. The help that argparse itself prints on the
    output stream for [--help], before it exits, is not meant. *)
Theorem X7_stdout_carries_only_the_output {R : PyRuntime}
    (w : World) (cl : CommandLine) :
  let args := parse_args (environ_api_key w) cl in
  printed Stdout (fst (main w cl)) = []
  \/ exists key v out,
       api_key args = Some key
       /\ chat_completion w (new_client key) (cli_params args)
          = ([EvPost (cli_request key args)], Ok v)
       /\ py_contains (u "error") v = Ok false
       /\ prepare_output args v = ret out
       /\ printed Stdout (fst (main w cl)) = [out].
Proof.
  intros args. subst args.
  destruct (key_or_not w cl) as [Hk | (key & Hk & Hne)].
  - left. now rewrite (main_without_key w cl Hk).
  - destruct (main_run w cl key Hk Hne) as [[e He] | (v & Hcc & Hv)].
    + left. now rewrite He.
    + rewrite Hv. cbn [fst].
      destruct (after_response_cases w (parse_args (environ_api_key w) cl) v)
        as [[Hq _] | (out & Hc & Hout & Ha)].
      * left. destruct (stderr_only_silent _ Hq) as (Hp & _ & _).
        unfold printed in *. cbn [flat_map app]. exact Hp.
      * right. exists key, v, out. rewrite Ha. cbn [fst].
        repeat (split; [assumption|]).
        destruct (save_output_cases w (parse_args (environ_api_key w) cl) out)
          as [[_ Hs] | (p & Hp & _ &
                        [[_ Hs] | [(e & _ & _ & Hs) | (e & _ & _ & Hs)]])];
          rewrite Hs; reflexivity.
Qed.




(** X9. Whenever [main] returns (exit status 0), the client has returned a
    result in which [main] found no ["error"], this result was rendered
    without an error, and the rendering is the one text printed on the
    output stream. A failed request never gives the exit status 0. *)
Theorem X9_normal_return_has_one_output {R : PyRuntime}
    (w : World) (cl : CommandLine) :
  snd (main w cl) = Ok tt ->
  let args := parse_args (environ_api_key w) cl in
  exists key v out,
    api_key args = Some key
    /\ chat_completion w (new_client key) (cli_params args)
       = ([EvPost (cli_request key args)], Ok v)
    /\ py_contains (u "error") v = Ok false
    /\ prepare_output args v = ret out
    /\ printed Stdout (fst (main w cl)) = [out].
Proof.
  intros Hx args. subst args.
  destruct (key_or_not w cl) as [Hk | (key & Hk & Hne)].
  - rewrite (main_without_key w cl Hk) in Hx. discriminate.
  - destruct (main_run w cl key Hk Hne) as [[e He] | (v & Hcc & Hv)];
      rewrite ?He, ?Hv in *; [discriminate|].
    cbn [snd fst] in *.
    destruct (after_response_cases w (parse_args (environ_api_key w) cl) v)
      as [[_ Hend] | (out & Hc & Hout & Ha)].
    + destruct Hend as [H1 | [e H1]]; rewrite H1 in Hx; discriminate.
    + exists key, v, out. rewrite Ha. cbn [fst].
      repeat (split; [assumption|]).
      destruct (save_output_cases w (parse_args (environ_api_key w) cl) out)
        as [[_ Hs] | (p & Hp & _ &
                      [[_ Hs] | [(e & _ & _ & Hs) | (e & _ & _ & Hs)]])];
        rewrite Hs; reflexivity.
Qed.

(** The theorem for a server that answers 200 with the body of
    claim C4. *)
Lemma X9_witness :
  let w := Samples.answering 200 "OK"
             (@dumps Samples.sample_runtime None hello_body) None in
  let cl := Samples.plain_command_line in
  let args := parse_args (environ_api_key w) cl in
  exists key v out,
    api_key args = Some key
    /\ @chat_completion Samples.sample_runtime w (new_client key) (cli_params args)
       = ([EvPost (cli_request key args)], Ok v)
    /\ py_contains (u "error") v = Ok false
    /\ @prepare_output Samples.sample_runtime args v = ret out
    /\ printed Stdout (fst (@main Samples.sample_runtime w cl)) = [out].
Proof.
  intros w cl.
  apply (@X9_normal_return_has_one_output Samples.sample_runtime w cl).
  reflexivity.
Defined.

(* ================================================================== *)
(** ** How a failed request is reported *)

Section WithRuntime.
Context {R : PyRuntime}.

(** The lines [main] prints for the dict that [chat_completion] built for
    a caught exception. *)
Lemma report_failure_error_detail (e : exception) :
  report_failure (error_detail e)
  = ([EvPrint Stderr (u "Error: " ++ exc_str e);
      EvPrint Stderr
        (u "Status Code: " ++
         match exc_response e with
         | Some r => int_str (status_code r)
         | None => u "None"
         end)]
     ++ match exc_response e with
        | Some r => [EvPrint Stderr (u "Response: " ++ text r)]
        | None => []
        end,
     Exit 1).
Proof. unfold error_detail. destruct (exc_response e); reflexivity. Qed.

Lemma main_after_caught (w : World) (cl : CommandLine) (key : pystr)
    (e : exception) :
  let args := parse_args (environ_api_key w) cl in
  api_key args = Some key ->
  key <> [] ->
  snd (exchange w (cli_request key args)) = Raise e ->
  isinstance e RequestException = true ->
  main w cl
  = (EvPost (cli_request key args) :: fst (report_failure (error_detail e)),
     Exit 1).
Proof.
  intros args Hk Hne Hx Hi.
  rewrite (main_with_key w cl key Hk Hne). fold args.
  change (cli_request key args) with (request_of (new_client key) (cli_params args))
    in *.
  rewrite (chat_completion_catches w _ _ e Hx Hi), bind_Ok.
  unfold after_response. rewrite error_detail_has_error, bind_lift_Ok.
  rewrite (bind_Exit (report_failure (error_detail e)) _ 1)
    by (now rewrite report_failure_error_detail).
  reflexivity.
Qed.

End WithRuntime.

(** X10. When [requests.post] raises a [RequestException] (no connection, a
    timeout), [main] prints on the error stream the message of the exception
    and a status line, which reads [Status Code: None] when the exception
    carries no response, followed by the text of the response when it
    carries one, and ends with [sys.exit(1)]. An exception of another class
    is not caught: the run ends with it, nothing printed. *)
Theorem X10_transport_failure_is_reported {R : PyRuntime}
    (w : World) (cl : CommandLine)
    (key : pystr) (e : exception) :
  let args := parse_args (environ_api_key w) cl in
  api_key args = Some key ->
  key <> [] ->
  post w (cli_request key args) = PostRaises e ->
  (isinstance e RequestException = true ->
   main w cl
   = ([EvPost (cli_request key args);
       EvPrint Stderr (u "Error: " ++ exc_str e);
       EvPrint Stderr
         (u "Status Code: " ++
          match exc_response e with
          | Some r => int_str (status_code r)
          | None => u "None"
          end)]
      ++ match exc_response e with
         | Some r => [EvPrint Stderr (u "Response: " ++ text r)]
         | None => []
         end,
      Exit 1))
  /\ (isinstance e RequestException = false ->
      main w cl = ([EvPost (cli_request key args)], Raise e)).
Proof.
  intros args Hk Hne Hp. split; intros Hi.
  - rewrite (main_after_caught w cl key e Hk Hne); fold args.
    + now rewrite report_failure_error_detail.
    + unfold exchange. now rewrite Hp.
    + exact Hi.
  - rewrite (main_with_key w cl key Hk Hne). fold args.
    rewrite chat_completion_cli. unfold try_except, exchange.
    rewrite Hp. cbn [snd fst existsb]. rewrite Hi. reflexivity.
Qed.

(** The theorem for a network that cannot be reached. *)
Lemma X10_witness :
  @main Samples.sample_runtime Samples.unreachable Samples.plain_command_line
  = ([EvPost (cli_request (u "secret")
                (parse_args None Samples.plain_command_line));
      EvPrint Stderr (u "Error: Connection refused");
      EvPrint Stderr (u "Status Code: None")], Exit 1).
Proof.
  apply (proj1 (@X10_transport_failure_is_reported Samples.sample_runtime
                  Samples.unreachable Samples.plain_command_line (u "secret")
                  (new_exc ConnectionError (u "Connection refused"))
                  eq_refl ltac:(discriminate) eq_refl)).
  reflexivity.
Defined.

(** X11. When the API answers with a 4xx or 5xx status, [main] prints three
    lines on the error stream and ends with [sys.exit(1)]: the message of
    the [HTTPError] (the status, [Client Error] below 500 and [Server Error]
    from 500 on, the reason phrase and the URL), the status code, and the
    text of the response. *)
Theorem X11_http_error_is_reported {R : PyRuntime}
    (w : World) (cl : CommandLine) (key : pystr)
    (r : Response) :
  let args := parse_args (environ_api_key w) cl in
  api_key args = Some key ->
  key <> [] ->
  post w (cli_request key args) = PostReturns r ->
  400 <= status_code r < 600 ->
  main w cl
  = ([EvPost (cli_request key args);
      EvPrint Stderr
        (u "Error: " ++ int_str (status_code r) ++
         (if status_code r <? 500 then u " Client Error: "
          else u " Server Error: ") ++
         reason r ++ u " for url: " ++ url r);
      EvPrint Stderr (u "Status Code: " ++ int_str (status_code r));
      EvPrint Stderr (u "Response: " ++ text r)],
     Exit 1).
Proof.
  intros args Hk Hne Hp Hs.
  assert (exists e,
             raise_for_status r = Some e /\ exc_response e = Some r /\
             exc_type e = HTTPError /\
             exc_str e
             = int_str (status_code r) ++
               (if status_code r <? 500 then u " Client Error: "
                else u " Server Error: ") ++
               reason r ++ u " for url: " ++ url r) as (e & He & Hr & Ht & Hm).
  { unfold raise_for_status.
    destruct (status_code r <? 500) eqn:E5.
    - replace (400 <=? status_code r) with true by (symmetry; apply Z.leb_le; lia).
      cbn [andb]. eexists. repeat split.
    - replace (500 <=? status_code r) with true
        by (symmetry; apply Z.leb_le; apply Z.ltb_ge in E5; lia).
      replace (status_code r <? 600) with true by (symmetry; apply Z.ltb_lt; lia).
      rewrite andb_false_r. cbn [andb]. eexists. repeat split. }
  rewrite (main_after_caught w cl key e Hk Hne); fold args.
  - rewrite report_failure_error_detail, Hr, Hm. reflexivity.
  - unfold exchange. now rewrite Hp, He.
  - unfold isinstance. now rewrite Ht.
Qed.

(** The theorem for a server that answers 401. *)
Lemma X11_witness :
  @main Samples.sample_runtime
    (Samples.answering 401 "Unauthorized" (u "{'detail': 'bad key'}") None)
    Samples.plain_command_line
  = ([EvPost (cli_request (u "secret")
                (parse_args None Samples.plain_command_line));
      EvPrint Stderr
        (u "Error: 401 Client Error: Unauthorized for url: https://api.perplexity.ai/chat/completions");
      EvPrint Stderr (u "Status Code: 401");
      EvPrint Stderr (u "Response: {'detail': 'bad key'}")], Exit 1).
Proof.
  apply (@X11_http_error_is_reported Samples.sample_runtime
           (Samples.answering 401 "Unauthorized" (u "{'detail': 'bad key'}") None)
           Samples.plain_command_line (u "secret")
           {| status_code := 401; reason := u "Unauthorized";
              url := req_url (cli_request (u "secret")
                                (parse_args None Samples.plain_command_line));
              text := u "{'detail': 'bad key'}" |}).
  - reflexivity.
  - discriminate.
  - reflexivity.
  - simpl; lia.
Defined.

(** X12. When the API answers with a status that is no error but with a body
    that is not JSON (an empty body is not), [main] prints the message of
    the decoder and [Status Code: None] on the error stream and ends with
    [sys.exit(1)]: the status and the text of the response that did arrive
    are not shown. *)
Theorem X12_undecodable_body_is_reported {R : PyRuntime}
    (w : World) (cl : CommandLine)
    (key : pystr) (r : Response) :
  let args := parse_args (environ_api_key w) cl in
  api_key args = Some key ->
  key <> [] ->
  post w (cli_request key args) = PostReturns r ->
  ~ (400 <= status_code r < 600) ->
  loads (text r) = None ->
  main w cl
  = ([EvPost (cli_request key args);
      EvPrint Stderr (u "Error: " ++ json_error_text (text r));
      EvPrint Stderr (u "Status Code: None")],
     Exit 1).
Proof.
  intros args Hk Hne Hp Hs Hl.
  pose proof (raise_for_status_other r Hs) as Hr.
  rewrite (main_after_caught w cl key
             (new_exc JSONDecodeError (json_error_text (text r))) Hk Hne);
    fold args.
  - now rewrite report_failure_error_detail.
  - unfold exchange, response_json. now rewrite Hp, Hr, Hl.
  - reflexivity.
Qed.

(** The theorem for a server that answers 204 with an empty
    body. *)
Lemma X12_witness :
  @main Samples.sample_runtime
    (Samples.answering 204 "No Content" [] None) Samples.plain_command_line
  = ([EvPost (cli_request (u "secret")
                (parse_args None Samples.plain_command_line));
      EvPrint Stderr (u "Error: Expecting value: line 1 column 1 (char 0)");
      EvPrint Stderr (u "Status Code: None")], Exit 1).
Proof.
  apply (@X12_undecodable_body_is_reported Samples.sample_runtime
           (Samples.answering 204 "No Content" [] None)
           Samples.plain_command_line (u "secret")
           {| status_code := 204; reason := u "No Content";
              url := req_url (cli_request (u "secret")
                                (parse_args None Samples.plain_command_line));
              text := [] |}).
  - reflexivity.
  - discriminate.
  - reflexivity.
  - simpl; lia.
  - reflexivity.
Defined.

(* ================================================================== *)
(** ** The [--json] mode *)

(** Shows that a given text is plain, code point by code point. *)
Ltac plain_by_computation :=
  unfold plain_text;
  match goal with
  | |- Forall _ ?t => let t' := eval vm_compute in t in change t with t'
  end;
  repeat (apply Forall_cons; [split; reflexivity|]); apply Forall_nil.

(** X13. With [--json], [main] does not look at the shape of the result:
    when the body of the response decodes to a value in which [main] finds
    no ["error"], whatever else the value has or lacks, the one text printed
    on the output stream is [json.dumps] of the value with an indent of 2,
    with or without [--pretty]; no command line gives the compact form. When
    no file is to be saved, that is the whole run after the request, and
    [main] returns. *)
Theorem X13_json_mode_prints_any_result {R : PyRuntime}
    (w : World) (cl : CommandLine)
    (key : pystr) (r : Response) (v : pyval) :
  let args := parse_args (environ_api_key w) cl in
  api_key args = Some key ->
  key <> [] ->
  post w (cli_request key args) = PostReturns r ->
  ~ (400 <= status_code r < 600) ->
  loads (text r) = Some v ->
  py_contains (u "error") v = Ok false ->
  cl_json cl = true ->
  printed Stdout (fst (main w cl)) = [dumps (Some 2%nat) v]
  /\ (cl_save cl = None ->
      main w cl
      = ([EvPost (cli_request key args);
          EvPrint Stdout (dumps (Some 2%nat) v)], Ok tt)).
Proof.
  intros args Hk Hne Hp Hs Hl Hc Hj.
  rewrite (main_after_decoded w cl key r v Hk Hne Hp Hs Hl). fold args.
  assert (after_response w args v
          = (EvPrint Stdout (dumps (Some 2%nat) v)
             :: fst (save_output w args (dumps (Some 2%nat) v)),
             snd (save_output w args (dumps (Some 2%nat) v)))) as Ha.
  { unfold after_response. rewrite Hc, bind_lift_Ok, bind_ret.
    unfold prepare_output. subst args.
    rewrite json_as_given, Hj, pretty_always_set, bind_ret, bind_print.
    reflexivity. }
  rewrite Ha. cbn [fst snd]. split.
  - destruct (save_output_cases w args (dumps (Some 2%nat) v))
      as [[_ Hsv] | (p & _ & _ &
                     [[_ Hsv] | [(e & _ & _ & Hsv) | (e & _ & _ & Hsv)]])];
      rewrite Hsv; reflexivity.
  - intros Hsave. unfold save_output. subst args. cbn [save parse_args].
    rewrite Hsave. reflexivity.
Qed.

(** The theorem for [--json] and a server that answers 200 with an
    object that has no [choices]. *)
Lemma X13_witness :
  let cl :=
    {| cl_question := u "q"; cl_api_key := Some (u "secret");
       cl_model := None; cl_max_tokens := None; cl_temperature := None;
       cl_citations := false; cl_no_citations := false; cl_images := false;
       cl_related_questions := false; cl_domain_filter := None;
       cl_recency := None; cl_json := true; cl_pretty := false;
       cl_save := None |} in
  let v := PDict [(u "answer", PList [PInt 1; PInt 2])] in
  let w := Samples.answering 200 "OK" (@dumps Samples.sample_runtime None v) None in
  printed Stdout (fst (@main Samples.sample_runtime w cl))
  = [@dumps Samples.sample_runtime (Some 2%nat) v]
  /\ @main Samples.sample_runtime w cl
     = ([EvPost (cli_request (u "secret") (parse_args None cl));
         EvPrint Stdout (@dumps Samples.sample_runtime (Some 2%nat) v)], Ok tt).
Proof.
  intros cl v w.
  destruct (@X13_json_mode_prints_any_result Samples.sample_runtime w cl (u "secret")
              {| status_code := 200; reason := u "OK";
                 url := req_url (cli_request (u "secret") (parse_args None cl));
                 text := @dumps Samples.sample_runtime None v |} v
              eq_refl ltac:(discriminate) eq_refl ltac:(simpl; lia)
              eq_refl eq_refl eq_refl) as [H1 H2].
  split; [exact H1 | exact (H2 eq_refl)].
Defined.

(** X14. With [--json], the text printed for a response reads back as the
    body of the response: when the text of the response has no surrogate
    code point and decodes to a value in which [main] finds no ["error"],
    [json.loads] of the one text printed on the output stream is that value.
    [float] and [repr] are taken to be inverse to each other on the floats
    that [float] returns. *)
Theorem X14_json_mode_output_reads_back {R : PyRuntime}
    (w : World) (cl : CommandLine)
    (key : pystr) (r : Response) (v : pyval) :
  let args := parse_args (environ_api_key w) cl in
  floats_read_back ->
  api_key args = Some key ->
  key <> [] ->
  post w (cli_request key args) = PostReturns r ->
  ~ (400 <= status_code r < 600) ->
  plain_text (text r) ->
  loads (text r) = Some v ->
  py_contains (u "error") v = Ok false ->
  cl_json cl = true ->
  exists out,
    printed Stdout (fst (main w cl)) = [out]
    /\ loads out = loads (text r).
Proof.
  intros args Hf Hk Hne Hp Hs Hplain Hl Hc Hj.
  exists (dumps (Some 2%nat) v). split.
  - rewrite (main_after_decoded w cl key r v Hk Hne Hp Hs Hl). fold args.
    unfold after_response. rewrite Hc, bind_lift_Ok, bind_ret.
    unfold prepare_output. subst args.
    rewrite json_as_given, Hj, pretty_always_set, bind_ret, bind_print.
    cbn [fst].
    destruct (save_output_cases w (parse_args (environ_api_key w) cl)
                (dumps (Some 2%nat) v))
      as [[_ Hsv] | (p & _ & _ &
                     [[_ Hsv] | [(e & _ & _ & Hsv) | (e & _ & _ & Hsv)]])];
      rewrite Hsv; reflexivity.
  - rewrite Hl. apply loads_dumps. exact (loads_decoded Hf (text r) v Hplain Hl).
Qed.

(** The theorem for [--json] and a server that answers 200 with
    the body of claim C4. *)
Lemma X14_witness :
  let cl :=
    {| cl_question := u "q"; cl_api_key := Some (u "secret");
       cl_model := None; cl_max_tokens := None; cl_temperature := None;
       cl_citations := false; cl_no_citations := false; cl_images := false;
       cl_related_questions := false; cl_domain_filter := None;
       cl_recency := None; cl_json := true; cl_pretty := false;
       cl_save := None |} in
  let body := @dumps Samples.sample_runtime None hello_body in
  let w := Samples.answering 200 "OK" body None in
  exists out,
    printed Stdout (fst (@main Samples.sample_runtime w cl)) = [out]
    /\ @loads Samples.sample_runtime out = @loads Samples.sample_runtime body.
Proof.
  intros cl body w.
  apply (@X14_json_mode_output_reads_back Samples.sample_runtime w cl (u "secret")
           {| status_code := 200; reason := u "OK";
              url := req_url (cli_request (u "secret") (parse_args None cl));
              text := body |} hello_body).
  - exact sample_floats_read_back.
  - reflexivity.
  - discriminate.
  - reflexivity.
  - simpl; lia.
  - cbn [text]. subst body. plain_by_computation.
  - reflexivity.
  - reflexivity.
  - reflexivity.
Defined.

(* ================================================================== *)
(** ** The text mode *)

Section WithRuntime.
Context {R : PyRuntime}.

Lemma numbered_nth (items : list pyval) (i : Z) (n : nat) :
  nth_error (numbered i items) n
  = option_map (fun x => int_str (i + Z.of_nat n) ++ u ". " ++ py_str x)
      (nth_error items n).
Proof.
  revert i n. induction items as [|x items IH]; intros i [|n];
    cbn [numbered nth_error option_map]; try reflexivity.
  - now rewrite Z.add_0_r.
  - rewrite IH. replace (i + 1 + Z.of_nat n) with (i + Z.of_nat (S n)) by lia.
    reflexivity.
Qed.

End WithRuntime.

(** X15. The lines of the citations section stand in the order of the
    citations, one line for each, and the line of the citation at position
    [n] (counted from 0) starts with the number [n + 1], a dot and a blank,
    followed by [str] of the citation. *)
Theorem X15_citation_lines_are_numbered_from_1 {R : PyRuntime}
    (items : list pyval) (n : nat) :
  List.length (numbered 1 items) = List.length items
  /\ nth_error (numbered 1 items) n
     = option_map
         (fun x => int_str (Z.of_nat n + 1) ++ u ". " ++ py_str x)
         (nth_error items n).
Proof.
  split.
  - generalize 1. induction items as [|x items IH]; intros i;
      cbn [numbered List.length]; [reflexivity | now rewrite IH].
  - rewrite numbered_nth. now rewrite Z.add_comm.
Qed.

(** X16. The layout of the text mode, for a response whose
    [choices[0].message.content] is a str, and whose [citations] and
    [related_questions] are lists or are missing. The output is the content;
    then, if there is a citation, an empty line, the line [Citations:] and
    the numbered citations; then, if [--related-questions] is given and
    there is a related question, an empty line, the line [Related
    Questions:] and one line for each question, made of the bullet of the
    script, a blank and the question. The lines are joined by line feeds,
    with none at the end. Without [--related-questions] the questions of the
    response are not shown. *)
Theorem X16_text_mode_layout {R : PyRuntime}
    (getenv : option pystr) (cl : CommandLine)
    (d o m : dict) (rest : list pyval) (c : pystr)
    (cits rels : option (list pyval)) :
  cl_json cl = false ->
  dict_get d (u "choices") = Some (PList (PDict o :: rest)) ->
  dict_get o (u "message") = Some (PDict m) ->
  dict_get m (u "content") = Some (PStr c) ->
  dict_get d (u "citations") = option_map PList cits ->
  dict_get d (u "related_questions") = option_map PList rels ->
  prepare_output (parse_args getenv cl) (PDict d)
  = ret (join [newline]
           (c :: match cits with
                 | Some (x :: xs) =>
                     (newline :: u "Citations:") :: numbered 1 (x :: xs)
                 | _ => []
                 end
              ++ match rels with
                 | Some (q :: qs) =>
                     if cl_related_questions cl
                     then (newline :: u "Related Questions:")
                          :: List.map (fun x => bullet ++ u " " ++ py_str x)
                               (q :: qs)
                     else []
                 | _ => []
                 end)).
Proof.
  intros Hj Hch Hm Hc Hcit Hrel.
  unfold prepare_output. rewrite json_as_given, Hj.
  unfold render_text, citations_section, related_section.
  rewrite citations_always_set.
  replace (related_questions (parse_args getenv cl)) with (cl_related_questions cl)
    by (unfold parse_args, store_true; cbn [related_questions];
        now destruct (cl_related_questions cl)).
  cbn [getitem_key py_get obind]. rewrite Hch, Hcit, Hrel. cbn [obind].
  rewrite getitem_index_head. cbn [getitem_key obind]. rewrite Hm.
  cbn [getitem_key obind]. rewrite Hc. cbn [obind].
  destruct cits as [[|x xs]|]; destruct rels as [[|q qs]|];
    destruct (cl_related_questions cl);
    cbn [option_map truthy obind py_iter app];
    rewrite ?List.app_nil_r; try rewrite str_join_strs; try reflexivity.
Qed.

(** The theorem for [--related-questions] and a response with one
    citation and one related question. *)
Lemma X16_witness :
  let cl :=
    {| cl_question := u "q"; cl_api_key := Some (u "secret");
       cl_model := None; cl_max_tokens := None; cl_temperature := None;
       cl_citations := false; cl_no_citations := false; cl_images := false;
       cl_related_questions := true; cl_domain_filter := None;
       cl_recency := None; cl_json := false; cl_pretty := false;
       cl_save := None |} in
  @prepare_output Samples.sample_runtime (parse_args None cl)
    (PDict
       [ (u "choices",
          PList [PDict [(u "message", PDict [(u "content", PStr (u "hello"))])]]);
         (u "citations", PList [PStr (u "a")]);
         (u "related_questions", PList [PStr (u "why")]) ])
  = ret (join [newline]
           [u "hello"; newline :: u "Citations:"; u "1. a";
            newline :: u "Related Questions:"; bullet ++ u " why"]).
Proof.
  intros cl.
  apply (@X16_text_mode_layout Samples.sample_runtime None cl
           [ (u "choices",
              PList [PDict [(u "message",
                             PDict [(u "content", PStr (u "hello"))])]]);
             (u "citations", PList [PStr (u "a")]);
             (u "related_questions", PList [PStr (u "why")]) ]
           [(u "message", PDict [(u "content", PStr (u "hello"))])]
           [(u "content", PStr (u "hello"))]
           [] (u "hello") (Some [PStr (u "a")]) (Some [PStr (u "why")]));
    reflexivity.
Defined.

(* ================================================================== *)
(** ** Flags that change nothing *)

(** X17. The flags [--citations] and [--pretty] have no effect: each one
    stores the value that its option has by default, so two command lines
    that differ only in these flags give the same run. *)
Theorem X17_citations_and_pretty_flags_change_nothing {R : PyRuntime}
    (w : World)
    (cl : CommandLine) (with_citations with_pretty : bool) :
  main w
    {| cl_question := cl_question cl; cl_api_key := cl_api_key cl;
       cl_model := cl_model cl; cl_max_tokens := cl_max_tokens cl;
       cl_temperature := cl_temperature cl;
       cl_citations := with_citations;
       cl_no_citations := cl_no_citations cl; cl_images := cl_images cl;
       cl_related_questions := cl_related_questions cl;
       cl_domain_filter := cl_domain_filter cl; cl_recency := cl_recency cl;
       cl_json := cl_json cl;
       cl_pretty := with_pretty;
       cl_save := cl_save cl |}
  = main w cl.
Proof.
  match goal with |- main w ?c = _ => set (cl' := c) end.
  assert (parse_args (environ_api_key w) cl' = parse_args (environ_api_key w) cl)
    as E.
  { unfold parse_args, store_true, cl'. cbn.
    now destruct with_citations; destruct with_pretty;
      destruct (cl_citations cl); destruct (cl_pretty cl). }
  unfold main. now rewrite E.
Qed.

(* ================================================================== *)
(** ** The keyword arguments of [ask] *)

Lemma set_param_keyword (name : pystr) (v : pyval) (p : ChatParams) :
  if is_keyword_parameter name
  then exists p', set_param name v p = Some p' /\ messages p' = messages p
  else set_param name v p = None.
Proof.
  unfold is_keyword_parameter, keyword_parameters, set_param.
  destruct p as [a b c d e f g h i j k l m n]. cbn [existsb].
  repeat match goal with
         | |- context [str_eqb name ?key] =>
             destruct (str_eqb name key); cbn [orb]
         end;
    try (eexists; split; reflexivity); reflexivity.
Qed.

Lemma bind_kwargs_keywords (kwargs : dict) (p : ChatParams) :
  if forallb is_keyword_parameter (dict_keys kwargs)
  then exists p', bind_kwargs kwargs p = Ok p' /\ messages p' = messages p
  else exists e, bind_kwargs kwargs p = Raise e /\ exc_type e = TypeError.
Proof.
  revert p. induction kwargs as [|[name v] kwargs IH]; intros p.
  - exists p. split; reflexivity.
  - cbn [dict_keys map fst forallb bind_kwargs].
    pose proof (set_param_keyword name v p) as Hs.
    destruct (is_keyword_parameter name); cbn [andb].
    + destruct Hs as (p' & -> & Hm). specialize (IH p').
      fold (dict_keys kwargs).
      destruct (forallb is_keyword_parameter (dict_keys kwargs)).
      * destruct IH as (p2 & -> & H2). exists p2. split; congruence.
      * exact IH.
    + rewrite Hs. destruct (str_eqb name (u "messages"));
        eexists; split; reflexivity.
Qed.

Lemma payload_messages (p : ChatParams) :
  dict_get (build_payload p) (u "messages")
  = if is_None (messages p) then None else Some (messages p).
Proof.
  destruct p as [msgs mdl mt tmp tp rc sdf ri rrq srf tk st pp fp].
  cbn [messages]. payload_lookup.
Qed.

(** X18. [ask] binds its keyword arguments before anything is sent. When one
    of them names no parameter of [chat_completion] (or names [messages]),
    the call raises a [TypeError] and no request is posted. Otherwise one
    request is posted, to the endpoint and with the headers of the client,
    and the messages of its payload are the question as the one message of
    the user: no keyword argument can replace them. *)
Theorem X18_ask_binds_keywords_before_posting {R : PyRuntime} (w : World)
    (self : PerplexityClient) (question : pystr) (kwargs : dict) :
  (forallb is_keyword_parameter (dict_keys kwargs) = false ->
   exists e, ask w self question kwargs = ([], Raise e)
             /\ exc_type e = TypeError)
  /\ (forallb is_keyword_parameter (dict_keys kwargs) = true ->
      exists rq o,
        ask w self question kwargs = ([EvPost rq], o)
        /\ req_url rq = base_url self ++ u "/chat/completions"
        /\ req_headers rq = headers self
        /\ dict_get (req_json rq) (u "messages")
           = Some (PList [PDict [(u "role", PStr (u "user"));
                                 (u "content", PStr question)]])).
Proof.
  set (msgs := PList [PDict [(u "role", PStr (u "user"));
                             (u "content", PStr question)]]).
  pose proof (bind_kwargs_keywords kwargs (default_params msgs)) as Hb.
  split; intros Hk; rewrite Hk in Hb.
  - destruct Hb as (e & He & Ht). exists e. split; [|exact Ht].
    unfold ask. fold msgs. rewrite He. reflexivity.
  - destruct Hb as (p & Hp & Hm). cbn [default_params messages] in Hm.
    exists (request_of self p).
    unfold ask. fold msgs. rewrite Hp, bind_lift_Ok.
    destruct (chat_completion_cases w self p) as [[v ->] | (e & -> & _)];
      eexists; (split; [reflexivity|]); (split; [reflexivity|]);
      (split; [reflexivity|]);
      cbn [request_of req_json]; rewrite payload_messages, Hm; reflexivity.
Qed.

(** The theorem for a misspelt keyword, and for a call with
    [max_tokens=5]. *)
Lemma X18_witness :
  (exists e,
      @ask Samples.sample_runtime Samples.unreachable (new_client (u "secret"))
        (u "q") [(u "max_token", PInt 5)] = ([], Raise e)
      /\ exc_type e = TypeError)
  /\ (exists rq o,
         @ask Samples.sample_runtime Samples.unreachable (new_client (u "secret"))
           (u "q") [(u "max_tokens", PInt 5)] = ([EvPost rq], o)
         /\ req_url rq = base_url (new_client (u "secret")) ++ u "/chat/completions"
         /\ req_headers rq = headers (new_client (u "secret"))
         /\ dict_get (req_json rq) (u "messages")
            = Some (PList [PDict [(u "role", PStr (u "user"));
                                  (u "content", PStr (u "q"))]])).
Proof.
  split.
  - apply (@X18_ask_binds_keywords_before_posting Samples.sample_runtime
             Samples.unreachable (new_client (u "secret")) (u "q")
             [(u "max_token", PInt 5)]).
    reflexivity.
  - apply (@X18_ask_binds_keywords_before_posting Samples.sample_runtime
             Samples.unreachable (new_client (u "secret")) (u "q")
             [(u "max_tokens", PInt 5)]).
    reflexivity.
Defined.

(* ================================================================== *)
(** ** A body that is JSON but no object *)

(** X19. When the body of the response decodes to a value that is no JSON
    object (null, a boolean, a number, a string or an array), the text mode
    ends with a [TypeError] that no handler catches, whatever the value is:
    nothing is printed by the script on either stream and no file is
    written. For null, a boolean and a number the same holds with [--json],
    as the exception is raised by the test for an ["error"] that comes
    before the output is prepared. *)
Theorem X19_non_object_body_raises_TypeError {R : PyRuntime}
    (w : World) (cl : CommandLine)
    (key : pystr) (r : Response) (v : pyval) :
  let args := parse_args (environ_api_key w) cl in
  api_key args = Some key ->
  key <> [] ->
  post w (cli_request key args) = PostReturns r ->
  ~ (400 <= status_code r < 600) ->
  loads (text r) = Some v ->
  (forall d, v <> PDict d) ->
  cl_json cl = false \/ (forall s, v <> PStr s) /\ (forall l, v <> PList l) ->
  exists e,
    main w cl = ([EvPost (cli_request key args)], Raise e)
    /\ exc_type e = TypeError.
Proof.
  intros args Hk Hne Hp Hs Hl Hd Hmode.
  rewrite (main_after_decoded w cl key r v Hk Hne Hp Hs Hl). fold args.
  assert (exists e, after_response w args v = ([], Raise e)
                    /\ exc_type e = TypeError) as (e & -> & Ht);
    [|exists e; split; [reflexivity | exact Ht]].
  unfold after_response.
  destruct v as [| b | z | f | s | l | d];
    try (eexists; split; reflexivity).
  - destruct Hmode as [Hj | [Hstr _]]; [|now destruct (Hstr s)].
    cbn [py_contains]. rewrite bind_lift_Ok.
    destruct (is_infix (u "error") s).
    + eexists; split; reflexivity.
    + rewrite bind_ret. unfold prepare_output. subst args.
      rewrite json_as_given, Hj. eexists; split; reflexivity.
  - destruct Hmode as [Hj | [_ Hlist]]; [|now destruct (Hlist l)].
    cbn [py_contains]. rewrite bind_lift_Ok.
    destruct (existsb (fun x => eq_str x (u "error")) l).
    + eexists; split; reflexivity.
    + rewrite bind_ret. unfold prepare_output. subst args.
      rewrite json_as_given, Hj. eexists; split; reflexivity.
  - now destruct (Hd d).
Qed.

(** The theorem for a server that answers 200 with the body [[]]. *)
Lemma X19_witness :
  exists e,
    @main Samples.sample_runtime
      (Samples.answering 200 "OK" (u "[]") None) Samples.plain_command_line
    = ([EvPost (cli_request (u "secret")
                  (parse_args None Samples.plain_command_line))], Raise e)
    /\ exc_type e = TypeError.
Proof.
  apply (@X19_non_object_body_raises_TypeError Samples.sample_runtime
           (Samples.answering 200 "OK" (u "[]") None)
           Samples.plain_command_line (u "secret")
           {| status_code := 200; reason := u "OK";
              url := req_url (cli_request (u "secret")
                                (parse_args None Samples.plain_command_line));
              text := u "[]" |} (PList [])).
  - reflexivity.
  - discriminate.
  - reflexivity.
  - simpl; lia.
  - reflexivity.
  - discriminate.
  - left; reflexivity.
Defined.

(* ================================================================== *)
(** ** The search filters of [chat_completion] *)

Lemma truthy_is_not_None (v : pyval) : truthy v = true -> is_None v = false.
Proof. now destruct v. Qed.

(** X20. Each of the two search filters is in the payload exactly when its
    value is truthy, and then with that value: [None], an empty list, an
    empty str, zero or [False] all leave the key out. *)
Theorem X20_search_filters_are_sent_iff_truthy (p : ChatParams) :
  dict_get (build_payload p) (u "search_domain_filter")
  = (if truthy (search_domain_filter p)
     then Some (search_domain_filter p) else None)
  /\ dict_get (build_payload p) (u "search_recency_filter")
     = (if truthy (search_recency_filter p)
        then Some (search_recency_filter p) else None).
Proof.
  destruct p as [msgs mdl mt tmp tp rc sdf ri rrq srf tk st pp fp].
  cbn [search_domain_filter search_recency_filter].
  rewrite !build_payload_get. unfold assemble_payload.
  cbn [search_domain_filter search_recency_filter].
  destruct (truthy sdf) eqn:E1; destruct (truthy srf) eqn:E2;
    cbv -[is_None];
    rewrite ?(truthy_is_not_None _ E1), ?(truthy_is_not_None _ E2);
    split; reflexivity.
Qed.

(* ================================================================== *)
(** ** The characters of a JSON output *)

Section AsciiOutput.
Local Open Scope N_scope.

Lemma hex_digit_output (d : N) : d < 16 -> json_output_char (hex_digit d) = true.
Proof.
  intros H. unfold hex_digit, json_output_char.
  destruct (d <? 10) eqn:E.
  - apply N.ltb_lt in E. apply orb_true_iff. right.
    apply andb_true_iff. rewrite !N.leb_le. lia.
  - apply N.ltb_ge in E. apply orb_true_iff. right.
    apply andb_true_iff. rewrite !N.leb_le. lia.
Qed.

Lemma u_escape_output (n : N) : forallb json_output_char (u_escape n) = true.
Proof.
  unfold u_escape, hex4. cbn [forallb].
  rewrite !hex_digit_output by (apply N.mod_lt; discriminate).
  reflexivity.
Qed.

Lemma escape_char_output (c : N) : forallb json_output_char (escape_char c) = true.
Proof.
  unfold escape_char.
  repeat match goal with
         | |- context [if ?b =? ?k then _ else _] =>
             destruct (b =? k); [reflexivity|]
         end.
  destruct ((32 <=? c) && (c <=? 126)) eqn:E.
  - cbn [forallb]. unfold json_output_char. rewrite E.
    now rewrite orb_true_r.
  - destruct (c <? 65536); [apply u_escape_output|].
    cbv zeta. rewrite forallb_app, !u_escape_output. reflexivity.
Qed.

Lemma encode_basestring_ascii_output (s : pystr) :
  forallb json_output_char (encode_basestring_ascii s) = true.
Proof.
  assert (forallb json_output_char (flat_map escape_char s) = true) as H.
  { induction s as [|c s IH]; [reflexivity|].
    cbn [flat_map]. now rewrite forallb_app, escape_char_output, IH. }
  unfold encode_basestring_ascii. cbn [forallb].
  rewrite forallb_app, H. reflexivity.
Qed.

Lemma uint_digits_output (d : Decimal.uint) :
  forallb json_output_char (uint_digits d) = true.
Proof. induction d; cbn [uint_digits forallb]; rewrite ?IHd; reflexivity. Qed.

Lemma int_str_output (z : Z) : forallb json_output_char (int_str z) = true.
Proof.
  unfold int_str. destruct (Z.to_int z); cbn [forallb];
    now rewrite uint_digits_output.
Qed.

Lemma newline_indent_output (indent : option nat) (level : nat) :
  forallb json_output_char (newline_indent indent level) = true.
Proof.
  unfold newline_indent. destruct indent as [n|]; [|reflexivity].
  cbn [forallb]. cbn [json_output_char N.eqb orb andb].
  induction (n * level)%nat as [|k IH]; [reflexivity | exact IH].
Qed.

Lemma join_output (sep : pystr) (parts : list pystr) :
  forallb json_output_char sep = true ->
  Forall (fun t => forallb json_output_char t = true) parts ->
  forallb json_output_char (join sep parts) = true.
Proof.
  intros Hsep H. induction H as [|t parts Ht Hparts IH]; [reflexivity|].
  cbn [join]. destruct parts as [|t' parts']; [exact Ht|].
  now rewrite !forallb_app, Ht, Hsep, IH.
Qed.

Section WithRuntime.
Context {R : PyRuntime}.

Hypothesis float_repr_output :
  forall f, forallb json_output_char (float_repr f) = true.

Lemma floatstr_output (f : float) : forallb json_output_char (floatstr f) = true.
Proof.
  unfold floatstr.
  destruct (negb (PrimFloat.eqb f f)); [reflexivity|].
  destruct (PrimFloat.eqb f infinity); [reflexivity|].
  destruct (PrimFloat.eqb f neg_infinity); [reflexivity|].
  apply float_repr_output.
Qed.

Lemma encode_output (indent : option nat) (v : pyval) :
  forall level, forallb json_output_char (encode indent level v) = true.
Proof.
  assert (forallb json_output_char (item_separator indent) = true) as Hsep
    by (now destruct indent).
  induction v as [ |b|z|f|s|l IHl|d IHd] using pyval_nested_ind; intros level.
  - reflexivity.
  - now destruct b.
  - apply int_str_output.
  - apply floatstr_output.
  - apply encode_basestring_ascii_output.
  - destruct l as [|x l]; [reflexivity|].
    cbn [encode]. rewrite !forallb_app, !newline_indent_output.
    cbn [forallb u].
    rewrite join_output; [reflexivity | |].
    + now rewrite forallb_app, Hsep, newline_indent_output.
    + apply Forall_map. revert IHl. apply Forall_impl. intros a Ha. apply Ha.
  - destruct d as [|kv d]; [reflexivity|].
    cbn [encode]. rewrite !forallb_app, !newline_indent_output.
    rewrite join_output; [reflexivity | |].
    + now rewrite forallb_app, Hsep, newline_indent_output.
    + apply Forall_map. revert IHd. apply Forall_impl. intros a Ha.
      now rewrite !forallb_app, encode_basestring_ascii_output, Ha.
Qed.

End WithRuntime.

End AsciiOutput.

(** X21. The output of [--json] and the dump of a response that the text
    mode could not render are plain ASCII, the default of [json.dumps]:
    every character is a printable ASCII character or a line feed,
    characters outside ASCII and control characters of the response being
    written as escapes. [repr] of a float is taken to be made of such
    characters. With [--json], preparing the output returns for every
    result. *)
Theorem X21_json_output_is_ascii {R : PyRuntime}
    (args : Namespace) (v : pyval) :
  (forall f, forallb json_output_char (float_repr f) = true) ->
  forallb json_output_char (dumps (Some 2%nat) v) = true
  /\ (json args = true ->
      exists out, prepare_output args v = ret out
                  /\ forallb json_output_char out = true).
Proof.
  intros Hf. split.
  - now apply encode_output.
  - intros Hj. unfold prepare_output. rewrite Hj. eexists.
    split; [reflexivity|]. now apply encode_output.
Qed.

(** The theorem for a body with a letter outside ASCII, a character
    outside the basic plane, a line feed and a quote. *)
Lemma X21_witness :
  forallb json_output_char
    (@dumps Samples.sample_runtime (Some 2%nat) detailed_body) = true.
Proof.
  apply (@X21_json_output_is_ascii Samples.sample_runtime
           (parse_args None Samples.plain_command_line) detailed_body).
  intros f. cbn [float_repr Samples.sample_runtime].
  destruct (PrimFloat.eqb f 0.2%float); [reflexivity|].
  destruct (PrimFloat.eqb f 0.9%float); reflexivity.
Defined.
